(** * Risk-gated order lifecycle: a shallow embedding of the backend

    The Python sources under [backend/] ([risk.py], [backtest.py],
    [strategy.py], [executor.py]) are embedded as Rocq functions, one module
    per class.  Conventions:

    - a Python [float] is an exact rational ([Q], compared with [==]); share
      and lot counts are Python [int]s ([Z]);
    - a [dict] keyed by instrument or order id is a [gmap string _];
    - an instance ([self]) is a record that every method takes and returns;
    - the wall clock, the latency measurement and [random.random()] are
      inputs of the method that reads them. *)

From Stdlib Require Import ZArith QArith Qround Qabs Lqa Lia.
From stdpp Require Import gmap strings list fin_maps pretty.

Open Scope Q_scope.

(** ** Python prelude *)

Module Py.

(** [float.__bool__]: zero is falsy. *)
Definition truthy (x : Q) : bool := negb (Qeq_bool x 0).

Definition Qlt_bool (x y : Q) : bool := negb (Qle_bool y x).

(** Built-in [round(x)] with one argument: the nearest integer, a value
    halfway between two integers going to the even one. *)
Definition round (x : Q) : Z :=
  let f := Qfloor x in
  match Qcompare (x - inject_Z f) (1 # 2) with
  | Lt => f
  | Gt => (f + 1)%Z
  | Eq => if Z.even f then f else (f + 1)%Z
  end.

(** [datetime.time]: compared field by field, most significant first. *)
Record time := TimeOfDay {
  hour : Z;
  minute : Z;
  second : Z;
  microsecond : Z
}.

Definition time_cmp (a b : time) : comparison :=
  match (hour a ?= hour b)%Z with
  | Eq =>
      match (minute a ?= minute b)%Z with
      | Eq =>
          match (second a ?= second b)%Z with
          | Eq => (microsecond a ?= microsecond b)%Z
          | c => c
          end
      | c => c
      end
  | c => c
  end.

Definition time_le (a b : time) : bool :=
  match time_cmp a b with Gt => false | _ => true end.

End Py.

(** ** Orders, as the executor builds them and the risk manager reads them *)

Module Order.

Inductive order_status := PENDING | OPEN | REJECTED | COMPLETE | CANCELLED | ERROR.

Definition status_name (st : order_status) : string :=
  match st with
  | PENDING => "PENDING"
  | OPEN => "OPEN"
  | REJECTED => "REJECTED"
  | COMPLETE => "COMPLETE"
  | CANCELLED => "CANCELLED"
  | ERROR => "ERROR"
  end.

(** [status in ["OPEN", "PENDING"]] *)
Definition is_live (st : order_status) : bool :=
  match st with
  | OPEN | PENDING => true
  | _ => false
  end.

(** The [order_data] dict of [place_order]; [price] is only present on a
    LIMIT order placed with a price, [rejection_reason] only after a
    rejection. *)
Record t := Make {
  order_id : string;
  instrument : string;
  transaction_type : string;
  quantity : Z;
  price : option Q;
  order_type : string;
  strategy : option string;
  timestamp : string;
  status : order_status;
  rejection_reason : option string
}.

Definition set_status (st : order_status) (o : t) : t :=
  Make (order_id o) (instrument o) (transaction_type o) (quantity o) (price o)
       (order_type o) (strategy o) (timestamp o) st (rejection_reason o).

Definition set_price (p : Q) (o : t) : t :=
  Make (order_id o) (instrument o) (transaction_type o) (quantity o) (Some p)
       (order_type o) (strategy o) (timestamp o) (status o) (rejection_reason o).

Definition set_quantity (q : Z) (o : t) : t :=
  Make (order_id o) (instrument o) (transaction_type o) q (price o)
       (order_type o) (strategy o) (timestamp o) (status o) (rejection_reason o).

End Order.

(** ** risk.py: [class RiskManager] *)

Module RiskManager.

(** One entry of [self.positions]. *)
Record position := Position {
  quantity : Z;
  avg_price : Q;
  last_price : Q;
  pnl : Q
}.

(** [self.risk_params].  [max_position_size] is the dict of per-instrument
    limits; its ["default"] entry is the fallback. *)
Record params := Params {
  max_position_size : gmap string Z;
  max_daily_loss : Q;
  max_notional_exposure : Q;
  max_drawdown : Q;
  market_hours_start : Py.time;
  market_hours_end : Py.time;
  auto_square_off_time : Py.time;
  max_open_orders : Z
}.

Definition default_params : params :=
  Params (<["default" := 100%Z]> (<["NIFTY" := 50%Z]> (<["BANKNIFTY" := 25%Z]> ∅)))
         10000 1000000 (5 # 100)
         (Py.TimeOfDay 9 15 0 0) (Py.TimeOfDay 15 30 0 0) (Py.TimeOfDay 15 15 0 0) 50.

Record t := Make {
  risk_params : params;
  positions : gmap string position;
  orders : gmap string Order.t;
  daily_pnl : Q;
  peak_pnl : Q;
  current_drawdown : Q;
  trading_enabled : bool;
  risk_breach : bool;
  risk_breach_reason : option string
}.

(** [__init__] *)
Definition init (rp : params) : t :=
  Make rp ∅ ∅ 0 0 0 true false None.

(** The order dict handed to [validate_order]. *)
Record request := Request {
  req_instrument : string;
  req_transaction_type : string;
  req_quantity : Z
}.

Definition check_market_hours (now : Py.time) (s : t) : bool :=
  Py.time_le (market_hours_start (risk_params s)) now
  && Py.time_le now (market_hours_end (risk_params s)).

Definition check_auto_square_off (now : Py.time) (s : t) : bool :=
  Py.time_le (auto_square_off_time (risk_params s)) now.

(** [self.positions.get(instrument, {}).get("quantity", 0)] *)
Definition position_quantity (s : t) (instrument : string) : Z :=
  match positions s !! instrument with
  | Some p => quantity p
  | None => 0%Z
  end.

(** [max_position_size.get(instrument, max_position_size["default"])]: the
    fallback is evaluated first, so a table without ["default"] is a
    [KeyError] ([None]). *)
Definition position_limit (s : t) (instrument : string) : option Z :=
  match max_position_size (risk_params s) !! "default" with
  | Some d =>
      Some (match max_position_size (risk_params s) !! instrument with
            | Some l => l
            | None => d
            end)
  | None => None
  end.

Definition check_position_limit (s : t) (instrument : string)
    (quantity_change : Z) : option bool :=
  let current_quantity := Z.abs (position_quantity s instrument) in
  let new_quantity := Z.abs (current_quantity + quantity_change) in
  match position_limit s instrument with
  | Some limit => Some (new_quantity <=? limit)%Z
  | None => None
  end.

Definition check_daily_loss_limit (s : t) : bool :=
  Qle_bool (- max_daily_loss (risk_params s)) (daily_pnl s).

Definition check_drawdown_limit (s : t) : bool :=
  Qle_bool (current_drawdown s) (max_drawdown (risk_params s)).

Definition exposure (p : position) : Q :=
  inject_Z (Z.abs (quantity p)) * last_price p.

Definition total_exposure (s : t) : Q :=
  map_fold (fun _ p acc => acc + exposure p) 0 (positions s).

Definition check_notional_exposure (s : t) : bool :=
  Qle_bool (total_exposure s) (max_notional_exposure (risk_params s)).

Definition open_orders_count (s : t) : Z :=
  map_fold (fun _ o n => if Order.is_live (Order.status o) then (n + 1)%Z else n)
           0%Z (orders s).

Definition check_open_orders_limit (s : t) : bool :=
  (open_orders_count s <=? max_open_orders (risk_params s))%Z.

(** The loop body of [update_pnl] leaves a position alone when one of the
    three figures is zero. *)
Definition skipped (p : position) : bool :=
  (quantity p =? 0)%Z || Qeq_bool (avg_price p) 0 || Qeq_bool (last_price p) 0.

Definition position_pnl (p : position) : Q :=
  (last_price p - avg_price p) * inject_Z (quantity p).

Definition mark (p : position) : position :=
  if skipped p then p
  else Position (quantity p) (avg_price p) (last_price p) (position_pnl p).

Definition total_pnl (ps : gmap string position) : Q :=
  map_fold (fun _ p acc => if skipped p then acc else acc + position_pnl p) 0 ps.

Definition update_pnl (s : t) : t :=
  let total := total_pnl (positions s) in
  let peak := if Py.Qlt_bool (peak_pnl s) total then total else peak_pnl s in
  let drawdown := if Py.Qlt_bool 0 peak then (peak - total) / peak else 0 in
  Make (risk_params s) (mark <$> positions s) (orders s)
       total peak drawdown
       (trading_enabled s) (risk_breach s) (risk_breach_reason s).

Definition set_positions (ps : gmap string position) (s : t) : t :=
  Make (risk_params s) ps (orders s) (daily_pnl s) (peak_pnl s)
       (current_drawdown s) (trading_enabled s) (risk_breach s)
       (risk_breach_reason s).

Definition update_position (instrument : string) (qty : Z) (price : Q) (s : t) : t :=
  let ps :=
    match positions s !! instrument with
    | Some _ => positions s
    | None => <[instrument := Position 0 0 0 0]> (positions s)
    end in
  let ps' :=
    alter (fun p => Position qty (avg_price p) price (pnl p)) instrument ps in
  update_pnl (set_positions ps' s).

(** The three assignments shared by every failing branch of
    [check_all_risk_limits], and those of the passing one. *)
Definition latch (reason : string) (s : t) : t :=
  Make (risk_params s) (positions s) (orders s) (daily_pnl s) (peak_pnl s)
       (current_drawdown s) false true (Some reason).

Definition clear (s : t) : t :=
  Make (risk_params s) (positions s) (orders s) (daily_pnl s) (peak_pnl s)
       (current_drawdown s) true false None.

(** [check_all_risk_limits] reads the clock twice: in [check_market_hours]
    and, when it gets that far, in [check_auto_square_off]. *)
Definition check_all_risk_limits (now_hours now_square : Py.time) (s : t) : bool * t :=
  if negb (check_market_hours now_hours s) then
    (false, latch "Outside market hours" s)
  else if negb (check_daily_loss_limit s) then
    (false, latch "Daily loss limit exceeded" s)
  else if negb (check_drawdown_limit s) then
    (false, latch "Drawdown limit exceeded" s)
  else if negb (check_notional_exposure s) then
    (false, latch "Notional exposure limit exceeded" s)
  else if negb (check_open_orders_limit s) then
    (false, latch "Open orders limit exceeded" s)
  else if check_auto_square_off now_square s then
    (false, latch "Auto square off time reached" s)
  else
    (true, clear s).

(** The reason shown in an f-string: [None] prints as ["None"]. *)
Definition show_reason (r : option string) : string :=
  match r with
  | Some m => m
  | None => "None"
  end.

Definition validate_order (s : t) (order : request) : option (bool * string) :=
  if negb (trading_enabled s) then
    Some (false, "Trading disabled: " +:+ show_reason (risk_breach_reason s))
  else
    let instrument := req_instrument order in
    let quantity_change :=
      if String.eqb (req_transaction_type order) "BUY"
      then req_quantity order else (- req_quantity order)%Z in
    match check_position_limit s instrument quantity_change with
    | None => None
    | Some false => Some (false, "Position limit exceeded for " +:+ instrument)
    | Some true => Some (true, "Order validated")
    end.

Definition set_orders (os : gmap string Order.t) (s : t) : t :=
  Make (risk_params s) (positions s) os (daily_pnl s) (peak_pnl s)
       (current_drawdown s) (trading_enabled s) (risk_breach s)
       (risk_breach_reason s).

(** [update_order]: [if order_id:] drops an order whose id is empty. *)
Definition update_order (order : Order.t) (s : t) : t :=
  if String.eqb (Order.order_id order) "" then s
  else set_orders (<[Order.order_id order := order]> (orders s)) s.

End RiskManager.

(** ** backtest.py: [class Backtest] *)

Module Backtest.

(** One entry of [self.positions]. *)
Record position := Position {
  quantity : Z;
  avg_price : Q;
  current_price : Q;
  realized_pnl : Q
}.

(** A signal dict as [execute_signal] reads it: [price] and [order_type]
    may be missing ([signal.get]); a missing [quantity] reads as 0. *)
Record signal := Signal {
  sig_instrument : string;
  sig_action : string;
  sig_quantity : Z;
  sig_price : option Q;
  sig_order_type : option string
}.

(** The values a trade dict holds. *)
Inductive value :=
| VStr (s : string)
| VInt (z : Z)
| VFloat (q : Q).

(** The trade of [execute_signal]; [to_dict] is the dict literal itself. *)
Record trade := Trade {
  instrument : string;
  action : string;
  trade_quantity : Z;
  price : Q;
  timestamp : string;
  order_type : string
}.

Definition to_dict (tr : trade) : gmap string value :=
  <["instrument" := VStr (instrument tr)]>
  (<["action" := VStr (action tr)]>
  (<["quantity" := VInt (trade_quantity tr)]>
  (<["price" := VFloat (price tr)]>
  (<["timestamp" := VStr (timestamp tr)]>
  (<["order_type" := VStr (order_type tr)]> ∅))))).

Record t := Make {
  trades : list trade;
  positions : gmap string position
}.

(** [run] resets both before the replay. *)
Definition init : t := Make [] ∅.

(** The position after the BUY / SELL branches and the final
    [current_price] assignment of [update_position]. *)
Definition fill (act : string) (qty : Z) (px : Q) (p : position) : position :=
  let trade_value := inject_Z qty * px in
  if String.eqb act "BUY" then
    let avg :=
      if (quantity p + qty =? 0)%Z then avg_price p
      else (inject_Z (quantity p) * avg_price p + trade_value)
           / inject_Z (quantity p + qty) in
    Position (quantity p + qty) avg px (realized_pnl p)
  else if String.eqb act "SELL" then
    let realized :=
      if (0 <? quantity p)%Z
      then realized_pnl p
           + (px - avg_price p) * inject_Z (Z.min qty (quantity p))
      else realized_pnl p in
    let q' := (quantity p - qty)%Z in
    let avg :=
      if (q' <? 0)%Z && (0 <? q' + qty)%Z then px else avg_price p in
    Position q' avg px realized
  else
    Position (quantity p) (avg_price p) px (realized_pnl p).

Definition update_position (tr : trade) (ps : gmap string position)
    : gmap string position :=
  let ps0 :=
    match ps !! instrument tr with
    | Some _ => ps
    | None => <[instrument tr := Position 0 0 (price tr) 0]> ps
    end in
  alter (fill (action tr) (trade_quantity tr) (price tr)) (instrument tr) ps0.

(** A call either returns the new state or raises. *)
Inductive outcome :=
| Done (b : t)
| Raised (exn : string).

(** [execute_signal].  With no usable price, or for a MARKET order, the
    method reads [self.market_data], an attribute [Backtest] never sets. *)
Definition execute_signal (sg : signal) (ts : string) (b : t) : outcome :=
  let otype := default "LIMIT" (sig_order_type sg) in
  let no_price :=
    match sig_price sg with
    | Some px => negb (Py.truthy px)
    | None => true
    end in
  if no_price || String.eqb otype "MARKET" then Raised "AttributeError"
  else
    match sig_price sg with
    | Some px =>
        if negb (Py.truthy px) then Done b
        else
          let tr := Trade (sig_instrument sg) (sig_action sg) (sig_quantity sg)
                          px ts otype in
          Done (Make (trades b ++ [tr]) (update_position tr (positions b)))
    | None => Done b
    end.

(** The signals of a replay, each with the timestamp of its tick; an
    exception ends the replay. *)
Fixpoint execute_signals (sgs : list (signal * string)) (b : t) : outcome :=
  match sgs with
  | [] => Done b
  | (sg, ts) :: rest =>
      match execute_signal sg ts b with
      | Done b' => execute_signals rest b'
      | Raised e => Raised e
      end
  end.

Definition calculate_equity (initial_capital : Q) (ps : gmap string position) : Q :=
  let equity := map_fold (fun _ p e => e + realized_pnl p) initial_capital ps in
  map_fold (fun _ p e =>
              if negb (quantity p =? 0)%Z && Py.truthy (avg_price p)
                 && Py.truthy (current_price p)
              then e + (current_price p - avg_price p) * inject_Z (quantity p)
              else e)
           equity ps.

(** [trade.get('pnl', 0) > 0]; comparing a string with 0 is a [TypeError]. *)
Definition is_winning (tr : trade) : option bool :=
  match to_dict tr !! "pnl" with
  | None => Some false
  | Some (VInt z) => Some (0 <? z)%Z
  | Some (VFloat q) => Some (Py.Qlt_bool 0 q)
  | Some (VStr _) => None
  end.

Fixpoint winning_trades (trs : list trade) : option Z :=
  match trs with
  | [] => Some 0%Z
  | tr :: rest =>
      match is_winning tr, winning_trades rest with
      | Some w, Some n => Some (if w then (1 + n)%Z else n)
      | _, _ => None
      end
  end.

(** The win-rate block of [calculate_performance_metrics]. *)
Definition win_rate (trs : list trade) : option Q :=
  if (0 <? Z.of_nat (length trs))%Z then
    match winning_trades trs with
    | Some w => Some (inject_Z w / inject_Z (Z.of_nat (length trs)))
    | None => None
    end
  else Some 0.

(** The closing loop of [process_tick]: the position of the tick's
    instrument, if there is one, takes the tick's price. *)
Definition mark_to_market (ins : string) (px : Q) (ps : gmap string position)
    : gmap string position :=
  alter (fun p => Position (quantity p) (avg_price p) px (realized_pnl p)) ins ps.

(** The [tick_data] dict of [run]. *)
Record tick := Tick {
  tick_instrument : string;
  ltp : Q;
  volume : Q;
  bid : Q;
  ask : Q;
  tick_timestamp : string
}.

(** [process_tick].  The strategy is asked for its signals after its
    [market_data] has taken the tick; nothing else of it is touched, so it is
    the function [generate_signals] of that dict. *)
Definition process_tick (generate_signals : gmap string tick -> list signal)
    (market_data : gmap string tick) (tk : tick) (b : t)
    : gmap string tick * outcome :=
  let market_data' := <[tick_instrument tk := tk]> market_data in
  let signals := generate_signals market_data' in
  match execute_signals (map (fun sg => (sg, tick_timestamp tk)) signals) b with
  | Done b' =>
      (market_data',
       Done (Make (trades b')
                  (mark_to_market (tick_instrument tk) (ltp tk) (positions b'))))
  | Raised e => (market_data', Raised e)
  end.

(** How the loop of [run] ends: with the equity curve and the final state,
    or with the exception of a tick. *)
Inductive replay_result :=
| Finished (equity_curve : list (string * Q)) (b : t)
| Aborted (exn : string).

(** The tick loop of [run], on the merged and sorted ticks; [curve] is the
    equity curve so far. *)
Fixpoint replay (generate_signals : gmap string tick -> list signal)
    (initial_capital : Q) (ticks : list tick)
    (market_data : gmap string tick) (b : t) (curve : list (string * Q))
    : replay_result :=
  match ticks with
  | [] => Finished curve b
  | tk :: rest =>
      match process_tick generate_signals market_data tk b with
      | (market_data', Done b') =>
          let current_equity := calculate_equity initial_capital (positions b') in
          replay generate_signals initial_capital rest market_data' b'
                 (curve ++ [(tick_timestamp tk, current_equity)])
      | (_, Raised e) => Aborted e
      end
  end.

(** [run] from the reset state: the curve opens with the initial capital at
    [start]. *)
Definition run (generate_signals : gmap string tick -> list signal)
    (start : string) (initial_capital : Q) (ticks : list tick) : replay_result :=
  replay generate_signals initial_capital ticks ∅ init [(start, initial_capital)].

(** The greater of two figures, the first one on a tie. *)
Definition fmax (a b : Q) : Q := if Py.Qlt_bool a b then b else a.

(** [Series.cummax()] *)
Fixpoint cummax_from (m : Q) (xs : list Q) : list Q :=
  match xs with
  | [] => []
  | x :: rest => fmax m x :: cummax_from (fmax m x) rest
  end.

Definition cummax (xs : list Q) : list Q :=
  match xs with
  | [] => []
  | x :: rest => x :: cummax_from x rest
  end.

(** [(cummax - equity) / cummax], row by row. *)
Definition drawdowns (equity : list Q) : list Q :=
  zip_with (fun c e => (c - e) / c) (cummax equity) equity.

(** [Series.max()] of a non-empty column. *)
Definition column_max (xs : list Q) : option Q :=
  match xs with
  | [] => None
  | x :: rest => Some (fold_left fmax rest x)
  end.

Definition max_drawdown (equity : list Q) : option Q :=
  column_max (drawdowns equity).

(** [equity.iloc[-1] / initial_capital - 1] *)
Definition total_return (initial_capital : Q) (equity : list Q) : option Q :=
  match last equity with
  | Some e => Some (e / initial_capital - 1)
  | None => None
  end.

(** The per-instrument counters of [get_trades_summary]: bought, sold. *)
Definition bump (act : string) (c : Z * Z) : option (Z * Z) :=
  if String.eqb act "BUY" then Some ((c.1 + 1)%Z, c.2)
  else if String.eqb act "SELL" then Some (c.1, (c.2 + 1)%Z)
  else None.

(** The counting loop; an action that is neither key of the counter dict is
    a [KeyError] ([None]). *)
Fixpoint count_trades (trs : list trade) (acc : gmap string (Z * Z))
    : option (gmap string (Z * Z)) :=
  match trs with
  | [] => Some acc
  | tr :: rest =>
      match bump (action tr) (default (0%Z, 0%Z) (acc !! instrument tr)) with
      | Some c => count_trades rest (<[instrument tr := c]> acc)
      | None => None
      end
  end.

Record trades_summary := TradesSummary {
  total_trades : nat;
  by_instrument : gmap string (Z * Z);
  first_trade_time : option string;
  last_trade_time : option string
}.

(** [get_trades_summary]: [{}] without trades ([NoTrades]), the summary, or
    the [KeyError] of the counting loop. *)
Inductive summary_result :=
| NoTrades
| Summary (sm : trades_summary)
| SummaryKeyError.

Definition get_trades_summary (b : t) : summary_result :=
  match trades b with
  | [] => NoTrades
  | trs =>
      match count_trades trs ∅ with
      | Some counts =>
          Summary (TradesSummary (length trs) counts
                     (timestamp <$> head trs) (timestamp <$> last trs))
      | None => SummaryKeyError
      end
  end.





End Backtest.

(** ** strategy.py: [class Strategy] and [class MarketMakingStrategy] *)

Module Strategy.

(** The P&L fields of a strategy instance. *)
Record t := Make {
  pnl : Q;
  total_pnl : Q;
  peak_pnl : Q;
  max_drawdown : Q
}.

(** [__init__] *)
Definition init : t := Make 0 0 0 0.

(** [(self.peak_pnl - pnl) / self.peak_pnl if self.peak_pnl > 0 else 0] *)
Definition drawdown (s : t) (x : Q) : Q :=
  if Py.Qlt_bool 0 (peak_pnl s) then (peak_pnl s - x) / peak_pnl s else 0.

(** Built-in [max] of two numbers: the first one unless the second is
    greater. *)
Definition max2 (a b : Q) : Q := if Py.Qlt_bool a b then b else a.

(** [update_pnl(pnl)].  The closing call to [check_risk_limits] only logs
    and returns a flag that is dropped. *)
Definition update_pnl (x : Q) (s : t) : t :=
  if Py.Qlt_bool (peak_pnl s) x then Make x x x (max_drawdown s)
  else Make x x (peak_pnl s) (max2 (max_drawdown s) (drawdown s x)).

(** P&L values fed one after the other, oldest first. *)
Definition feed (xs : list Q) (s : t) : t :=
  fold_left (fun acc x => update_pnl x acc) xs s.

(** [self.risk_params] of a strategy: plain numbers. *)
Record limits := Limits {
  max_position_size : Z;
  max_daily_loss : Q;
  max_open_orders : Z;
  limit_drawdown : Q
}.

(** [len([o for o in self.orders.values() if o.get("status") == "PENDING"])] *)
Definition pending_orders (orders : gmap string Order.t) : Z :=
  map_fold (fun _ o n =>
              match Order.status o with
              | Order.PENDING => (n + 1)%Z
              | _ => n
              end)
           0%Z orders.

(** [check_risk_limits]; [positions] maps an instrument to the quantity of
    its position dict. *)
Definition check_risk_limits (rp : limits) (s : t) (orders : gmap string Order.t)
    (positions : gmap string Z) : bool :=
  if Py.Qlt_bool (pnl s) (- max_daily_loss rp) then false
  else if Py.Qlt_bool (limit_drawdown rp) (max_drawdown s) then false
  else if (max_open_orders rp <? pending_orders orders)%Z then false
  else map_fold (fun _ q ok => ok && (Z.abs q <=? max_position_size rp)%Z)
                true positions.

End Strategy.

Module MarketMakingStrategy.

(** The two entries of [self.strategy_params] the quote prices read. *)
Record params := Params {
  spread_percentage : Q;
  min_price_increment : Q
}.

(** [round(price / increment) * increment]; a zero increment is a
    [ZeroDivisionError] ([None]). *)
Definition round_to_increment (increment price : Q) : option Q :=
  if Qeq_bool increment 0 then None
  else Some (inject_Z (Py.round (price / increment)) * increment).

Definition calculate_bid_price (sp : params) (mid_price : Q) : option Q :=
  let spread := mid_price * spread_percentage sp in
  let price := mid_price - spread in
  round_to_increment (min_price_increment sp) price.

Definition calculate_ask_price (sp : params) (mid_price : Q) : option Q :=
  let spread := mid_price * spread_percentage sp in
  let price := mid_price + spread in
  round_to_increment (min_price_increment sp) price.

(** The other entries of [self.strategy_params]. *)
Record quoting := Quoting {
  order_quantity : Z;
  position_limit : Z;
  cancel_replace_threshold : Q
}.

(** A tick as the strategy reads it; a missing [bid], [ask] or [ltp] reads
    as 0. *)
Record tick := Tick {
  tick_instrument : string;
  tick_bid : Q;
  tick_ask : Q;
  tick_ltp : Q
}.

(** The strategy instance: [positions] holds the quantity of each position
    dict, the two order books the id of the resting quote ([None] once
    cancelled). *)
Record t := Make {
  active : bool;
  market_data : gmap string tick;
  positions : gmap string Z;
  active_bids : gmap string (option string);
  active_asks : gmap string (option string);
  last_mid_prices : gmap string Q
}.

Record signal := Signal {
  sig_instrument : string;
  sig_action : string;
  sig_price : Q;
  sig_quantity : Z
}.

(** [(bid + ask) / 2 if bid and ask else ltp] *)
Definition mid_price (d : tick) : Q :=
  if Py.truthy (tick_bid d) && Py.truthy (tick_ask d)
  then (tick_bid d + tick_ask d) / 2
  else tick_ltp d.

(** Truthiness of [book.get(instrument)]: a quote id that is neither
    missing, [None] nor empty. *)
Definition resting (book : gmap string (option string)) (ins : string) : bool :=
  match book !! ins with
  | Some (Some order_id) => negb (String.eqb order_id "")
  | _ => false
  end.

(** [self.positions.get(instrument, {"quantity": 0}).get("quantity", 0)] *)
Definition position_of (s : t) (ins : string) : Z :=
  default 0%Z (positions s !! ins).

(** The body of the loop of [generate_signals] for one instrument. *)
Definition instrument_signals (sp : params) (qp : quoting) (s : t)
    (ins : string) (data : tick) : option (list signal) :=
  let position := position_of s ins in
  let mid := mid_price data in
  let bid_part :=
    if negb (resting (active_bids s) ins) && (position <? position_limit qp)%Z
    then match calculate_bid_price sp mid with
         | Some px => Some [Signal ins "BUY" px (order_quantity qp)]
         | None => None
         end
    else Some [] in
  match bid_part with
  | None => None
  | Some bids =>
      if negb (resting (active_asks s) ins)
         && (Z.abs position <? position_limit qp)%Z
      then match calculate_ask_price sp mid with
           | Some px => Some (bids ++ [Signal ins "SELL" px (order_quantity qp)])
           | None => None
           end
      else Some bids
  end.

(** The loop over [self.market_data.items()]; the first exception ends it. *)
Fixpoint collect (f : string -> tick -> option (list signal))
    (l : list (string * tick)) : option (list signal) :=
  match l with
  | [] => Some []
  | (ins, data) :: rest =>
      match f ins data with
      | Some sgs =>
          match collect f rest with
          | Some more => Some (sgs ++ more)
          | None => None
          end
      | None => None
      end
  end.

Definition generate_signals (sp : params) (qp : quoting) (s : t)
    : option (list signal) :=
  collect (instrument_signals sp qp s) (map_to_list (market_data s)).

Definition set_bids (bids : gmap string (option string)) (s : t) : t :=
  Make (active s) (market_data s) (positions s) bids (active_asks s)
       (last_mid_prices s).

Definition set_asks (asks : gmap string (option string)) (s : t) : t :=
  Make (active s) (market_data s) (positions s) (active_bids s) asks
       (last_mid_prices s).

(** One turn of the loop of [execute_signals]; [h] is the text of the hash
    in the order id. *)
Definition execute_signal (s : t) (sg_h : signal * string) : t :=
  let order_id := "ORD" +:+ sg_h.2 in
  if String.eqb (sig_action sg_h.1) "BUY"
  then set_bids (<[sig_instrument sg_h.1 := Some order_id]> (active_bids s)) s
  else set_asks (<[sig_instrument sg_h.1 := Some order_id]> (active_asks s)) s.

Definition execute_signals (sgs : list (signal * string)) (s : t) : t :=
  fold_left execute_signal sgs s.

Definition cancel_instrument_orders (ins : string) (s : t) : t :=
  let s1 :=
    if resting (active_bids s) ins
    then set_bids (<[ins := None]> (active_bids s)) s else s in
  if resting (active_asks s1) ins
  then set_asks (<[ins := None]> (active_asks s1)) s1 else s1.

(** [create_market_making_orders]; [hb] and [ha] are the hash texts of the
    two order ids. *)
Definition create_market_making_orders (sp : params) (qp : quoting)
    (ins : string) (mid : Q) (hb ha : string) (s : t) : option t :=
  let position := position_of s ins in
  let after_bid :=
    if (position <? position_limit qp)%Z
    then match calculate_bid_price sp mid with
         | Some _ => Some (set_bids (<[ins := Some ("ORD" +:+ hb)]> (active_bids s)) s)
         | None => None
         end
    else Some s in
  match after_bid with
  | None => None
  | Some s1 =>
      if (Z.abs position <? position_limit qp)%Z
      then match calculate_ask_price sp mid with
           | Some _ =>
               Some (set_asks (<[ins := Some ("ORD" +:+ ha)]> (active_asks s1)) s1)
           | None => None
           end
      else Some s1
  end.

(** [abs(mid_price - last_mid) / last_mid if last_mid else 0] *)
Definition price_change_pct (mid last_mid : Q) : Q :=
  if Py.truthy last_mid then Qabs (mid - last_mid) / last_mid else 0.

Definition on_tick (sp : params) (qp : quoting) (tk : tick) (hb ha : string)
    (s : t) : option t :=
  if negb (active s) then Some s
  else
    let ins := tick_instrument tk in
    let mid := mid_price tk in
    let last_mid := default 0 (last_mid_prices s !! ins) in
    let s1 := Make (active s) (market_data s) (positions s) (active_bids s)
                   (active_asks s) (<[ins := mid]> (last_mid_prices s)) in
    if Py.Qlt_bool (cancel_replace_threshold qp) (price_change_pct mid last_mid)
    then create_market_making_orders sp qp ins mid hb ha
           (cancel_instrument_orders ins s1)
    else Some s1.

End MarketMakingStrategy.

(** ** strategy.py: [class MomentumStrategy] *)

Module MomentumStrategy.

(** [self.strategy_params] *)
Record params := Params {
  ma_short_period : Z;
  ma_long_period : Z;
  volume_threshold : Q;
  position_size : Z;
  take_profit_pct : Q;
  stop_loss_pct : Q
}.

(** A tick as the strategy reads it; a missing [ltp] or [volume] reads as
    0. *)
Record tick := Tick {
  tick_instrument : string;
  tick_ltp : Q;
  tick_volume : Q
}.

Record t := Make {
  active : bool;
  instruments : list string;
  price_history : gmap string (list Q);
  volume_history : gmap string (list Q);
  strategy_positions : gmap string Z;
  entry_prices : gmap string Q
}.

Record signal := Signal {
  sig_instrument : string;
  sig_action : string;
  sig_quantity : Z;
  sig_order_type : string;
  sig_reason : string
}.

(** A method returns or raises. *)
Inductive outcome (A : Type) :=
| Ok (a : A)
| Raise (exn : string).
Arguments Ok {A} a.
Arguments Raise {A} exn.

(** [__init__]: empty histories and a zero position for every instrument. *)
Definition init (ins : list string) : t :=
  Make false ins
       (list_to_map ((fun i => (i, [])) <$> ins))
       (list_to_map ((fun i => (i, [])) <$> ins))
       (list_to_map ((fun i => (i, 0%Z)) <$> ins))
       ∅.

(** The slice [l[-n:]]: the last [n] items for a positive [n], everything
    for 0, and all but the first [-n] for a negative one. *)
Definition tail_slice (n : Z) (l : list Q) : list Q :=
  if (0 <? n)%Z then drop (length l - Z.to_nat n) l
  else drop (Z.to_nat (- n)) l.

(** [np.mean]: not a number ([None]) on an empty array. *)
Definition mean (l : list Q) : option Q :=
  match l with
  | [] => None
  | _ => Some (fold_left Qplus l 0 / inject_Z (Z.of_nat (length l)))
  end.

Definition position_of (s : t) (ins : string) : Z :=
  default 0%Z (strategy_positions s !! ins).

Definition close_position (ins : string) (s : t) : t :=
  if (position_of s ins =? 0)%Z then s
  else Make (active s) (instruments s) (price_history s) (volume_history s)
            (<[ins := 0%Z]> (strategy_positions s))
            (delete ins (entry_prices s)).

Definition max_history (sp : params) : Z :=
  (Z.max (ma_short_period sp) (ma_long_period sp) + 10)%Z.

(** The exit test of [on_tick] for a position that is not flat: the return
    since entry against take-profit and stop-loss. *)
Definition exit_check (sp : params) (ins : string) (price : Q) (s : t)
    : outcome t :=
  let position := position_of s ins in
  if (position =? 0)%Z then Ok s
  else
    let entry_price := default 0 (entry_prices s !! ins) in
    if Qeq_bool entry_price 0 then Raise "ZeroDivisionError"
    else
      let pnl_pct :=
        if (0 <? position)%Z then (price - entry_price) / entry_price
        else (entry_price - price) / entry_price in
      if Qle_bool (take_profit_pct sp) pnl_pct then Ok (close_position ins s)
      else if Qle_bool pnl_pct (- stop_loss_pct sp) then Ok (close_position ins s)
      else Ok s.

Definition on_tick (sp : params) (tk : tick) (s : t) : outcome t :=
  if negb (active s) then Ok s
  else
    let ins := tick_instrument tk in
    match price_history s !! ins, volume_history s !! ins with
    | Some prices, Some volumes =>
        let prices1 := prices ++ [tick_ltp tk] in
        let volumes1 := volumes ++ [tick_volume tk] in
        let trim := (max_history sp <? Z.of_nat (length prices1))%Z in
        let prices2 := if trim then tail_slice (max_history sp) prices1 else prices1 in
        let volumes2 := if trim then tail_slice (max_history sp) volumes1 else volumes1 in
        let s1 := Make (active s) (instruments s)
                       (<[ins := prices2]> (price_history s))
                       (<[ins := volumes2]> (volume_history s))
                       (strategy_positions s) (entry_prices s) in
        if (ma_long_period sp <=? Z.of_nat (length prices2))%Z
        then exit_check sp ins (tick_ltp tk) s1
        else Ok s1
    | _, _ => Raise "KeyError"
    end.

(** [Strategy.update_market_data]: a stopped strategy and an instrument it
    does not trade are passed over. *)
Definition update_market_data (sp : params) (tk : tick) (s : t) : outcome t :=
  if negb (active s) then Ok s
  else if bool_decide (tick_instrument tk ∈ instruments s) then on_tick sp tk s
  else Ok s.

Definition calculate_momentum_signal (sp : params) (s : t) (ins : string)
    : outcome string :=
  match price_history s !! ins, volume_history s !! ins with
  | Some prices, Some volumes =>
      let ma_short := mean (tail_slice (ma_short_period sp) prices) in
      let ma_long := mean (tail_slice (ma_long_period sp) prices) in
      let avg_volume := mean (tail_slice (ma_short_period sp) volumes) in
      match last volumes with
      | None => Raise "IndexError"
      | Some current_volume =>
          let confirmed :=
            match avg_volume with
            | Some a => Py.Qlt_bool (a * volume_threshold sp) current_volume
            | None => false
            end in
          let rising :=
            match ma_short, ma_long with
            | Some a, Some b => Py.Qlt_bool b a
            | _, _ => false
            end in
          let falling :=
            match ma_short, ma_long with
            | Some a, Some b => Py.Qlt_bool a b
            | _, _ => false
            end in
          Ok (if rising && confirmed then "BUY"
              else if falling && confirmed then "SELL"
              else "NEUTRAL")
      end
  | _, _ => Raise "KeyError"
  end.

(** The body of the loop of [generate_signals] for one instrument. *)
Definition instrument_signals (sp : params) (s : t) (ins : string)
    : outcome (list signal) :=
  match price_history s !! ins with
  | None => Raise "KeyError"
  | Some prices =>
      if (Z.of_nat (length prices) <? ma_long_period sp)%Z then Ok []
      else
        let position := position_of s ins in
        match calculate_momentum_signal sp s ins with
        | Raise e => Raise e
        | Ok sig =>
            if String.eqb sig "BUY" && (position <=? 0)%Z then
              Ok ((if (position <? 0)%Z
                   then [Signal ins "BUY" (Z.abs position) "MARKET" "close_short"]
                   else [])
                  ++ [Signal ins "BUY" (position_size sp) "MARKET" "enter_long"])
            else if String.eqb sig "SELL" && (0 <=? position)%Z then
              Ok ((if (0 <? position)%Z
                   then [Signal ins "SELL" position "MARKET" "close_long"]
                   else [])
                  ++ [Signal ins "SELL" (position_size sp) "MARKET" "enter_short"])
            else Ok []
        end
  end.

Fixpoint gather (sp : params) (s : t) (ins : list string) : outcome (list signal) :=
  match ins with
  | [] => Ok []
  | i :: rest =>
      match instrument_signals sp s i with
      | Raise e => Raise e
      | Ok sgs =>
          match gather sp s rest with
          | Raise e => Raise e
          | Ok more => Ok (sgs ++ more)
          end
      end
  end.

Definition generate_signals (sp : params) (s : t) : outcome (list signal) :=
  gather sp s (instruments s).

(** [self.entry_prices[instrument] = self.price_history[instrument][-1]] *)
Definition record_entry (ins : string) (s : t) : outcome t :=
  match price_history s !! ins with
  | None => Raise "KeyError"
  | Some prices =>
      match last prices with
      | None => Raise "IndexError"
      | Some px =>
          Ok (Make (active s) (instruments s) (price_history s) (volume_history s)
                   (strategy_positions s) (<[ins := px]> (entry_prices s)))
      end
  end.

(** One turn of the loop of [execute_signals]. *)
Definition execute_signal (sg : signal) (s : t) : outcome t :=
  let ins := sig_instrument sg in
  let moved (q : Z) :=
    Make (active s) (instruments s) (price_history s) (volume_history s)
         (<[ins := q]> (strategy_positions s)) (entry_prices s) in
  if String.eqb (sig_action sg) "BUY" then
    let s1 := moved (position_of s ins + sig_quantity sg)%Z in
    if String.eqb (sig_reason sg) "enter_long" then record_entry ins s1 else Ok s1
  else
    let s1 := moved (position_of s ins - sig_quantity sg)%Z in
    if String.eqb (sig_reason sg) "enter_short" then record_entry ins s1 else Ok s1.

Fixpoint execute_signals (sgs : list signal) (s : t) : outcome t :=
  match sgs with
  | [] => Ok s
  | sg :: rest =>
      match execute_signal sg s with
      | Ok s1 => execute_signals rest s1
      | Raise e => Raise e
      end
  end.

(** [StrategyManager.run_strategies] for this strategy: an active strategy
    generates its signals and, if there are any, executes them. *)
Definition run (sp : params) (s : t) : outcome t :=
  if active s then
    match generate_signals sp s with
    | Ok sgs => execute_signals sgs s
    | Raise e => Raise e
    end
  else Ok s.

(** [close_all_positions], over the items of [strategy_positions]. *)
Definition close_all_positions (s : t) : t :=
  fold_left (fun acc e => if (e.2 =? 0)%Z then acc else close_position e.1 acc)
            (map_to_list (strategy_positions s)) s.

Definition set_active (a : bool) (s : t) : t :=
  Make a (instruments s) (price_history s) (volume_history s)
       (strategy_positions s) (entry_prices s).

(** [start] and [stop] of the base class, with this class's [on_stop]. *)
Definition start (s : t) : t := if active s then s else set_active true s.

Definition stop (s : t) : t :=
  if active s then close_all_positions (set_active false s) else s.

End MomentumStrategy.

(** ** executor.py: [class OrderExecutor] *)

Module OrderExecutor.

Record t := Make {
  orders : gmap string Order.t;
  order_latencies : list Q;
  total_orders : Z;
  filled_orders : Z;
  rejected_orders : Z;
  avg_latency_ms : Q;
  fill_rate : option Q
}.

(** What a call hands back: the error dict
    [{"status": "error", "message": ...}] or the order dict. *)
Inductive response :=
| Error (message : string)
| Returned (o : Order.t).

Definition sum (xs : list Q) : Q := fold_left Qplus xs 0.

Definition update_metrics (s : t) : t :=
  let avg :=
    match order_latencies s with
    | [] => avg_latency_ms s
    | _ => sum (order_latencies s) / inject_Z (Z.of_nat (length (order_latencies s)))
    end in
  let rate :=
    if (0 <? total_orders s)%Z
    then inject_Z (filled_orders s) / inject_Z (total_orders s)
    else 0 in
  Make (orders s) (order_latencies s) (total_orders s) (filled_orders s)
       (rejected_orders s) avg (Some rate).

(** The tail shared by [modify_order] and [cancel_order] once the order has
    its new contents: store it, count a fill if the broker had already
    executed it, record the latency, refresh the metrics. *)
Definition settle (order_id : string) (o : Order.t) (filled : bool)
    (latency_ms : Q) (s : t) : t :=
  update_metrics
    (Make (<[order_id := o]> (orders s))
          (order_latencies s ++ [latency_ms])
          (total_orders s)
          (if filled then (filled_orders s + 1)%Z else filled_orders s)
          (rejected_orders s) (avg_latency_ms s) (fill_rate s)).

(** [if price: order["price"] = price] *)
Definition apply_price (price : option Q) (o : Order.t) : Order.t :=
  match price with
  | Some p => if Py.truthy p then Order.set_price p o else o
  | None => o
  end.

(** [if quantity: order["quantity"] = quantity] *)
Definition apply_quantity (quantity : option Z) (o : Order.t) : Order.t :=
  match quantity with
  | Some q => if (q =? 0)%Z then o else Order.set_quantity q o
  | None => o
  end.

(** [modify_order]; [draw] is the value of [random.random()], [latency_ms]
    the measured round trip. *)
Definition modify_order (order_id : string) (price : option Q)
    (quantity : option Z) (draw latency_ms : Q) (s : t) : response * t :=
  match orders s !! order_id with
  | None => (Error "Order not found", s)
  | Some order =>
      if negb (Order.is_live (Order.status order)) then
        (Error ("Cannot modify order with status "
                +:+ Order.status_name (Order.status order)), s)
      else
        let order1 := apply_quantity quantity (apply_price price order) in
        if Py.Qlt_bool draw (95 # 100) then
          (Returned order1, settle order_id order1 false latency_ms s)
        else
          let order2 := Order.set_status Order.COMPLETE order1 in
          (Returned order2, settle order_id order2 true latency_ms s)
  end.

(** [cancel_order], with the same two inputs. *)
Definition cancel_order (order_id : string) (draw latency_ms : Q) (s : t)
    : response * t :=
  match orders s !! order_id with
  | None => (Error "Order not found", s)
  | Some order =>
      if negb (Order.is_live (Order.status order)) then
        (Error ("Cannot cancel order with status "
                +:+ Order.status_name (Order.status order)), s)
      else if Py.Qlt_bool draw (98 # 100) then
        let order1 := Order.set_status Order.CANCELLED order in
        (Returned order1, settle order_id order1 false latency_ms s)
      else
        let order1 := Order.set_status Order.COMPLETE order in
        (Returned order1, settle order_id order1 true latency_ms s)
  end.

(** [width] zeros less the length of the digits, then the digits. *)
Fixpoint zeros (n : nat) : string :=
  match n with
  | O => ""
  | S k => "0" +:+ zeros k
  end.

Definition zfill (width : nat) (digits : string) : string :=
  zeros (width - String.length digits) +:+ digits.

(** The format [{n:06d}]: decimal, zero-padded to six characters, a minus
    sign counting as one of them. *)
Definition format_06d (n : Z) : string :=
  match n with
  | Zneg p => "-" +:+ zfill 5 (pretty (Npos p))
  | _ => zfill 6 (pretty (Z.to_N n))
  end.

(** [place_order]; [now] is the timestamp text, [draw] the value of
    [random.random()], [latency_ms] the measured round trip.  A price is kept
    only on a LIMIT order given a non-zero one. *)
Definition place_order (instrument transaction_type : string) (quantity : Z)
    (price : option Q) (order_type : string) (strategy_name : option string)
    (now : string) (draw latency_ms : Q) (s : t) : Order.t * t :=
  let kept_price :=
    if String.eqb order_type "LIMIT" then
      match price with
      | Some p => if Py.truthy p then Some p else None
      | None => None
      end
    else None in
  let order_id := "ORD" +:+ format_06d (total_orders s + 1) in
  let accepted := Py.Qlt_bool draw (9 # 10) in
  let order :=
    Order.Make order_id instrument transaction_type quantity kept_price
               order_type strategy_name now
               (if accepted then Order.OPEN else Order.REJECTED)
               (if accepted then None else Some "Insufficient funds") in
  (order,
   update_metrics
     (Make (<[order_id := order]> (orders s))
           (order_latencies s ++ [latency_ms])
           (total_orders s + 1)
           (filled_orders s)
           (if accepted then rejected_orders s else (rejected_orders s + 1)%Z)
           (avg_latency_ms s) (fill_rate s))).

(** [__init__] *)
Definition init : t := Make ∅ [] 0 0 0 0 None.

Definition get_order (order_id : string) (s : t) : response :=
  match orders s !! order_id with
  | Some order => Returned order
  | None => Error "Order not found"
  end.

(** The two filters of [cancel_all_orders]: a filter that is [None] or
    empty lets everything through. *)
Definition instrument_passes (filter : option string) (o : Order.t) : bool :=
  match filter with
  | Some ins => String.eqb ins "" || String.eqb (Order.instrument o) ins
  | None => true
  end.

Definition strategy_passes (filter : option string) (o : Order.t) : bool :=
  match filter with
  | Some st =>
      String.eqb st ""
      || match Order.strategy o with
         | Some st' => String.eqb st' st
         | None => false
         end
  | None => true
  end.

(** One turn of the loop of [cancel_all_orders] over the snapshot of the
    orders; [env] gives, per order id, the random draw and the latency of
    its [cancel_order] call. *)
Definition cancel_one (instrument strategy : option string)
    (env : string -> Q * Q) (acc : Z * t) (entry : string * Order.t) : Z * t :=
  let (order_id, order) := entry in
  if negb (Order.is_live (Order.status order)) then acc
  else if negb (instrument_passes instrument order) then acc
  else if negb (strategy_passes strategy order) then acc
  else
    match cancel_order order_id (env order_id).1 (env order_id).2 acc.2 with
    | (Error _, s') => (acc.1, s')
    | (Returned _, s') => ((acc.1 + 1)%Z, s')
    end.

Definition cancel_all_orders (instrument strategy : option string)
    (env : string -> Q * Q) (s : t) : Z * t :=
  fold_left (cancel_one instrument strategy env) (map_to_list (orders s)) (0%Z, s).

(** The stored orders that are OPEN or PENDING. *)
Definition live_orders (s : t) : Z :=
  map_fold (fun _ o n => if Order.is_live (Order.status o) then (n + 1)%Z else n)
           0%Z (orders s).

End OrderExecutor.

(** ** The risk gate as the specification words it *)

Module RiskGate.

(** The six checks in the order the specification lists them, each with
    whether it passes and the reason recorded when it does not. *)
Definition checks (now_hours now_square : Py.time) (s : RiskManager.t)
    : list (bool * string) :=
  [ (RiskManager.check_market_hours now_hours s, "Outside market hours");
    (RiskManager.check_daily_loss_limit s, "Daily loss limit exceeded");
    (RiskManager.check_drawdown_limit s, "Drawdown limit exceeded");
    (RiskManager.check_notional_exposure s, "Notional exposure limit exceeded");
    (RiskManager.check_open_orders_limit s, "Open orders limit exceeded");
    (negb (RiskManager.check_auto_square_off now_square s),
     "Auto square off time reached") ].

(** First failure wins. *)
Fixpoint first_failure (cs : list (bool * string)) : option string :=
  match cs with
  | [] => None
  | (passes, reason) :: rest =>
      if passes then first_failure rest else Some reason
  end.

(** A series of [update_position] calls, oldest first. *)
Definition update_positions (calls : list (string * Z * Q)) (s : RiskManager.t)
    : RiskManager.t :=
  fold_left (fun acc c => RiskManager.update_position c.1.1 c.1.2 c.2 acc) calls s.

(** No cost basis anywhere in the book, and the three P&L figures at zero. *)
Definition flat_pnl (s : RiskManager.t) : Prop :=
  map_Forall (fun _ p => RiskManager.avg_price p = 0) (RiskManager.positions s)
  /\ RiskManager.daily_pnl s = 0
  /\ RiskManager.peak_pnl s = 0
  /\ RiskManager.current_drawdown s = 0.

End RiskGate.

(** ** The position book of the backtest, fill by fill *)

Module PositionBook.

(** Trades applied to the book one after the other, oldest first. *)
Definition apply_fills (trs : list Backtest.trade)
    (ps : gmap string Backtest.position) : gmap string Backtest.position :=
  fold_left (fun acc tr => Backtest.update_position tr acc) trs ps.





(** What a position adds to the equity besides the capital: its realized
    P&L and, when quantity, cost basis and price are all non-zero, its
    unrealized P&L. *)
Definition unrealized (p : Backtest.position) : Q :=
  if negb (Backtest.quantity p =? 0)%Z && Py.truthy (Backtest.avg_price p)
     && Py.truthy (Backtest.current_price p)
  then (Backtest.current_price p - Backtest.avg_price p)
       * inject_Z (Backtest.quantity p)
  else 0.

Definition contribution (p : Backtest.position) : Q :=
  Backtest.realized_pnl p + unrealized p.

(** The signed quantity of a trade: bought counts up, sold counts down. *)
Definition signed_quantity (tr : Backtest.trade) : Z :=
  if String.eqb (Backtest.action tr) "BUY" then Backtest.trade_quantity tr
  else if String.eqb (Backtest.action tr) "SELL" then (- Backtest.trade_quantity tr)%Z
  else 0%Z.

(** The net signed quantity traded in instrument [i]. *)
Definition net_quantity (i : string) (trs : list Backtest.trade) : Z :=
  fold_right
    (fun tr acc =>
       if String.eqb (Backtest.instrument tr) i
       then (signed_quantity tr + acc)%Z else acc)
    0%Z trs.

(** The quantity held in [i], 0 without a record. *)
Definition held (ps : gmap string Backtest.position) (i : string) : Z :=
  match ps !! i with
  | Some p => Backtest.quantity p
  | None => 0%Z
  end.

End PositionBook.

(** ** Rounding to an integer, as the specification words it *)

Module Rounding.




End Rounding.

(** ** The order state machine, as the specification words it *)

Module OrderLedger.

(** REJECTED, COMPLETE, CANCELLED and ERROR are terminal. *)
Definition is_terminal (st : Order.order_status) : bool :=
  match st with
  | Order.REJECTED | Order.COMPLETE | Order.CANCELLED | Order.ERROR => true
  | Order.PENDING | Order.OPEN => false
  end.

(** The failure the specification calls [InvalidStateTransition]: the error
    response naming the operation and the status that forbids it. *)
Definition InvalidStateTransition (operation : string) (st : Order.order_status)
    : OrderExecutor.response :=
  OrderExecutor.Error
    ("Cannot " +:+ operation +:+ " order with status " +:+ Order.status_name st).

(** A later call on one order id, with what it reads from outside. *)
Inductive call :=
| Modify (price : option Q) (quantity : option Z) (draw latency_ms : Q)
| Cancel (draw latency_ms : Q).

Definition perform (order_id : string) (c : call) (s : OrderExecutor.t)
    : OrderExecutor.response * OrderExecutor.t :=
  match c with
  | Modify price quantity draw latency_ms =>
      OrderExecutor.modify_order order_id price quantity draw latency_ms s
  | Cancel draw latency_ms =>
      OrderExecutor.cancel_order order_id draw latency_ms s
  end.

(** Calls made one after the other, with their responses in order. *)
Fixpoint perform_all (order_id : string) (cs : list call) (s : OrderExecutor.t)
    : list OrderExecutor.response * OrderExecutor.t :=
  match cs with
  | [] => ([], s)
  | c :: rest =>
      let (r, s1) := perform order_id c s in
      let (rs, s2) := perform_all order_id rest s1 in
      (r :: rs, s2)
  end.

End OrderLedger.

(** ** The replay of the backtest, signal by signal *)

Module Replay.

(** A signal [execute_signal] cannot price itself: no price, a zero price,
    or a MARKET order. *)
Definition unpriced (sg : Backtest.signal) : bool :=
  match Backtest.sig_price sg with
  | Some px => negb (Py.truthy px)
  | None => true
  end
  || String.eqb (default "LIMIT" (Backtest.sig_order_type sg)) "MARKET".

(** The trades recorded in instrument [i] with action [act]. *)
Definition count_of (i act : string) (trs : list Backtest.trade) : nat :=
  length (List.filter
            (fun tr => String.eqb (Backtest.instrument tr) i
                       && String.eqb (Backtest.action tr) act)
            trs).

Definition traded (i : string) (trs : list Backtest.trade) : bool :=
  existsb (fun tr => String.eqb (Backtest.instrument tr) i) trs.

Definition buy_or_sell (tr : Backtest.trade) : bool :=
  String.eqb (Backtest.action tr) "BUY" || String.eqb (Backtest.action tr) "SELL".

(** No row of the curve is below the one before it. *)
Fixpoint rising_from (m : Q) (xs : list Q) : Prop :=
  match xs with
  | [] => True
  | x :: rest => m <= x /\ rising_from x rest
  end.

Definition rising (xs : list Q) : Prop :=
  match xs with
  | [] => True
  | x :: rest => rising_from x rest
  end.

End Replay.

(** ** A session with the executor, call by call *)

Module Session.

(** A call on the executor, with what it reads from outside. *)
Inductive request :=
| Place (instrument transaction_type : string) (quantity : Z) (price : option Q)
        (order_type : string) (strategy_name : option string)
        (now : string) (draw latency_ms : Q)
| Modify (order_id : string) (price : option Q) (quantity : option Z)
         (draw latency_ms : Q)
| Cancel (order_id : string) (draw latency_ms : Q)
| CancelAll (instrument strategy : option string) (env : string -> Q * Q).

Definition handle (s : OrderExecutor.t) (r : request) : OrderExecutor.t :=
  match r with
  | Place ins side q px ot sn now draw lat =>
      (OrderExecutor.place_order ins side q px ot sn now draw lat s).2
  | Modify id px q draw lat => (OrderExecutor.modify_order id px q draw lat s).2
  | Cancel id draw lat => (OrderExecutor.cancel_order id draw lat s).2
  | CancelAll ins st env => (OrderExecutor.cancel_all_orders ins st env s).2
  end.

(** The calls of a session, served one after the other from a fresh
    executor. *)
Definition serve (rs : list request) : OrderExecutor.t :=
  fold_left handle rs OrderExecutor.init.

(** The statuses an order can be stored with. *)
Definition allowed (st : Order.order_status) : Prop :=
  st = Order.OPEN \/ st = Order.REJECTED \/ st = Order.COMPLETE
  \/ st = Order.CANCELLED.

(** What every session keeps true. *)
Definition sound (s : OrderExecutor.t) : Prop :=
  (forall id o,
     OrderExecutor.orders s !! id = Some o ->
     Order.order_id o = id /\ allowed (Order.status o))
  /\ (0 <= OrderExecutor.filled_orders s)%Z
  /\ (0 <= OrderExecutor.rejected_orders s)%Z
  /\ (0 <= OrderExecutor.live_orders s)%Z
  /\ (OrderExecutor.filled_orders s + OrderExecutor.rejected_orders s
      + OrderExecutor.live_orders s <= OrderExecutor.total_orders s)%Z
  /\ (forall r, OrderExecutor.fill_rate s = Some r -> 0 <= r /\ r <= 1).

(** An order that [cancel_all_orders] tries to cancel: still open, and
    through both filters. *)
Definition targeted (instrument strategy : option string) (o : Order.t) : bool :=
  Order.is_live (Order.status o)
  && OrderExecutor.instrument_passes instrument o
  && OrderExecutor.strategy_passes strategy o.

End Session.

(** ** The life of a momentum strategy, event by event *)

Module MomentumLife.

(** What can happen to a strategy: it is started or stopped, a tick is
    passed to it, the manager runs it, or one of its positions is closed. *)
Inductive event :=
| Start
| Stop
| Feed (tk : MomentumStrategy.tick)
| Run
| Close (ins : string).

Definition step (sp : MomentumStrategy.params) (s : MomentumStrategy.t)
    (ev : event) : MomentumStrategy.outcome MomentumStrategy.t :=
  match ev with
  | Start => MomentumStrategy.Ok (MomentumStrategy.start s)
  | Stop => MomentumStrategy.Ok (MomentumStrategy.stop s)
  | Feed tk => MomentumStrategy.update_market_data sp tk s
  | Run => MomentumStrategy.run sp s
  | Close ins => MomentumStrategy.Ok (MomentumStrategy.close_position ins s)
  end.

Fixpoint steps (sp : MomentumStrategy.params) (evs : list event)
    (s : MomentumStrategy.t) : MomentumStrategy.outcome MomentumStrategy.t :=
  match evs with
  | [] => MomentumStrategy.Ok s
  | ev :: rest =>
      match step sp s ev with
      | MomentumStrategy.Ok s1 => steps sp rest s1
      | MomentumStrategy.Raise e => MomentumStrategy.Raise e
      end
  end.

(** How many of the events are ticks of instrument [i]. *)
Fixpoint feeds_of (i : string) (evs : list event) : nat :=
  match evs with
  | [] => 0
  | Feed tk :: rest =>
      ((if String.eqb (MomentumStrategy.tick_instrument tk) i then 1 else 0)
       + feeds_of i rest)%nat
  | _ :: rest => feeds_of i rest
  end.

(** What every life keeps true of a strategy over the instruments [ins]. *)
Definition settled (sp : MomentumStrategy.params) (ins : list string)
    (s : MomentumStrategy.t) : Prop :=
  MomentumStrategy.instruments s = ins
  /\ (forall i, i ∈ ins <-> is_Some (MomentumStrategy.price_history s !! i))
  /\ (forall i ph,
        MomentumStrategy.price_history s !! i = Some ph ->
        exists vh,
          MomentumStrategy.volume_history s !! i = Some vh
          /\ length vh = length ph
          /\ ((0 < MomentumStrategy.max_history sp)%Z ->
              (Z.of_nat (length ph) <= MomentumStrategy.max_history sp)%Z))
  /\ (forall i,
        MomentumStrategy.position_of s i = 0%Z
        \/ MomentumStrategy.position_of s i = MomentumStrategy.position_size sp
        \/ MomentumStrategy.position_of s i
           = (- MomentumStrategy.position_size sp)%Z)
  /\ (forall i,
        MomentumStrategy.position_of s i <> 0%Z ->
        is_Some (MomentumStrategy.entry_prices s !! i)).

End MomentumLife.

(** * Properties *)

(** ** Comparisons on rationals *)

Lemma Qlt_bool_true (x y : Q) : Py.Qlt_bool x y = true <-> x < y.
Proof.
  unfold Py.Qlt_bool. rewrite negb_true_iff.
  split; intros H.
  - apply Qnot_le_lt. intros Hle. apply Qle_bool_iff in Hle. congruence.
  - destruct (Qle_bool y x) eqn:E; [|reflexivity].
    apply Qle_bool_iff in E. lra.
Qed.

Lemma Qlt_bool_false (x y : Q) : Py.Qlt_bool x y = false <-> y <= x.
Proof.
  unfold Py.Qlt_bool. rewrite negb_false_iff. apply Qle_bool_iff.
Qed.

Lemma Qle_bool_false (x y : Q) : Qle_bool x y = false <-> y < x.
Proof.
  split; intros H.
  - apply Qnot_le_lt. intros Hle. apply Qle_bool_iff in Hle. congruence.
  - destruct (Qle_bool x y) eqn:E; [|reflexivity].
    apply Qle_bool_iff in E. lra.
Qed.

Lemma truthy_true (x : Q) : Py.truthy x = true <-> ~ x == 0.
Proof.
  unfold Py.truthy. rewrite negb_true_iff. split; intros H.
  - intros E. apply Qeq_bool_iff in E. congruence.
  - destruct (Qeq_bool x 0) eqn:E; [|reflexivity].
    apply Qeq_bool_iff in E. contradiction.
Qed.

Lemma truthy_false (x : Q) : Py.truthy x = false <-> x == 0.
Proof.
  unfold Py.truthy. rewrite negb_false_iff. apply Qeq_bool_iff.
Qed.

(** ** RiskManager *)

Section RiskManagerFacts.
Import RiskManager.

(** What [validate_order] decides once trading is enabled and the limit
    table has its default: it compares [| |position| + change |] with the
    limit. *)
Lemma validate_order_enabled (s : t) (order : request) (limit : Z) :
  trading_enabled s = true ->
  position_limit s (req_instrument order) = Some limit ->
  let change :=
    if String.eqb (req_transaction_type order) "BUY"
    then req_quantity order else (- req_quantity order)%Z in
  let reach := Z.abs (Z.abs (position_quantity s (req_instrument order)) + change) in
  validate_order s order =
    Some (if (reach <=? limit)%Z
          then (true, "Order validated")
          else (false, "Position limit exceeded for " +:+ req_instrument order)).
Proof.
  intros Hen Hlim change reach. unfold validate_order, check_position_limit.
  rewrite Hen, Hlim. simpl. fold change. fold reach.
  destruct (reach <=? limit)%Z; reflexivity.
Qed.

(** On a flat or long position the comparison is the one on the resulting
    position. *)
Lemma validate_order_long (s : t) (order : request) (limit : Z) :
  trading_enabled s = true ->
  position_limit s (req_instrument order) = Some limit ->
  (0 <= position_quantity s (req_instrument order))%Z ->
  let change :=
    if String.eqb (req_transaction_type order) "BUY"
    then req_quantity order else (- req_quantity order)%Z in
  let resulting := (position_quantity s (req_instrument order) + change)%Z in
  (fst <$> validate_order s order) = Some (Z.abs resulting <=? limit)%Z.
Proof.
  intros Hen Hlim Hpos change resulting.
  rewrite (validate_order_enabled s order limit Hen Hlim). simpl.
  fold change. unfold resulting.
  rewrite (Z.abs_eq (position_quantity s (req_instrument order))) by exact Hpos.
  destruct (Z.abs _ <=? limit)%Z; reflexivity.
Qed.

(** C1 (the code at the failing input).  With the default limits and the
    short position of 5 INFY that the module's own example books, a SELL of
    100 is validated although it would take the position to -105, beyond the
    default limit of 100; and a BUY of 100, which would leave the position
    at 95, is denied. *)
Theorem validate_order_short_position :
  let s := update_position "INFY" (-5) (184525 # 100) (init default_params) in
  trading_enabled s = true
  /\ position_quantity s "INFY" = (-5)%Z
  /\ position_limit s "INFY" = Some 100%Z
  /\ validate_order s (Request "INFY" "SELL" 100) = Some (true, "Order validated")
  /\ (Z.abs (-5 + - 100) >? 100)%Z = true
  /\ validate_order s (Request "INFY" "BUY" 100)
     = Some (false, "Position limit exceeded for INFY")
  /\ (Z.abs (-5 + 100) <=? 100)%Z = true.
Proof.
  vm_compute. repeat split; reflexivity.
Qed.

End RiskManagerFacts.

Section RiskGateFacts.
Import RiskManager.

(** C2.  [check_all_risk_limits] is "first failure wins" over the six
    checks in the order trading hours, daily loss, drawdown, notional
    exposure, open orders, auto square-off: the first check that fails gives
    the recorded reason, switches [trading_enabled] off and the call returns
    false; when all pass the reason is cleared, [trading_enabled] is switched
    on and the call returns true; nothing else in the state changes.  With
    [max_daily_loss = 10000], [daily_pnl = -10500] and the clock inside
    trading hours the call returns false with reason "Daily loss limit
    exceeded" and trading disabled. *)
Theorem check_all_risk_limits_first_failure :
  (forall now_hours now_square s,
     let r := check_all_risk_limits now_hours now_square s in
     match RiskGate.first_failure (RiskGate.checks now_hours now_square s) with
     | Some reason =>
         r.1 = false
         /\ trading_enabled r.2 = false
         /\ risk_breach r.2 = true
         /\ risk_breach_reason r.2 = Some reason
     | None =>
         r.1 = true
         /\ trading_enabled r.2 = true
         /\ risk_breach r.2 = false
         /\ risk_breach_reason r.2 = None
     end
     /\ risk_params r.2 = risk_params s
     /\ positions r.2 = positions s
     /\ orders r.2 = orders s
     /\ daily_pnl r.2 = daily_pnl s
     /\ peak_pnl r.2 = peak_pnl s
     /\ current_drawdown r.2 = current_drawdown s)
  /\ (forall now_hours now_square s,
        max_daily_loss (risk_params s) == 10000 ->
        daily_pnl s == - 10500 ->
        check_market_hours now_hours s = true ->
        let r := check_all_risk_limits now_hours now_square s in
        r.1 = false
        /\ risk_breach_reason r.2 = Some "Daily loss limit exceeded"
        /\ trading_enabled r.2 = false).
Proof.
  split.
  - intros now_hours now_square s r. subst r.
    unfold check_all_risk_limits, RiskGate.checks, RiskGate.first_failure.
    destruct (check_market_hours now_hours s); simpl; [|tauto].
    destruct (check_daily_loss_limit s); simpl; [|tauto].
    destruct (check_drawdown_limit s); simpl; [|tauto].
    destruct (check_notional_exposure s); simpl; [|tauto].
    destruct (check_open_orders_limit s); simpl; [|tauto].
    destruct (check_auto_square_off now_square s); simpl; tauto.
  - intros now_hours now_square s Hmax Hpnl Hhours r. subst r.
    unfold check_all_risk_limits. rewrite Hhours. simpl.
    assert (Hloss : check_daily_loss_limit s = false).
    { unfold check_daily_loss_limit. apply Qle_bool_false. lra. }
    rewrite Hloss. simpl. tauto.
Qed.

(** The scenario of C2 on a concrete state: default limits, a daily P&L of
    -10500 and a clock at 10:00. *)
Lemma check_all_risk_limits_scenario :
  let s := Make default_params ∅ ∅ (- 10500) 0 0 true false None in
  let r := check_all_risk_limits (Py.TimeOfDay 10 0 0 0) (Py.TimeOfDay 10 0 0 0) s in
  r.1 = false
  /\ risk_breach_reason r.2 = Some "Daily loss limit exceeded"
  /\ trading_enabled r.2 = false.
Proof.
  apply (proj2 check_all_risk_limits_first_failure
           (Py.TimeOfDay 10 0 0 0) (Py.TimeOfDay 10 0 0 0)
           (Make default_params ∅ ∅ (- 10500) 0 0 true false None));
    reflexivity.
Defined.

End RiskGateFacts.

Section PositionUpdateFacts.
Import RiskManager.

Lemma skipped_no_basis (p : position) : avg_price p = 0 -> skipped p = true.
Proof.
  intros H. unfold skipped. rewrite H. simpl.
  destruct (quantity p =? 0)%Z; reflexivity.
Qed.

Lemma total_pnl_no_basis (ps : gmap string position) :
  map_Forall (fun _ p => avg_price p = 0) ps -> total_pnl ps = 0.
Proof.
  unfold total_pnl.
  apply (map_fold_weak_ind
           (fun r m => map_Forall (fun _ p => avg_price p = 0) m -> r = 0)).
  - reflexivity.
  - intros i p m r Hi IH Hall.
    apply map_Forall_insert in Hall; [|exact Hi]. destruct Hall as [Hp Hm].
    rewrite (skipped_no_basis p Hp). auto.
Qed.

Lemma mark_avg_price (p : position) : avg_price (mark p) = avg_price p.
Proof. unfold mark. destruct (skipped p); reflexivity. Qed.

Lemma update_pnl_flat (s : t) :
  map_Forall (fun _ p => avg_price p = 0) (positions s) ->
  peak_pnl s = 0 ->
  RiskGate.flat_pnl (update_pnl s).
Proof.
  intros Hall Hpeak. unfold RiskGate.flat_pnl, update_pnl. simpl.
  rewrite (total_pnl_no_basis _ Hall), Hpeak. simpl.
  repeat split.
  apply map_Forall_fmap. eapply map_Forall_impl; [exact Hall|].
  intros i p Hp. simpl. rewrite mark_avg_price. exact Hp.
Qed.

Lemma update_position_flat (instrument : string) (qty : Z) (price : Q) (s : t) :
  RiskGate.flat_pnl s -> RiskGate.flat_pnl (update_position instrument qty price s).
Proof.
  intros (Hall & _ & Hpeak & _). unfold update_position.
  apply update_pnl_flat; [|exact Hpeak]. simpl.
  intros i p Hp. simpl.
  destruct (decide (i = instrument)) as [->|Hne].
  - rewrite lookup_alter_eq in Hp.
    destruct (positions s !! instrument) as [p0|] eqn:E.
    + rewrite E in Hp. simpl in Hp. inversion Hp; subst. simpl.
      exact (Hall _ _ E).
    + rewrite lookup_insert_eq in Hp. simpl in Hp. inversion Hp; subst.
      reflexivity.
  - rewrite lookup_alter_ne in Hp by congruence.
    destruct (positions s !! instrument).
    + exact (Hall _ _ Hp).
    + rewrite lookup_insert_ne in Hp by congruence. exact (Hall _ _ Hp).
Qed.

Lemma update_position_risk_params (instrument : string) (qty : Z) (price : Q) (s : t) :
  risk_params (update_position instrument qty price s) = risk_params s.
Proof. reflexivity. Qed.

Lemma update_positions_flat (calls : list (string * Z * Q)) (s : t) :
  RiskGate.flat_pnl s ->
  RiskGate.flat_pnl (RiskGate.update_positions calls s)
  /\ risk_params (RiskGate.update_positions calls s) = risk_params s.
Proof.
  revert s. induction calls as [|c calls IH]; intros s Hs.
  - split; [exact Hs|reflexivity].
  - unfold RiskGate.update_positions. simpl.
    destruct (IH (update_position c.1.1 c.1.2 c.2 s)) as [H1 H2].
    { apply update_position_flat. exact Hs. }
    split; [exact H1|]. etransitivity; [exact H2|reflexivity].
Qed.

(** C10.  After any series of [update_position] calls on a fresh risk
    manager every position still has [avg_price] 0, so [daily_pnl] is
    exactly 0, and with it [peak_pnl] and [current_drawdown]; hence, for
    limits that are not negative, neither the daily-loss check nor the
    drawdown check fails. *)
Theorem update_position_never_moves_daily_pnl (rp : params)
    (calls : list (string * Z * Q)) :
  let s := RiskGate.update_positions calls (init rp) in
  (forall i p, positions s !! i = Some p -> avg_price p = 0)
  /\ daily_pnl s = 0
  /\ peak_pnl s = 0
  /\ current_drawdown s = 0
  /\ (0 <= max_daily_loss rp -> check_daily_loss_limit s = true)
  /\ (0 <= max_drawdown rp -> check_drawdown_limit s = true).
Proof.
  intros s.
  destruct (update_positions_flat calls (init rp)) as [(Hall & Hd & Hp & Hc) Hrp].
  { repeat split. apply map_Forall_empty. }
  fold s in Hall, Hd, Hp, Hc, Hrp. simpl in Hrp.
  repeat split; try assumption.
  - intros Hnn. unfold check_daily_loss_limit. rewrite Hd, Hrp.
    apply Qle_bool_iff. lra.
  - intros Hnn. unfold check_drawdown_limit. rewrite Hc, Hrp.
    apply Qle_bool_iff. exact Hnn.
Qed.

(** The example of the module's own [__main__], under the default limits. *)
Lemma update_position_never_moves_daily_pnl_example :
  let s := RiskGate.update_positions
             [("RELIANCE", 10%Z, 234550 # 100); ("INFY", (-5)%Z, 184525 # 100)]
             (init default_params) in
  daily_pnl s = 0
  /\ check_daily_loss_limit s = true
  /\ check_drawdown_limit s = true.
Proof.
  pose proof (update_position_never_moves_daily_pnl default_params
    [("RELIANCE", 10%Z, 234550 # 100); ("INFY", (-5)%Z, 184525 # 100)])
    as (_ & Hd & _ & _ & Hl & Hdd).
  split; [exact Hd|].
  split; [apply Hl|apply Hdd]; vm_compute; discriminate.
Defined.

End PositionUpdateFacts.

(** ** Backtest: the position book *)

Section PositionBookFacts.
Import Backtest.

Lemma update_position_lookup (tr : trade) (ps : gmap string position) :
  update_position tr ps !! instrument tr =
    Some (fill (action tr) (trade_quantity tr) (price tr)
               (default (Position 0 0 (price tr) 0) (ps !! instrument tr))).
Proof.
  unfold update_position. rewrite lookup_alter_eq.
  destruct (ps !! instrument tr) as [p|] eqn:E.
  - rewrite E. reflexivity.
  - rewrite lookup_insert_eq. reflexivity.
Qed.

Lemma update_position_lookup_ne (tr : trade) (ps : gmap string position) (i : string) :
  i <> instrument tr -> update_position tr ps !! i = ps !! i.
Proof.
  intros Hne. unfold update_position.
  rewrite lookup_alter_ne by congruence.
  destruct (ps !! instrument tr); [reflexivity|].
  rewrite lookup_insert_ne by congruence. reflexivity.
Qed.



(** C3.  Selling the whole of a long position in one trade adds
    [(P - A)·Q] to its realized P&L and leaves quantity 0.  From an initial
    capital of 100000, a BUY of 10 at 2345.50 then a SELL of 10 at 2350.00 on
    one instrument give realized P&L 45, equity 100045 and quantity 0. *)
Theorem sell_closes_long :
  (forall (ps : gmap string position) (i : string) (p : position)
          (P : Q) (ts ot : string),
     ps !! i = Some p ->
     (0 < quantity p)%Z ->
     exists p',
       update_position (Trade i "SELL" (quantity p) P ts ot) ps !! i = Some p'
       /\ quantity p' = 0%Z
       /\ realized_pnl p' ==
            realized_pnl p + (P - avg_price p) * inject_Z (quantity p))
  /\ (exists b p,
        execute_signals
          [(Signal "X" "BUY" 10 (Some (234550 # 100)) None, "t1");
           (Signal "X" "SELL" 10 (Some (235000 # 100)) None, "t2")] init
        = Done b
        /\ positions b !! "X" = Some p
        /\ realized_pnl p == 45
        /\ quantity p = 0%Z
        /\ calculate_equity 100000 (positions b) == 100045).
Proof.
  split.
  - intros ps i p P ts ot Hp Hq.
    eexists. split.
    { pose proof (update_position_lookup (Trade i "SELL" (quantity p) P ts ot) ps)
        as Hl.
      simpl in Hl. rewrite Hp in Hl. exact Hl. }
    unfold fill. simpl.
    assert (Hpos : (0 <? quantity p)%Z = true) by (apply Z.ltb_lt; exact Hq).
    rewrite Hpos. simpl. split; [lia|].
    rewrite Z.min_id. reflexivity.
  - eexists. eexists. split; [vm_compute; reflexivity|].
    split; [vm_compute; reflexivity|].
    repeat split; vm_compute; reflexivity.
Qed.

(** C3 on a book holding 10 of X bought at 2345.50. *)
Lemma sell_closes_long_example :
  exists p',
    update_position (Trade "X" "SELL" 10 (235000 # 100) "t2" "LIMIT")
      {["X" := Position 10 (234550 # 100) (234550 # 100) 0]} !! "X" = Some p'
    /\ quantity p' = 0%Z
    /\ realized_pnl p' == 45.
Proof.
  destruct (proj1 sell_closes_long
              {["X" := Position 10 (234550 # 100) (234550 # 100) 0]}
              "X" (Position 10 (234550 # 100) (234550 # 100) 0)
              (235000 # 100) "t2" "LIMIT") as (p' & H1 & H2 & H3).
  - vm_compute. reflexivity.
  - reflexivity.
  - exists p'. split; [exact H1|]. split; [exact H2|].
    rewrite H3. vm_compute. reflexivity.
Defined.










End PositionBookFacts.

(** ** Backtest: the win rate *)

Section WinRateFacts.
Import Backtest.

Lemma to_dict_no_pnl (tr : trade) : to_dict tr !! "pnl" = None.
Proof. reflexivity. Qed.

Lemma is_winning_never (tr : trade) : is_winning tr = Some false.
Proof. unfold is_winning. rewrite to_dict_no_pnl. reflexivity. Qed.

Lemma winning_trades_none (trs : list trade) : winning_trades trs = Some 0%Z.
Proof.
  induction trs as [|tr trs IH]; [reflexivity|].
  simpl. rewrite is_winning_never, IH. reflexivity.
Qed.

Lemma win_rate_zero (trs : list trade) :
  exists w, win_rate trs = Some w /\ w == 0.
Proof.
  unfold win_rate. rewrite winning_trades_none.
  destruct (0 <? Z.of_nat (length trs))%Z.
  - eexists. split; [reflexivity|]. unfold Qdiv. ring.
  - exists 0. split; reflexivity.
Qed.

(** C9.  [execute_signal] either raises, leaves the trade list alone, or
    appends one trade whose dict has no ['pnl'] entry; so after any replay
    that runs to its end no recorded trade counts as winning and the win rate
    is 0, however many trades were recorded.  The replay of the C3 scenario
    records two trades, closes its long at a realized profit of 45, and still
    has a win rate of 0. *)
Theorem win_rate_is_always_zero :
  (forall sg ts b b',
     execute_signal sg ts b = Done b' ->
     trades b' = trades b
     \/ exists tr, trades b' = trades b ++ [tr] /\ to_dict tr !! "pnl" = None)
  /\ (forall sgs b,
        execute_signals sgs init = Done b ->
        (forall tr, tr ∈ trades b -> to_dict tr !! "pnl" = None)
        /\ winning_trades (trades b) = Some 0%Z
        /\ exists w, win_rate (trades b) = Some w /\ w == 0)
  /\ (exists b p w,
        execute_signals
          [(Signal "X" "BUY" 10 (Some (234550 # 100)) None, "t1");
           (Signal "X" "SELL" 10 (Some (235000 # 100)) None, "t2")] init
        = Done b
        /\ length (trades b) = 2%nat
        /\ positions b !! "X" = Some p
        /\ 0 < realized_pnl p
        /\ win_rate (trades b) = Some w
        /\ w == 0).
Proof.
  split; [|split].
  - intros sg ts b b' H. unfold execute_signal in H.
    destruct (sig_price sg) as [px|]; simpl in H.
    + destruct (negb (Py.truthy px) || String.eqb (default "LIMIT" (sig_order_type sg)) "MARKET");
        [discriminate|].
      destruct (negb (Py.truthy px)).
      * inversion H. left. reflexivity.
      * inversion H. right. eexists. split; [reflexivity|reflexivity].
    + discriminate.
  - intros sgs b _.
    split; [intros tr _; apply to_dict_no_pnl|].
    split; [apply winning_trades_none|apply win_rate_zero].
  - eexists. eexists. eexists.
    split; [vm_compute; reflexivity|].
    split; [reflexivity|].
    split; [vm_compute; reflexivity|].
    split; [vm_compute; reflexivity|].
    split; vm_compute; reflexivity.
Qed.

(** C9 on the replay of the C3 scenario. *)
Lemma win_rate_is_always_zero_example :
  exists b,
    execute_signals
      [(Signal "X" "BUY" 10 (Some (234550 # 100)) None, "t1");
       (Signal "X" "SELL" 10 (Some (235000 # 100)) None, "t2")] init
    = Done b
    /\ trades b <> []
    /\ (forall tr, tr ∈ trades b -> to_dict tr !! "pnl" = None)
    /\ exists w, win_rate (trades b) = Some w /\ w == 0.
Proof.
  eexists. split; [vm_compute; reflexivity|].
  split; [discriminate|].
  match goal with
  | |- (forall tr, tr ∈ trades ?b -> _) /\ _ =>
      destruct (proj1 (proj2 win_rate_is_always_zero)
                  [(Signal "X" "BUY" 10 (Some (234550 # 100)) None, "t1");
                   (Signal "X" "SELL" 10 (Some (235000 # 100)) None, "t2")] b)
        as (H1 & _ & H2)
  end.
  - vm_compute. reflexivity.
  - split; [exact H1|exact H2].
Defined.

End WinRateFacts.

(** ** Drawdown *)

Section DrawdownFacts.




Lemma max2_cases (a b : Q) :
  (a < b /\ Strategy.max2 a b = b) \/ (b <= a /\ Strategy.max2 a b = a).
Proof.
  unfold Strategy.max2. destruct (Py.Qlt_bool a b) eqn:E.
  - left. apply Qlt_bool_true in E. auto.
  - right. apply Qlt_bool_false in E. auto.
Qed.



Lemma drawdown_recorded_above_one :
  Strategy.max_drawdown (Strategy.feed [100; - 50] Strategy.init) == 3 # 2.
Proof. vm_compute. reflexivity. Qed.



End DrawdownFacts.

(** ** Market making: quote prices *)

Section QuoteFacts.
Import MarketMakingStrategy.








End QuoteFacts.

(** ** Order executor: modify and cancel *)

Section OrderLedgerFacts.
Import OrderExecutor.

Lemma terminal_not_live (st : Order.order_status) :
  OrderLedger.is_terminal st = negb (Order.is_live st).
Proof. destruct st; reflexivity. Qed.

Lemma live_is_pending_or_open (st : Order.order_status) :
  Order.is_live st = true <-> st = Order.PENDING \/ st = Order.OPEN.
Proof.
  destruct st; simpl; split; intros H; auto; try discriminate;
    destruct H; discriminate.
Qed.

Lemma modify_order_terminal (s : t) (id : string) (o : Order.t)
    (price : option Q) (quantity : option Z) (draw latency_ms : Q) :
  orders s !! id = Some o ->
  OrderLedger.is_terminal (Order.status o) = true ->
  modify_order id price quantity draw latency_ms s
  = (OrderLedger.InvalidStateTransition "modify" (Order.status o), s).
Proof.
  intros Ho Hterm. unfold modify_order. rewrite Ho.
  rewrite terminal_not_live in Hterm. rewrite Hterm.
  destruct (Order.status o); reflexivity.
Qed.

Lemma cancel_order_terminal (s : t) (id : string) (o : Order.t)
    (draw latency_ms : Q) :
  orders s !! id = Some o ->
  OrderLedger.is_terminal (Order.status o) = true ->
  cancel_order id draw latency_ms s
  = (OrderLedger.InvalidStateTransition "cancel" (Order.status o), s).
Proof.
  intros Ho Hterm. unfold cancel_order. rewrite Ho.
  rewrite terminal_not_live in Hterm. rewrite Hterm.
  destruct (Order.status o); reflexivity.
Qed.

Lemma settle_lookup (id : string) (o : Order.t) (filled : bool)
    (latency_ms : Q) (s : t) :
  orders (settle id o filled latency_ms s) !! id = Some o.
Proof. unfold settle, update_metrics. simpl. apply lookup_insert_eq. Qed.

Lemma modify_order_live (s : t) (id : string) (o : Order.t)
    (price : option Q) (quantity : option Z) (draw latency_ms : Q) :
  orders s !! id = Some o ->
  Order.is_live (Order.status o) = true ->
  exists o',
    (modify_order id price quantity draw latency_ms s).1 = Returned o'
    /\ orders (modify_order id price quantity draw latency_ms s).2 !! id = Some o'.
Proof.
  intros Ho Hlive. unfold modify_order. rewrite Ho, Hlive. cbn [negb].
  destruct (Py.Qlt_bool draw (95 # 100)); cbn [fst snd];
    eexists; (split; [reflexivity|apply settle_lookup]).
Qed.

Lemma cancel_order_live (s : t) (id : string) (o : Order.t)
    (draw latency_ms : Q) :
  orders s !! id = Some o ->
  Order.is_live (Order.status o) = true ->
  exists o',
    (cancel_order id draw latency_ms s).1 = Returned o'
    /\ orders (cancel_order id draw latency_ms s).2 !! id = Some o'
    /\ OrderLedger.is_terminal (Order.status o') = true.
Proof.
  intros Ho Hlive. unfold cancel_order. rewrite Ho, Hlive. cbn [negb].
  destruct (Py.Qlt_bool draw (98 # 100)); cbn [fst snd];
    eexists; (split; [reflexivity|split; [apply settle_lookup|reflexivity]]).
Qed.

(** A terminal order outlasts any series of calls on its id. *)
Lemma perform_all_terminal (id : string) (o : Order.t)
    (cs : list OrderLedger.call) (s : t) :
  orders s !! id = Some o ->
  OrderLedger.is_terminal (Order.status o) = true ->
  (OrderLedger.perform_all id cs s).2 = s
  /\ Forall (fun r => exists operation,
                r = OrderLedger.InvalidStateTransition operation (Order.status o))
            (OrderLedger.perform_all id cs s).1.
Proof.
  intros Ho Hterm. induction cs as [|c cs [IHs IHr]].
  - split; [reflexivity|constructor].
  - simpl.
    assert (Hc : exists operation,
               OrderLedger.perform id c s
               = (OrderLedger.InvalidStateTransition operation (Order.status o), s)).
    { destruct c as [price quantity draw latency_ms|draw latency_ms]; simpl.
      - exists "modify". apply modify_order_terminal; assumption.
      - exists "cancel". apply cancel_order_terminal; assumption. }
    destruct Hc as [operation Hc]. rewrite Hc.
    destruct (OrderLedger.perform_all id cs s) as [rs s2]. simpl in *.
    split; [exact IHs|].
    constructor; [exists operation; reflexivity|exact IHr].
Qed.

(** C8.  On an order stored in a terminal state (REJECTED, COMPLETE,
    CANCELLED, ERROR) every [modify_order] and every [cancel_order] returns
    the invalid-state-transition error and leaves the executor, and so the
    stored order, exactly as it was.  A call that changes the stored order
    found it PENDING or OPEN, and from PENDING or OPEN both calls return the
    order as it is stored afterwards.  Hence any series of later modify and
    cancel calls on a terminal order fails call by call and changes nothing. *)
Theorem terminal_orders_are_frozen :
  (forall (s : t) (id : string) (o : Order.t) (price : option Q)
          (quantity : option Z) (draw latency_ms : Q),
     orders s !! id = Some o ->
     OrderLedger.is_terminal (Order.status o) = true ->
     modify_order id price quantity draw latency_ms s
     = (OrderLedger.InvalidStateTransition "modify" (Order.status o), s)
     /\ cancel_order id draw latency_ms s
        = (OrderLedger.InvalidStateTransition "cancel" (Order.status o), s))
  /\ (forall (s : t) (id : string) (o : Order.t) (price : option Q)
             (quantity : option Z) (draw latency_ms : Q),
        orders s !! id = Some o ->
        (orders (modify_order id price quantity draw latency_ms s).2 !! id <> Some o
         \/ orders (cancel_order id draw latency_ms s).2 !! id <> Some o) ->
        Order.status o = Order.PENDING \/ Order.status o = Order.OPEN)
  /\ (forall (s : t) (id : string) (o : Order.t) (price : option Q)
             (quantity : option Z) (draw latency_ms : Q),
        orders s !! id = Some o ->
        Order.status o = Order.PENDING \/ Order.status o = Order.OPEN ->
        (exists o',
           (modify_order id price quantity draw latency_ms s).1 = Returned o'
           /\ orders (modify_order id price quantity draw latency_ms s).2 !! id
              = Some o')
        /\ (exists o',
              (cancel_order id draw latency_ms s).1 = Returned o'
              /\ orders (cancel_order id draw latency_ms s).2 !! id = Some o'
              /\ OrderLedger.is_terminal (Order.status o') = true))
  /\ (forall (s : t) (id : string) (o : Order.t) (cs : list OrderLedger.call),
        orders s !! id = Some o ->
        OrderLedger.is_terminal (Order.status o) = true ->
        (OrderLedger.perform_all id cs s).2 = s
        /\ Forall (fun r => exists operation,
                      r = OrderLedger.InvalidStateTransition operation
                            (Order.status o))
                  (OrderLedger.perform_all id cs s).1).
Proof.
  split; [|split; [|split]]; [| | |intros; apply perform_all_terminal; assumption].
  - intros s id o price quantity draw latency_ms Ho Hterm. split.
    + apply modify_order_terminal; assumption.
    + apply cancel_order_terminal; assumption.
  - intros s id o price quantity draw latency_ms Ho Hchanged.
    apply live_is_pending_or_open.
    destruct (Order.is_live (Order.status o)) eqn:Hlive; [reflexivity|].
    exfalso.
    assert (Hterm : OrderLedger.is_terminal (Order.status o) = true).
    { rewrite terminal_not_live, Hlive. reflexivity. }
    destruct Hchanged as [H|H]; apply H.
    + rewrite (modify_order_terminal s id o price quantity draw latency_ms Ho Hterm).
      exact Ho.
    + rewrite (cancel_order_terminal s id o draw latency_ms Ho Hterm).
      exact Ho.
  - intros s id o price quantity draw latency_ms Ho Hst.
    apply live_is_pending_or_open in Hst. split.
    + apply (modify_order_live s id o); assumption.
    + apply (cancel_order_live s id o); assumption.
Qed.

(** C8 on an executor holding one COMPLETE order. *)
Lemma terminal_orders_are_frozen_example :
  let o := Order.Make "ORD000001" "RELIANCE" "BUY" 10 (Some (234550 # 100))
             "LIMIT" (Some "Example") "t0" Order.COMPLETE None in
  let s := Make {["ORD000001" := o]} [50] 1 1 0 50 (Some 1) in
  modify_order "ORD000001" (Some 2350) (Some 20%Z) (1 # 2) 51 s
  = (Error "Cannot modify order with status COMPLETE", s)
  /\ cancel_order "ORD000001" (1 # 2) 51 s
     = (Error "Cannot cancel order with status COMPLETE", s).
Proof.
  intros o s.
  apply (proj1 terminal_orders_are_frozen s "ORD000001" o
           (Some 2350) (Some 20%Z) (1 # 2) 51).
  - reflexivity.
  - reflexivity.
Defined.

End OrderLedgerFacts.

(** * Further properties of the code *)

(** ** Sums of rationals over a dict *)

Section FoldSums.
Context {A : Type}.
Variable f : string -> A -> Q -> Q.
Variable g : A -> Q.
Hypothesis f_adds : forall j p acc, f j p acc == acc + g p.

Lemma fold_sum_insert (b : Q) (m : gmap string A) (k : string) (x : A) :
  m !! k = None ->
  map_fold f b (<[k := x]> m) == map_fold f b m + g x.
Proof.
  intros Hk.
  rewrite (map_fold_insert Qeq f b k x m).
  - apply f_adds.
  - intros j z a a' Ha. rewrite !f_adds, Ha. reflexivity.
  - intros j1 j2 z1 z2 y _ _ _. rewrite !f_adds. ring.
  - exact Hk.
Qed.

Lemma fold_sum_shift (b : Q) (m : gmap string A) :
  map_fold f b m == b + map_fold f 0 m.
Proof.
  induction m as [|k x m Hk IH] using map_ind.
  - rewrite !map_fold_empty. ring.
  - rewrite !fold_sum_insert by exact Hk. rewrite IH. ring.
Qed.

Lemma fold_sum_update (b : Q) (m : gmap string A) (k : string) (x : A) :
  map_fold f b (<[k := x]> m)
  + match m !! k with Some old => g old | None => 0 end
  == map_fold f b m + g x.
Proof.
  rewrite <- (insert_delete_eq m).
  rewrite fold_sum_insert by apply lookup_delete_eq.
  destruct (m !! k) as [old|] eqn:Hold.
  - rewrite <- (insert_id m _ _ Hold) at 2.
    rewrite <- (insert_delete_eq m).
    rewrite fold_sum_insert by apply lookup_delete_eq. ring.
  - rewrite (delete_id m) by exact Hold. ring.
Qed.

End FoldSums.


(** ** RiskManager: the gate and its book *)

Section RiskBookFacts.
Import RiskManager.

(** A breach found by [check_all_risk_limits] makes [validate_order] deny
    every order with "Trading disabled: " and the reason of the first failing
    check; after a pass the verdict is the position-limit check alone. *)
Theorem validate_order_after_check_all (now_hours now_square : Py.time)
    (s : t) (order : request) :
  let r := check_all_risk_limits now_hours now_square s in
  let change :=
    if String.eqb (req_transaction_type order) "BUY"
    then req_quantity order else (- req_quantity order)%Z in
  (r.1 = false ->
   exists reason,
     RiskGate.first_failure (RiskGate.checks now_hours now_square s) = Some reason
     /\ validate_order r.2 order = Some (false, "Trading disabled: " +:+ reason))
  /\ (r.1 = true ->
      validate_order r.2 order =
        match check_position_limit s (req_instrument order) change with
        | Some true => Some (true, "Order validated")
        | Some false =>
            Some (false, "Position limit exceeded for " +:+ req_instrument order)
        | None => None
        end).
Proof.
  intros r change. subst r.
  unfold check_all_risk_limits, RiskGate.checks, RiskGate.first_failure.
  destruct (check_market_hours now_hours s); simpl;
    [|split; [intros _; eexists; split; reflexivity|discriminate]].
  destruct (check_daily_loss_limit s); simpl;
    [|split; [intros _; eexists; split; reflexivity|discriminate]].
  destruct (check_drawdown_limit s); simpl;
    [|split; [intros _; eexists; split; reflexivity|discriminate]].
  destruct (check_notional_exposure s); simpl;
    [|split; [intros _; eexists; split; reflexivity|discriminate]].
  destruct (check_open_orders_limit s); simpl;
    [|split; [intros _; eexists; split; reflexivity|discriminate]].
  destruct (check_auto_square_off now_square s); simpl;
    [split; [intros _; eexists; split; reflexivity|discriminate]|].
  split; [discriminate|]. intros _.
  unfold validate_order, check_position_limit, position_limit, position_quantity.
  simpl. fold change.
  destruct (max_position_size (risk_params s) !! "default"); [|reflexivity].
  destruct (_ <=? _)%Z; reflexivity.
Qed.

Lemma validate_order_after_check_all_example :
  let s := Make default_params ∅ ∅ (- 10500) 0 0 true false None in
  validate_order
    (check_all_risk_limits (Py.TimeOfDay 10 0 0 0) (Py.TimeOfDay 10 0 0 0) s).2
    (Request "TCS" "BUY" 5)
  = Some (false, "Trading disabled: Daily loss limit exceeded").
Proof.
  intros s.
  destruct (proj1 (validate_order_after_check_all
                     (Py.TimeOfDay 10 0 0 0) (Py.TimeOfDay 10 0 0 0) s
                     (Request "TCS" "BUY" 5))) as (reason & Hr & Hv).
  - reflexivity.
  - rewrite Hv. vm_compute in Hr. inversion Hr. reflexivity.
Defined.

(** Checking twice on the same clock readings changes nothing more: the
    verdict does not depend on what an earlier check latched. *)
Theorem check_all_risk_limits_idempotent (now_hours now_square : Py.time) (s : t) :
  check_all_risk_limits now_hours now_square
    (check_all_risk_limits now_hours now_square s).2
  = check_all_risk_limits now_hours now_square s.
Proof.
  unfold check_all_risk_limits at 2.
  destruct (check_market_hours now_hours s) eqn:E1; simpl;
    [|unfold check_all_risk_limits, check_market_hours in *; simpl;
      rewrite E1; reflexivity].
  destruct (check_daily_loss_limit s) eqn:E2; simpl;
    [|unfold check_all_risk_limits, check_market_hours, check_daily_loss_limit in *;
      simpl; rewrite E1, E2; reflexivity].
  destruct (check_drawdown_limit s) eqn:E3; simpl;
    [|unfold check_all_risk_limits, check_market_hours, check_daily_loss_limit,
        check_drawdown_limit in *; simpl; rewrite E1, E2, E3; reflexivity].
  destruct (check_notional_exposure s) eqn:E4; simpl;
    [|unfold check_all_risk_limits, check_market_hours, check_daily_loss_limit,
        check_drawdown_limit, check_notional_exposure, total_exposure in *;
      simpl; rewrite E1, E2, E3, E4; reflexivity].
  destruct (check_open_orders_limit s) eqn:E5; simpl;
    [|unfold check_all_risk_limits, check_market_hours, check_daily_loss_limit,
        check_drawdown_limit, check_notional_exposure, total_exposure,
        check_open_orders_limit, open_orders_count in *;
      simpl; rewrite E1, E2, E3, E4, E5; reflexivity].
  destruct (check_auto_square_off now_square s) eqn:E6; simpl;
    unfold check_all_risk_limits, check_market_hours, check_daily_loss_limit,
      check_drawdown_limit, check_notional_exposure, total_exposure,
      check_open_orders_limit, open_orders_count, check_auto_square_off in *;
    simpl; rewrite E1, E2, E3, E4, E5, E6; reflexivity.
Qed.

(** [update_position] is an assignment: the instrument reads back the
    quantity and price just written (its cost basis, 0 for a new instrument,
    is left alone), and every other instrument keeps its record up to the
    refresh of its [pnl] figure. *)
Theorem update_position_reads_back (i : string) (q : Z) (px : Q) (s : t) :
  let s' := update_position i q px s in
  (exists pos,
     positions s' !! i = Some pos
     /\ quantity pos = q
     /\ last_price pos = px
     /\ avg_price pos = match positions s !! i with
                        | Some p0 => avg_price p0
                        | None => 0
                        end)
  /\ position_quantity s' i = q
  /\ (forall j, j <> i ->
        positions s' !! j = mark <$> positions s !! j
        /\ position_quantity s' j = position_quantity s j)
  /\ orders s' = orders s
  /\ risk_params s' = risk_params s.
Proof.
  intros s'. subst s'.
  assert (Hi : positions (update_position i q px s) !! i
               = Some (mark (Position q
                               (match positions s !! i with
                                | Some p0 => avg_price p0
                                | None => 0
                                end) px
                               (match positions s !! i with
                                | Some p0 => pnl p0
                                | None => 0
                                end)))).
  { unfold update_position, update_pnl. simpl.
    rewrite lookup_fmap, lookup_alter_eq.
    destruct (positions s !! i) as [p0|] eqn:E.
    - rewrite E. reflexivity.
    - rewrite lookup_insert_eq. reflexivity. }
  assert (Hj : forall j, j <> i ->
                 positions (update_position i q px s) !! j = mark <$> positions s !! j).
  { intros j Hne. unfold update_position, update_pnl. simpl.
    rewrite lookup_fmap, lookup_alter_ne by congruence.
    destruct (positions s !! i); [reflexivity|].
    rewrite lookup_insert_ne by congruence. reflexivity. }
  split; [|split; [|split; [|split]]].
  - eexists. split; [exact Hi|].
    unfold mark. destruct (skipped _); simpl; auto.
  - unfold position_quantity. rewrite Hi.
    unfold mark. destruct (skipped _); reflexivity.
  - intros j Hne. split; [apply Hj; exact Hne|].
    unfold position_quantity. rewrite (Hj j Hne).
    destruct (positions s !! j) as [pj|]; simpl; [|reflexivity].
    unfold mark. destruct (skipped pj); reflexivity.
  - reflexivity.
  - reflexivity.
Qed.

Lemma update_position_reads_back_example :
  position_quantity
    (update_position "INFY" (-5) (184525 # 100)
       (update_position "RELIANCE" 10 (234550 # 100) (init default_params)))
    "RELIANCE"
  = 10%Z.
Proof.
  destruct (update_position_reads_back "INFY" (-5) (184525 # 100)
              (update_position "RELIANCE" 10 (234550 # 100) (init default_params)))
    as (_ & _ & Hother & _).
  destruct (Hother "RELIANCE") as [_ Hq]; [discriminate|].
  rewrite Hq. reflexivity.
Defined.

Lemma live_count_insert_fresh (m : gmap string Order.t) (k : string) (o : Order.t) :
  m !! k = None ->
  map_fold (fun _ o n => if Order.is_live (Order.status o) then (n + 1)%Z else n)
           0%Z (<[k := o]> m)
  = ((if Order.is_live (Order.status o) then 1 else 0)
     + map_fold (fun _ o n => if Order.is_live (Order.status o) then (n + 1)%Z else n)
                0%Z m)%Z.
Proof.
  intros Hk. rewrite map_fold_insert_L.
  - destruct (Order.is_live (Order.status o)); lia.
  - intros j1 j2 z1 z2 y _ _ _.
    destruct (Order.is_live (Order.status z1)), (Order.is_live (Order.status z2)); lia.
  - exact Hk.
Qed.

(** Recording an order under a non-empty id replaces what was stored under
    that id, and the open-order count moves by exactly that order: one less
    if the stored one was OPEN or PENDING, one more if the new one is.  An
    order with an empty id is dropped. *)
Theorem update_order_moves_open_count (order : Order.t) (s : t) :
  (Order.order_id order = "" -> update_order order s = s)
  /\ (Order.order_id order <> "" ->
      orders (update_order order s) !! Order.order_id order = Some order
      /\ (open_orders_count (update_order order s)
          + match orders s !! Order.order_id order with
            | Some old => if Order.is_live (Order.status old) then 1 else 0
            | None => 0
            end
          = open_orders_count s
            + (if Order.is_live (Order.status order) then 1 else 0))%Z).
Proof.
  split.
  - intros Hid. unfold update_order. rewrite Hid. reflexivity.
  - intros Hid. unfold update_order.
    destruct (String.eqb (Order.order_id order) "") eqn:E.
    { apply String.eqb_eq in E. contradiction. }
    split; [simpl; apply lookup_insert_eq|].
    unfold open_orders_count. simpl.
    rewrite <- (insert_delete_eq (orders s)).
    rewrite live_count_insert_fresh by apply lookup_delete_eq.
    destruct (orders s !! Order.order_id order) as [old|] eqn:Hold.
    + rewrite <- (insert_id (orders s) _ _ Hold) at 2.
      rewrite <- (insert_delete_eq (orders s)).
      rewrite live_count_insert_fresh by apply lookup_delete_eq.
      lia.
    + rewrite (delete_id (orders s)) by exact Hold. lia.
Qed.

Lemma update_order_moves_open_count_example :
  let o := Order.Make "ORD000001" "RELIANCE" "BUY" 10 (Some (234550 # 100))
             "LIMIT" None "t0" Order.OPEN None in
  open_orders_count
    (update_order (Order.set_status Order.COMPLETE o)
                  (update_order o (init default_params)))
  = 0%Z.
Proof.
  intros o.
  destruct (proj2 (update_order_moves_open_count
                     (Order.set_status Order.COMPLETE o)
                     (update_order o (init default_params)))) as [_ H].
  - discriminate.
  - vm_compute in H. vm_compute. lia.
Defined.




End RiskBookFacts.

(** ** Backtest: more on the position book *)

Section PositionBookMore.
Import Backtest.

Lemma fill_quantity (tr : trade) (p : position) :
  quantity (fill (action tr) (trade_quantity tr) (price tr) p)
  = (quantity p + PositionBook.signed_quantity tr)%Z.
Proof.
  unfold fill, PositionBook.signed_quantity.
  destruct (String.eqb (action tr) "BUY"); [reflexivity|].
  destruct (String.eqb (action tr) "SELL"); simpl; lia.
Qed.

Lemma held_update_position (tr : trade) (ps : gmap string position) (i : string) :
  PositionBook.held (update_position tr ps) i
  = (PositionBook.held ps i
     + if String.eqb (instrument tr) i then PositionBook.signed_quantity tr else 0)%Z.
Proof.
  unfold PositionBook.held.
  destruct (String.eqb (instrument tr) i) eqn:E.
  - apply String.eqb_eq in E. subst i.
    rewrite update_position_lookup, fill_quantity.
    destruct (ps !! instrument tr); reflexivity.
  - apply String.eqb_neq in E.
    rewrite update_position_lookup_ne by congruence.
    destruct (ps !! i); lia.
Qed.

(** The quantity a book holds in an instrument is what it held before plus
    the signed sum of the fills in that instrument, BUY counting up and SELL
    down; from the empty book it is that sum. *)
Theorem quantity_is_net_of_fills (trs : list trade) (ps : gmap string position)
    (i : string) :
  PositionBook.held (PositionBook.apply_fills trs ps) i
  = (PositionBook.held ps i + PositionBook.net_quantity i trs)%Z.
Proof.
  revert ps. induction trs as [|tr trs IH]; intros ps.
  - simpl. lia.
  - unfold PositionBook.apply_fills. simpl.
    fold (PositionBook.apply_fills trs (update_position tr ps)).
    rewrite IH, held_update_position.
    destruct (String.eqb (instrument tr) i); lia.
Qed.

(** A SELL against a long position realizes [(P - A)] on the part of the
    long it closes, leaves the cost basis alone while the position stays long
    or goes flat, and restarts it at the selling price when the position
    flips to short. *)
Theorem sell_against_long (ps : gmap string position) (i : string) (p : position)
    (q : Z) (P : Q) (ts ot : string) :
  ps !! i = Some p ->
  (0 < quantity p)%Z ->
  (0 < q)%Z ->
  exists p',
    update_position (Trade i "SELL" q P ts ot) ps !! i = Some p'
    /\ quantity p' = (quantity p - q)%Z
    /\ realized_pnl p' ==
         realized_pnl p + (P - avg_price p) * inject_Z (Z.min q (quantity p))
    /\ avg_price p' = (if (quantity p <? q)%Z then P else avg_price p)
    /\ current_price p' = P.
Proof.
  intros Hp Hlong Hq.
  eexists. split.
  { pose proof (update_position_lookup (Trade i "SELL" q P ts ot) ps) as Hl.
    simpl in Hl. rewrite Hp in Hl. exact Hl. }
  unfold fill. simpl.
  assert (Hpos : (0 <? quantity p)%Z = true) by (apply Z.ltb_lt; exact Hlong).
  rewrite Hpos.
  assert (Hback : (0 <? quantity p - q + q)%Z = true) by (apply Z.ltb_lt; lia).
  rewrite Hback, andb_true_r. simpl.
  split; [reflexivity|]. split; [reflexivity|]. split; [|reflexivity].
  destruct (quantity p <? q)%Z eqn:E.
  - apply Z.ltb_lt in E.
    assert (H : (quantity p - q <? 0)%Z = true) by (apply Z.ltb_lt; lia).
    rewrite H. reflexivity.
  - apply Z.ltb_ge in E.
    assert (H : (quantity p - q <? 0)%Z = false) by (apply Z.ltb_ge; lia).
    rewrite H. reflexivity.
Qed.

Lemma sell_against_long_example :
  exists p',
    update_position (Trade "X" "SELL" 15 120 "t2" "LIMIT")
      {["X" := Position 10 100 100 0]} !! "X" = Some p'
    /\ quantity p' = (-5)%Z
    /\ realized_pnl p' == 200
    /\ avg_price p' = 120.
Proof.
  destruct (sell_against_long {["X" := Position 10 100 100 0]} "X"
              (Position 10 100 100 0) 15 120 "t2" "LIMIT")
    as (p' & H1 & H2 & H3 & H4 & _).
  - reflexivity.
  - reflexivity.
  - reflexivity.
  - exists p'. split; [exact H1|]. split; [exact H2|].
    split; [rewrite H3; vm_compute; reflexivity|exact H4].
Defined.

Lemma equity_realized_adds (j : string) (p : position) (acc : Q) :
  acc + realized_pnl p == acc + realized_pnl p.
Proof. reflexivity. Qed.

Lemma equity_unrealized_adds (j : string) (p : position) (acc : Q) :
  (if negb (quantity p =? 0)%Z && Py.truthy (avg_price p)
      && Py.truthy (current_price p)
   then acc + (current_price p - avg_price p) * inject_Z (quantity p)
   else acc)
  == acc + PositionBook.unrealized p.
Proof.
  unfold PositionBook.unrealized.
  destruct (negb (quantity p =? 0)%Z && Py.truthy (avg_price p)
            && Py.truthy (current_price p)); ring.
Qed.

(** Writing a record into the book moves the equity by the difference
    between what the new record and the old one contribute. *)
Lemma calculate_equity_insert (c : Q) (ps : gmap string position) (k : string)
    (x : position) :
  calculate_equity c (<[k := x]> ps)
  + match ps !! k with Some old => PositionBook.contribution old | None => 0 end
  == calculate_equity c ps + PositionBook.contribution x.
Proof.
  unfold calculate_equity, PositionBook.contribution.
  rewrite (fold_sum_shift _ _ equity_unrealized_adds
             (map_fold _ c (<[k := x]> ps))).
  rewrite (fold_sum_shift _ _ equity_unrealized_adds (map_fold _ c ps)).
  pose proof (fold_sum_update _ _ equity_realized_adds c ps k x) as HR.
  pose proof (fold_sum_update _ _ equity_unrealized_adds 0 ps k x) as HU.
  simpl in HR, HU.
  destruct (ps !! k) as [old|]; lra.
Qed.


Lemma unrealized_flat (p : position) :
  quantity p = 0%Z -> PositionBook.unrealized p = 0.
Proof.
  intros Hq. unfold PositionBook.unrealized. rewrite Hq. reflexivity.
Qed.

Lemma unrealized_no_basis (p : position) :
  avg_price p == 0 -> PositionBook.unrealized p = 0.
Proof.
  intros Ha. unfold PositionBook.unrealized.
  apply truthy_false in Ha. rewrite Ha, andb_false_r. reflexivity.
Qed.

Lemma update_position_as_insert (tr : trade) (ps : gmap string position) :
  update_position tr ps
  = <[instrument tr :=
        fill (action tr) (trade_quantity tr) (price tr)
             (default (Position 0 0 (price tr) 0) (ps !! instrument tr))]> ps.
Proof.
  apply map_eq. intros j.
  destruct (decide (j = instrument tr)) as [->|Hne].
  - rewrite update_position_lookup, lookup_insert_eq. reflexivity.
  - rewrite update_position_lookup_ne, lookup_insert_ne by congruence.
    reflexivity.
Qed.

Lemma mark_to_market_as_insert (i : string) (px : Q) (ps : gmap string position)
    (p : position) :
  ps !! i = Some p ->
  mark_to_market i px ps
  = <[i := Position (quantity p) (avg_price p) px (realized_pnl p)]> ps.
Proof.
  intros Hp. apply map_eq. intros j. unfold mark_to_market.
  destruct (decide (j = i)) as [->|Hne].
  - rewrite lookup_alter_eq, lookup_insert_eq, Hp. reflexivity.
  - rewrite lookup_alter_ne, lookup_insert_ne by congruence. reflexivity.
Qed.

Lemma mark_to_market_absent (i : string) (px : Q) (ps : gmap string position) :
  ps !! i = None -> mark_to_market i px ps = ps.
Proof.
  intros Hp. apply map_eq. intros j. unfold mark_to_market.
  destruct (decide (j = i)) as [->|Hne].
  - rewrite lookup_alter_eq, Hp. reflexivity.
  - rewrite lookup_alter_ne by congruence. reflexivity.
Qed.



(** The short side is never valued.  A SELL on an instrument the book does
    not hold opens a short with cost basis 0, which the equity skips whatever
    price it is marked to; buying the short back, at any price, realizes
    nothing and leaves quantity 0: the equity is what it was before the
    round trip. *)
Theorem short_round_trip_is_invisible (c : Q) (ps : gmap string position)
    (i : string) (q : Z) (p1 p2 m : Q) (ts1 ot1 ts2 ot2 : string) :
  ps !! i = None ->
  (0 < q)%Z ->
  let opened := update_position (Trade i "SELL" q p1 ts1 ot1) ps in
  let closed := update_position (Trade i "BUY" q p2 ts2 ot2) opened in
  opened !! i = Some (Position (- q) 0 p1 0)
  /\ calculate_equity c (mark_to_market i m opened) == calculate_equity c ps
  /\ closed !! i = Some (Position 0 0 p2 0)
  /\ calculate_equity c closed == calculate_equity c ps.
Proof.
  intros Hnone Hq opened closed.
  assert (Hopen : opened !! i = Some (Position (- q) 0 p1 0)).
  { subst opened.
    pose proof (update_position_lookup (Trade i "SELL" q p1 ts1 ot1) ps) as Hl.
    simpl in Hl. rewrite Hnone in Hl. rewrite Hl. unfold fill. simpl.
    assert (H : (0 <? 0 - q + q)%Z = false) by (apply Z.ltb_ge; lia).
    rewrite H, andb_false_r. reflexivity. }
  assert (Hclosed : closed !! i = Some (Position 0 0 p2 0)).
  { subst closed.
    pose proof (update_position_lookup (Trade i "BUY" q p2 ts2 ot2) opened) as Hl.
    simpl in Hl. rewrite Hopen in Hl. rewrite Hl. unfold fill. simpl.
    assert (H : (- q + q =? 0)%Z = true) by (apply Z.eqb_eq; lia).
    rewrite H. f_equal. f_equal. lia. }
  split; [exact Hopen|]. split; [|split; [exact Hclosed|]].
  - rewrite (mark_to_market_as_insert i m opened _ Hopen). simpl.
    subst opened. rewrite update_position_as_insert. simpl.
    rewrite insert_insert_eq.
    pose proof (calculate_equity_insert c ps i (Position (- q) 0 m 0)) as H.
    rewrite Hnone in H.
    assert (Hc : PositionBook.contribution (Position (- q) 0 m 0) == 0).
    { unfold PositionBook.contribution.
      rewrite unrealized_no_basis by reflexivity. simpl. ring. }
    lra.
  - subst closed. rewrite update_position_as_insert. simpl.
    rewrite Hopen. simpl.
    subst opened. rewrite update_position_as_insert. simpl.
    rewrite insert_insert_eq.
    pose proof (calculate_equity_insert c ps i
                  (fill "BUY" q p2 (Position (- q) 0 p1 0))) as H.
    rewrite Hnone in H.
    assert (Hc : PositionBook.contribution (fill "BUY" q p2 (Position (- q) 0 p1 0))
                 == 0).
    { unfold PositionBook.contribution.
      rewrite unrealized_flat by (unfold fill; simpl; lia).
      unfold fill. simpl. ring. }
    lra.
Qed.

Lemma short_round_trip_is_invisible_example :
  calculate_equity 100000
    (update_position (Trade "X" "BUY" 10 90 "t2" "LIMIT")
       (update_position (Trade "X" "SELL" 10 100 "t1" "LIMIT") ∅))
  == calculate_equity 100000 ∅.
Proof.
  apply (short_round_trip_is_invisible 100000 ∅ "X" 10 100 90 0
           "t1" "LIMIT" "t2" "LIMIT").
  - reflexivity.
  - reflexivity.
Defined.

End PositionBookMore.

(** ** Backtest: the replay *)

Section ReplayFacts.
Import Backtest.

Lemma execute_signal_unpriced (sg : signal) (ts : string) (b : t) :
  Replay.unpriced sg = true -> execute_signal sg ts b = Raised "AttributeError".
Proof.
  unfold Replay.unpriced, execute_signal. intros H.
  destruct (sig_price sg) as [px|]; [|reflexivity].
  cbv zeta. rewrite H. reflexivity.
Qed.

Lemma execute_signal_priced (sg : signal) (ts : string) (b : t) :
  Replay.unpriced sg = false ->
  exists px,
    sig_price sg = Some px
    /\ ~ px == 0
    /\ execute_signal sg ts b =
         Done (Make (trades b
                     ++ [Trade (sig_instrument sg) (sig_action sg) (sig_quantity sg)
                               px ts (default "LIMIT" (sig_order_type sg))])
                    (update_position
                       (Trade (sig_instrument sg) (sig_action sg) (sig_quantity sg)
                              px ts (default "LIMIT" (sig_order_type sg)))
                       (positions b))).
Proof.
  unfold Replay.unpriced, execute_signal. intros H.
  destruct (sig_price sg) as [px|]; [|discriminate].
  cbv zeta. rewrite H. apply orb_false_elim in H as [Hp _].
  exists px. split; [reflexivity|]. split.
  - apply truthy_true. apply negb_false_iff in Hp. exact Hp.
  - rewrite Hp. reflexivity.
Qed.

Lemma execute_signals_unpriced (sgs : list (signal * string)) (b : t) :
  (exists sg ts, (sg, ts) ∈ sgs /\ Replay.unpriced sg = true) ->
  execute_signals sgs b = Raised "AttributeError".
Proof.
  revert b. induction sgs as [|[sg0 ts0] sgs IH]; intros b (sg & ts & Hin & Hun).
  - apply elem_of_nil in Hin. contradiction.
  - simpl. destruct (Replay.unpriced sg0) eqn:E0.
    + rewrite (execute_signal_unpriced sg0 ts0 b E0). reflexivity.
    + destruct (execute_signal_priced sg0 ts0 b E0) as (px & _ & _ & ->).
      apply IH. exists sg, ts. split; [|exact Hun].
      apply elem_of_cons in Hin as [Heq|Hin]; [|exact Hin].
      inversion Heq; subst. congruence.
Qed.

(** [execute_signal] trades on limit prices only.  A signal without a
    price, with a zero price, or for a MARKET order raises and records
    nothing; any other signal records exactly one trade at its own price and
    applies it to the book.  One such signal among those of a tick aborts
    the replay, whatever was traded before it. *)
Theorem replay_needs_limit_prices :
  (forall sg ts b,
     Replay.unpriced sg = true -> execute_signal sg ts b = Raised "AttributeError")
  /\ (forall sg ts b,
        Replay.unpriced sg = false ->
        exists px tr,
          sig_price sg = Some px
          /\ tr = Trade (sig_instrument sg) (sig_action sg) (sig_quantity sg)
                        px ts (default "LIMIT" (sig_order_type sg))
          /\ execute_signal sg ts b
             = Done (Make (trades b ++ [tr]) (update_position tr (positions b))))
  /\ (forall generate_signals initial_capital tk rest market_data b curve,
        (exists sg,
           sg ∈ generate_signals (<[tick_instrument tk := tk]> market_data)
           /\ Replay.unpriced sg = true) ->
        replay generate_signals initial_capital (tk :: rest) market_data b curve
        = Aborted "AttributeError").
Proof.
  split; [exact execute_signal_unpriced|]. split.
  - intros sg ts b H.
    destruct (execute_signal_priced sg ts b H) as (px & Hpx & _ & He).
    exists px. eexists. split; [exact Hpx|]. split; [reflexivity|exact He].
  - intros gen c tk rest md b curve (sg & Hin & Hun).
    simpl. unfold process_tick.
    rewrite execute_signals_unpriced; [reflexivity|].
    exists sg, (tick_timestamp tk). split; [|exact Hun].
    apply list_elem_of_fmap. exists sg. split; [reflexivity|exact Hin].
Qed.

Lemma replay_needs_limit_prices_example :
  run (fun _ => [Signal "X" "BUY" 10 None (Some "MARKET")]) "t0" 100000
      [Tick "X" 100 1 99 101 "t1"]
  = Aborted "AttributeError".
Proof.
  apply (proj2 (proj2 replay_needs_limit_prices)).
  eexists. split; [apply list_elem_of_here|reflexivity].
Defined.

Lemma mark_to_market_empty (i : string) (px : Q) : mark_to_market i px ∅ = ∅.
Proof. apply mark_to_market_absent. apply lookup_empty. Qed.

Lemma replay_without_signals (generate_signals : gmap string tick -> list signal)
    (c : Q) (ticks : list tick) (market_data : gmap string tick)
    (curve : list (string * Q)) :
  (forall md, generate_signals md = []) ->
  replay generate_signals c ticks market_data init curve
  = Finished (curve ++ map (fun tk => (tick_timestamp tk, c)) ticks) init.
Proof.
  intros Hgen. revert market_data curve.
  induction ticks as [|tk ticks IH]; intros market_data curve.
  - simpl. rewrite app_nil_r. reflexivity.
  - simpl. unfold process_tick. rewrite Hgen. simpl.
    rewrite mark_to_market_empty.
    change (Make [] ∅) with init.
    unfold calculate_equity. simpl. rewrite !map_fold_empty.
    rewrite IH, <- app_assoc. reflexivity.
Qed.

(** A strategy that never signals leaves the replay with nothing traded, no
    position, and an equity curve that shows the initial capital at the
    opening point and at every tick. *)
Theorem run_without_signals (generate_signals : gmap string tick -> list signal)
    (start : string) (c : Q) (ticks : list tick) :
  (forall md, generate_signals md = []) ->
  run generate_signals start c ticks
  = Finished ((start, c) :: map (fun tk => (tick_timestamp tk, c)) ticks) init.
Proof.
  intros Hgen. unfold run.
  rewrite (replay_without_signals generate_signals c ticks ∅ [(start, c)] Hgen).
  reflexivity.
Qed.

Lemma run_without_signals_example :
  run (fun _ => []) "t0" 100000
      [Tick "X" 100 1 99 101 "t1"; Tick "X" 101 1 100 102 "t2"]
  = Finished [("t0", 100000); ("t1", 100000); ("t2", 100000)] init.
Proof.
  apply (run_without_signals (fun _ => []) "t0" 100000
           [Tick "X" 100 1 99 101 "t1"; Tick "X" 101 1 100 102 "t2"]).
  reflexivity.
Defined.

Lemma replay_curve (generate_signals : gmap string tick -> list signal)
    (c : Q) (ticks : list tick) (market_data : gmap string tick) (b b' : t)
    (curve curve' : list (string * Q)) :
  replay generate_signals c ticks market_data b curve = Finished curve' b' ->
  map fst curve' = map fst curve ++ map tick_timestamp ticks
  /\ exists older, trades b' = trades b ++ older.
Proof.
  revert market_data b curve.
  induction ticks as [|tk ticks IH]; intros market_data b curve H.
  - simpl in H. inversion H; subst. rewrite !app_nil_r.
    split; [reflexivity|]. exists []. rewrite app_nil_r. reflexivity.
  - simpl in H.
    destruct (process_tick generate_signals market_data tk b) as [md' [b1|e]] eqn:E;
      [|discriminate].
    apply IH in H as [Hc [older Ht]].
    split.
    + rewrite Hc, map_app, <- app_assoc. reflexivity.
    + unfold process_tick in E.
      destruct (execute_signals _ b) as [b2|e] eqn:E2; [|inversion E].
      inversion E; subst. simpl in Ht.
      assert (Hgrow : forall sgs b0 b3,
                 execute_signals sgs b0 = Done b3 ->
                 exists more, trades b3 = trades b0 ++ more).
      { clear. induction sgs as [|[sg ts] sgs IHs]; intros b0 b3 H.
        - inversion H. exists []. rewrite app_nil_r. reflexivity.
        - simpl in H. destruct (execute_signal sg ts b0) as [b1|e] eqn:E1;
            [|discriminate].
          apply IHs in H as [more Hm].
          destruct (Replay.unpriced sg) eqn:Eu.
          + rewrite (execute_signal_unpriced sg ts b0 Eu) in E1. discriminate.
          + destruct (execute_signal_priced sg ts b0 Eu) as (px & _ & _ & Hd).
            rewrite Hd in E1. inversion E1; subst. simpl in Hm.
            eexists. rewrite Hm, <- app_assoc. reflexivity. }
      destruct (Hgrow _ _ _ E2) as [more Hmore].
      exists (more ++ older). rewrite Ht, Hmore, <- app_assoc. reflexivity.
Qed.

(** A replay that runs to its end has one equity point per tick, in tick
    order, after the opening point at the initial capital. *)
Theorem run_curve_follows_ticks (generate_signals : gmap string tick -> list signal)
    (start : string) (c : Q) (ticks : list tick)
    (curve : list (string * Q)) (b : t) :
  run generate_signals start c ticks = Finished curve b ->
  map fst curve = start :: map tick_timestamp ticks
  /\ length curve = S (length ticks)
  /\ head curve = Some (start, c).
Proof.
  intros H. unfold run in H.
  assert (Hhead : forall ticks md b0 curve0 curve1 b1 pt,
             head curve0 = Some pt ->
             replay generate_signals c ticks md b0 curve0 = Finished curve1 b1 ->
             head curve1 = Some pt).
  { clear. induction ticks as [|tk ticks IH]; intros md b0 curve0 curve1 b1 pt Hpt Hr.
    - simpl in Hr. inversion Hr; subst. exact Hpt.
    - simpl in Hr.
      destruct (process_tick generate_signals md tk b0) as [md' [b2|e]];
        [|discriminate].
      apply (IH _ _ _ _ _ pt) in Hr; [exact Hr|].
      destruct curve0; [discriminate|exact Hpt]. }
  pose proof (Hhead ticks ∅ init [(start, c)] curve b (start, c) eq_refl H) as Hh.
  apply replay_curve in H as [Hc _]. simpl in Hc.
  split; [exact Hc|]. split; [|exact Hh].
  rewrite <- (length_map fst curve), Hc. simpl. rewrite length_map. reflexivity.
Qed.

Lemma run_curve_follows_ticks_example :
  map fst [("t0", 100000); ("t1", 100000)] = ["t0"; "t1"].
Proof.
  apply (run_curve_follows_ticks (fun _ => []) "t0" 100000
           [Tick "X" 100 1 99 101 "t1"] [("t0", 100000); ("t1", 100000)] init).
  reflexivity.
Defined.

Lemma count_of_untraded (i act : string) (trs : list trade) :
  Replay.traded i trs = false -> Replay.count_of i act trs = 0%nat.
Proof.
  unfold Replay.traded, Replay.count_of.
  induction trs as [|tr trs IH]; [reflexivity|].
  simpl. intros H. apply orb_false_elim in H as [H1 H2].
  rewrite H1. simpl. apply IH. exact H2.
Qed.

Lemma count_trades_counts (trs : list trade) (acc : gmap string (Z * Z)) :
  Forall (fun tr => Replay.buy_or_sell tr = true) trs ->
  exists counts,
    count_trades trs acc = Some counts
    /\ forall i,
         counts !! i =
           if Replay.traded i trs
           then Some (((default (0, 0) (acc !! i)).1
                       + Z.of_nat (Replay.count_of i "BUY" trs))%Z,
                      ((default (0, 0) (acc !! i)).2
                       + Z.of_nat (Replay.count_of i "SELL" trs))%Z)
           else acc !! i.
Proof.
  intros Hall. revert acc.
  induction Hall as [|tr trs Htr _ IH]; intros acc.
  - exists acc. split; reflexivity.
  - simpl. unfold Replay.buy_or_sell in Htr. unfold bump.
    set (a := default (0%Z, 0%Z) (acc !! instrument tr)).
    assert (Hcase :
      exists c, (if String.eqb (action tr) "BUY" then Some ((a.1 + 1)%Z, a.2)
                 else if String.eqb (action tr) "SELL" then Some (a.1, (a.2 + 1)%Z)
                 else None) = Some c
                /\ c = ((a.1 + if String.eqb (action tr) "BUY" then 1 else 0)%Z,
                        (a.2 + if String.eqb (action tr) "SELL" then 1 else 0)%Z)).
    { destruct (String.eqb (action tr) "BUY") eqn:EB.
      - apply String.eqb_eq in EB. rewrite EB. simpl.
        eexists. split; [reflexivity|]. f_equal. lia.
      - simpl in Htr. rewrite Htr.
        eexists. split; [reflexivity|]. f_equal. lia. }
    destruct Hcase as (c & -> & Hc).
    destruct (IH (<[instrument tr := c]> acc)) as (counts & Hcount & Hlook).
    exists counts. split; [exact Hcount|].
    intros i. rewrite Hlook. unfold Replay.traded, Replay.count_of. simpl.
    fold (Replay.traded i trs).
    fold (Replay.count_of i "BUY" trs). fold (Replay.count_of i "SELL" trs).
    destruct (String.eqb (instrument tr) i) eqn:Ei.
    + apply String.eqb_eq in Ei. subst i. rewrite lookup_insert_eq. simpl.
      fold a. rewrite Hc. simpl.
      destruct (Replay.traded (instrument tr) trs) eqn:Et.
      * f_equal. f_equal;
          [destruct (String.eqb (action tr) "BUY")
          |destruct (String.eqb (action tr) "SELL")];
          unfold Replay.count_of; simpl length; lia.
      * pose proof (count_of_untraded (instrument tr) "BUY" trs Et) as HB.
        pose proof (count_of_untraded (instrument tr) "SELL" trs Et) as HS.
        unfold Replay.count_of in HB, HS.
        f_equal. f_equal;
          [destruct (String.eqb (action tr) "BUY")
          |destruct (String.eqb (action tr) "SELL")];
          simpl length; lia.
    + apply String.eqb_neq in Ei. rewrite lookup_insert_ne by exact Ei. simpl.
      reflexivity.
Qed.

Lemma count_trades_key_error (trs : list trade) (acc : gmap string (Z * Z)) :
  (exists tr, tr ∈ trs /\ Replay.buy_or_sell tr = false) ->
  count_trades trs acc = None.
Proof.
  revert acc. induction trs as [|tr0 trs IH]; intros acc (tr & Hin & Hbad).
  - apply elem_of_nil in Hin. contradiction.
  - simpl. unfold bump.
    destruct (Replay.buy_or_sell tr0) eqn:E0.
    + assert (Hrest : tr ∈ trs).
      { apply elem_of_cons in Hin as [Heq|Hin]; [|exact Hin].
        subst tr0. congruence. }
      unfold Replay.buy_or_sell in E0.
      destruct (String.eqb (action tr0) "BUY").
      * apply IH. eauto.
      * simpl in E0. rewrite E0. apply IH. eauto.
    + unfold Replay.buy_or_sell in E0. apply orb_false_elim in E0 as [-> ->].
      reflexivity.
Qed.

(** [get_trades_summary] returns the empty summary without trades; when
    every trade is a BUY or a SELL it reports the number of trades, per
    traded instrument the number bought and the number sold (and nothing for
    an instrument never traded), and the first and last trade times; one
    trade with any other action makes it raise. *)
Theorem trades_summary_counts (b : t) :
  (trades b = [] -> get_trades_summary b = NoTrades)
  /\ (trades b <> [] ->
      Forall (fun tr => Replay.buy_or_sell tr = true) (trades b) ->
      exists sm,
        get_trades_summary b = Summary sm
        /\ total_trades sm = length (trades b)
        /\ (forall i,
              by_instrument sm !! i =
                if Replay.traded i (trades b)
                then Some (Z.of_nat (Replay.count_of i "BUY" (trades b)),
                           Z.of_nat (Replay.count_of i "SELL" (trades b)))
                else None)
        /\ first_trade_time sm = timestamp <$> head (trades b)
        /\ last_trade_time sm = timestamp <$> last (trades b))
  /\ (forall tr,
        tr ∈ trades b -> Replay.buy_or_sell tr = false ->
        get_trades_summary b = SummaryKeyError).
Proof.
  unfold get_trades_summary. split; [|split].
  - intros ->. reflexivity.
  - intros Hne Hall.
    destruct (count_trades_counts (trades b) ∅ Hall) as (counts & Hc & Hlook).
    destruct (trades b) as [|tr trs] eqn:E; [congruence|].
    rewrite Hc. eexists. split; [reflexivity|]. simpl.
    split; [reflexivity|]. split; [|split; reflexivity].
    intros i. rewrite Hlook, lookup_empty. simpl.
    destruct (_ || _); reflexivity.
  - intros tr Hin Hbad.
    destruct (trades b) as [|tr0 trs] eqn:E.
    + apply elem_of_nil in Hin. contradiction.
    + rewrite (count_trades_key_error (tr0 :: trs) ∅); [reflexivity|].
      exists tr. split; assumption.
Qed.

Lemma trades_summary_counts_example :
  exists sm,
    get_trades_summary
      (Make [Trade "X" "BUY" 10 100 "t1" "LIMIT";
             Trade "X" "SELL" 10 101 "t2" "LIMIT";
             Trade "Y" "BUY" 5 50 "t3" "LIMIT"] ∅) = Summary sm
    /\ by_instrument sm !! "X" = Some (1%Z, 1%Z)
    /\ by_instrument sm !! "Z" = None.
Proof.
  destruct (proj1 (proj2 (trades_summary_counts
              (Make [Trade "X" "BUY" 10 100 "t1" "LIMIT";
                     Trade "X" "SELL" 10 101 "t2" "LIMIT";
                     Trade "Y" "BUY" 5 50 "t3" "LIMIT"] ∅))))
    as (sm & Hs & _ & Hby & _).
  - discriminate.
  - repeat constructor.
  - exists sm. split; [exact Hs|]. split; rewrite Hby; reflexivity.
Defined.

End ReplayFacts.

(** ** Backtest: synthetic ticks and the drawdown of the curve *)

Section CurveFacts.
Import Backtest.











End CurveFacts.

(** ** Strategy: drawdown latch and quotes *)

Section StrategyFacts.

Lemma update_pnl_grows (x : Q) (s : Strategy.t) :
  Strategy.peak_pnl s <= Strategy.peak_pnl (Strategy.update_pnl x s)
  /\ Strategy.max_drawdown s <= Strategy.max_drawdown (Strategy.update_pnl x s).
Proof.
  unfold Strategy.update_pnl.
  destruct (Py.Qlt_bool (Strategy.peak_pnl s) x) eqn:E; simpl.
  - apply Qlt_bool_true in E. split; lra.
  - destruct (max2_cases (Strategy.max_drawdown s) (Strategy.drawdown s x))
      as [[H ->]|[H ->]]; split; lra.
Qed.

Lemma feed_grows (xs : list Q) (s : Strategy.t) :
  Strategy.peak_pnl s <= Strategy.peak_pnl (Strategy.feed xs s)
  /\ Strategy.max_drawdown s <= Strategy.max_drawdown (Strategy.feed xs s).
Proof.
  revert s. induction xs as [|x xs IH]; intros s.
  - simpl. split; lra.
  - unfold Strategy.feed. simpl. fold (Strategy.feed xs (Strategy.update_pnl x s)).
    destruct (IH (Strategy.update_pnl x s)) as [H1 H2].
    destruct (update_pnl_grows x s) as [H3 H4]. split; lra.
Qed.

(** A strategy's recorded drawdown and peak never go down, so a drawdown
    breach is permanent: once [max_drawdown] is above the limit,
    [check_risk_limits] fails after every later series of P&L updates,
    whatever the P&L recovers to and whatever the orders and positions are. *)
Theorem strategy_drawdown_breach_is_permanent (rp : Strategy.limits)
    (s : Strategy.t) (xs : list Q) :
  (Strategy.peak_pnl s <= Strategy.peak_pnl (Strategy.feed xs s)
   /\ Strategy.max_drawdown s <= Strategy.max_drawdown (Strategy.feed xs s))
  /\ (Strategy.limit_drawdown rp < Strategy.max_drawdown s ->
      forall orders positions,
        Strategy.check_risk_limits rp (Strategy.feed xs s) orders positions = false).
Proof.
  split; [apply feed_grows|].
  intros Hbreach orders positions.
  destruct (feed_grows xs s) as [_ Hdd].
  unfold Strategy.check_risk_limits.
  destruct (Py.Qlt_bool (Strategy.pnl (Strategy.feed xs s))
              (- Strategy.max_daily_loss rp)); [reflexivity|].
  assert (H : Py.Qlt_bool (Strategy.limit_drawdown rp)
                (Strategy.max_drawdown (Strategy.feed xs s)) = true).
  { apply Qlt_bool_true. lra. }
  rewrite H. reflexivity.
Qed.

Lemma strategy_drawdown_breach_is_permanent_example :
  Strategy.check_risk_limits (Strategy.Limits 100 5000 10 (5 # 100))
    (Strategy.feed [1000] (Strategy.feed [100; 90] Strategy.init)) ∅ ∅
  = false.
Proof.
  apply (proj2 (strategy_drawdown_breach_is_permanent
                  (Strategy.Limits 100 5000 10 (5 # 100))
                  (Strategy.feed [100; 90] Strategy.init) [1000])).
  vm_compute. reflexivity.
Defined.

Import MarketMakingStrategy.




End StrategyFacts.

(** ** Market making: signals and resting quotes *)

Section MarketMakingFacts.
Import MarketMakingStrategy.

Lemma collect_elements (f : string -> tick -> option (list signal))
    (l : list (string * tick)) (sgs : list signal) :
  collect f l = Some sgs ->
  (forall i d, (i, d) ∈ l ->
     exists li, f i d = Some li /\ forall sg, sg ∈ li -> sg ∈ sgs)
  /\ (forall sg, sg ∈ sgs ->
        exists i d li, (i, d) ∈ l /\ f i d = Some li /\ sg ∈ li).
Proof.
  revert sgs. induction l as [|[i0 d0] l IH]; intros sgs H.
  - simpl in H. inversion H; subst. split.
    + intros i d Hin. apply elem_of_nil in Hin. contradiction.
    + intros sg Hin. apply elem_of_nil in Hin. contradiction.
  - simpl in H. destruct (f i0 d0) as [l0|] eqn:E0; [|discriminate].
    destruct (collect f l) as [more|] eqn:Em; [|discriminate].
    inversion H; subst. destruct (IH more eq_refl) as [IH1 IH2]. split.
    + intros i d Hin. apply elem_of_cons in Hin as [Heq|Hin].
      * inversion Heq; subst. exists l0. split; [exact E0|].
        intros sg Hsg. apply elem_of_app. left. exact Hsg.
      * destruct (IH1 i d Hin) as (li & Hf & Hsub).
        exists li. split; [exact Hf|]. intros sg Hsg.
        apply elem_of_app. right. apply Hsub. exact Hsg.
    + intros sg Hin. apply elem_of_app in Hin as [Hin|Hin].
      * exists i0, d0, l0. split; [apply list_elem_of_here|]. auto.
      * destruct (IH2 sg Hin) as (i & d & li & H1 & H2 & H3).
        exists i, d, li. split; [apply list_elem_of_further; exact H1|]. auto.
Qed.

Lemma collect_nothing (f : string -> tick -> option (list signal))
    (l : list (string * tick)) :
  (forall i d, (i, d) ∈ l -> f i d = Some []) -> collect f l = Some [].
Proof.
  induction l as [|[i0 d0] l IH]; intros H; [reflexivity|].
  simpl. rewrite (H i0 d0) by apply list_elem_of_here.
  rewrite IH; [reflexivity|].
  intros i d Hin. apply H. apply list_elem_of_further. exact Hin.
Qed.

(** What [generate_signals] can emit: for an instrument with market data,
    a BUY of [order_quantity] at the bid price when no bid rests and the
    position is below [position_limit], and a SELL of [order_quantity] at the
    ask price when no ask rests and the absolute position is below the limit;
    nothing else.  In particular no quote is emitted for a position at or
    above the limit, and a short position at or below minus the limit is only
    ever quoted a BUY. *)
Theorem market_making_signals (sp : params) (qp : quoting) (s : t)
    (sgs : list signal) :
  generate_signals sp qp s = Some sgs ->
  forall sg,
    sg ∈ sgs <->
    exists data,
      market_data s !! sig_instrument sg = Some data
      /\ sig_quantity sg = order_quantity qp
      /\ ((sig_action sg = "BUY"
           /\ resting (active_bids s) (sig_instrument sg) = false
           /\ (position_of s (sig_instrument sg) < position_limit qp)%Z
           /\ calculate_bid_price sp (mid_price data) = Some (sig_price sg))
          \/ (sig_action sg = "SELL"
              /\ resting (active_asks s) (sig_instrument sg) = false
              /\ (Z.abs (position_of s (sig_instrument sg)) < position_limit qp)%Z
              /\ calculate_ask_price sp (mid_price data) = Some (sig_price sg))).
Proof.
  intros Hgen sg. unfold generate_signals in Hgen.
  destruct (collect_elements _ _ _ Hgen) as [Hfwd Hback].
  split.
  - intros Hin. destruct (Hback sg Hin) as (i & d & li & Hl & Hf & Hsg).
    apply elem_of_map_to_list in Hl.
    unfold instrument_signals in Hf.
    destruct (negb (resting (active_bids s) i)
              && (position_of s i <? position_limit qp)%Z) eqn:Eb;
      destruct (negb (resting (active_asks s) i)
                && (Z.abs (position_of s i) <? position_limit qp)%Z) eqn:Ea;
      try (destruct (calculate_bid_price sp (mid_price d)) as [pb|] eqn:Epb;
           [|discriminate]);
      try (destruct (calculate_ask_price sp (mid_price d)) as [pa|] eqn:Epa;
           [|discriminate]);
      inversion Hf; subst; clear Hf;
      repeat (apply elem_of_cons in Hsg as [->|Hsg]);
      try (apply elem_of_nil in Hsg; contradiction);
      simpl; exists d; (split; [exact Hl|]); (split; [reflexivity|]);
      try (apply andb_prop in Eb as [Eb1 Eb2];
           apply negb_true_iff in Eb1; apply Z.ltb_lt in Eb2);
      try (apply andb_prop in Ea as [Ea1 Ea2];
           apply negb_true_iff in Ea1; apply Z.ltb_lt in Ea2);
      solve [left; auto | right; auto].
  - intros (d & Hl & Hq & Hcase).
    apply elem_of_map_to_list in Hl.
    destruct (Hfwd _ _ Hl) as (li & Hf & Hsub). apply Hsub.
    unfold instrument_signals in Hf.
    destruct sg as [i act px q]. simpl in *. subst q.
    destruct Hcase as [(-> & Hr & Hp & Hpx)|(-> & Hr & Hp & Hpx)].
    + apply Z.ltb_lt in Hp. rewrite Hr, Hp, Hpx in Hf. simpl in Hf.
      destruct (negb (resting (active_asks s) i)
                && (Z.abs (position_of s i) <? position_limit qp)%Z);
        [destruct (calculate_ask_price sp (mid_price d)); [|discriminate]|];
        inversion Hf; subst; apply list_elem_of_here.
    + apply Z.ltb_lt in Hp. rewrite Hr, Hp, Hpx in Hf. simpl in Hf.
      destruct (negb (resting (active_bids s) i)
                && (position_of s i <? position_limit qp)%Z);
        [destruct (calculate_bid_price sp (mid_price d)); [|discriminate]|];
        inversion Hf; subst.
      * apply list_elem_of_further, list_elem_of_here.
      * apply list_elem_of_here.
Qed.

Lemma market_making_signals_example :
  let s := Make true {["NIFTY" := Tick "NIFTY" 22428 (2242870 # 100) 22428]}
             {["NIFTY" := 50%Z]} ∅ ∅ ∅ in
  generate_signals (Params (5 # 10000) (5 # 100)) (Quoting 10 50 (2 # 100)) s
  = Some [].
Proof.
  intros s.
  destruct (generate_signals (Params (5 # 10000) (5 # 100))
              (Quoting 10 50 (2 # 100)) s) as [sgs|] eqn:E;
    [|vm_compute in E; discriminate].
  destruct sgs as [|sg sgs]; [reflexivity|]. exfalso.
  destruct (proj1 (market_making_signals _ _ s _ E sg) (list_elem_of_here _ _))
    as (d & Hd & _ & Hcase).
  assert (Hi : sig_instrument sg = "NIFTY").
  { destruct (decide (sig_instrument sg = "NIFTY")) as [H|H]; [exact H|].
    subst s. simpl in Hd. rewrite lookup_singleton_ne in Hd by congruence.
    discriminate. }
  rewrite Hi in Hcase.
  destruct Hcase as [(_ & _ & H & _)|(_ & _ & H & _)]; vm_compute in H;
    discriminate.
Defined.

Lemma resting_insert (book : gmap string (option string)) (i j h : string) :
  resting (<[i := Some ("ORD" +:+ h)]> book) j
  = (String.eqb i j || resting book j).
Proof.
  unfold resting. destruct (String.eqb i j) eqn:E.
  - apply String.eqb_eq in E. subst j. rewrite lookup_insert_eq. reflexivity.
  - apply String.eqb_neq in E. rewrite lookup_insert_ne by exact E. reflexivity.
Qed.

Lemma execute_signals_state (sgs : list (signal * string)) (s : t) (j : string) :
  market_data (execute_signals sgs s) = market_data s
  /\ positions (execute_signals sgs s) = positions s
  /\ resting (active_bids (execute_signals sgs s)) j
     = (existsb (fun z => String.eqb (sig_action z.1) "BUY"
                          && String.eqb (sig_instrument z.1) j) sgs
        || resting (active_bids s) j)
  /\ resting (active_asks (execute_signals sgs s)) j
     = (existsb (fun z => negb (String.eqb (sig_action z.1) "BUY")
                          && String.eqb (sig_instrument z.1) j) sgs
        || resting (active_asks s) j).
Proof.
  revert s. induction sgs as [|[sg h] sgs IH]; intros s.
  - simpl. auto.
  - unfold execute_signals. simpl.
    fold (execute_signals sgs (execute_signal s (sg, h))).
    destruct (IH (execute_signal s (sg, h))) as (H1 & H2 & H3 & H4).
    rewrite H1, H2, H3, H4. unfold execute_signal. simpl.
    destruct (String.eqb (sig_action sg) "BUY"); simpl;
      rewrite ?resting_insert;
      repeat split;
      destruct (existsb _ sgs), (String.eqb (sig_instrument sg) j),
               (resting _ j); try reflexivity;
      destruct (existsb _ sgs); try reflexivity;
      destruct (resting _ j); reflexivity.
Qed.

Lemma zip_partner {A B : Type} (xs : list A) (ys : list B) (x : A) :
  length ys = length xs -> x ∈ xs -> exists y, (x, y) ∈ zip xs ys.
Proof.
  revert ys. induction xs as [|x0 xs IH]; intros ys Hlen Hin.
  - apply elem_of_nil in Hin. contradiction.
  - destruct ys as [|y0 ys]; [discriminate|]. simpl in Hlen.
    apply elem_of_cons in Hin as [->|Hin].
    + exists y0. apply list_elem_of_here.
    + destruct (IH ys) as [y Hy]; [lia|exact Hin|].
      exists y. apply list_elem_of_further. exact Hy.
Qed.

(** Quoting once is enough: after [execute_signals] has run on what
    [generate_signals] returned, whatever order ids it drew, a second
    [generate_signals] returns nothing, so no instrument is quoted twice on
    the same side while its quote rests. *)
Theorem no_second_quote (sp : params) (qp : quoting) (s : t)
    (sgs : list signal) (hs : list string) :
  generate_signals sp qp s = Some sgs ->
  length hs = length sgs ->
  generate_signals sp qp (execute_signals (zip sgs hs) s) = Some [].
Proof.
  intros Hgen Hlen.
  unfold generate_signals in *.
  destruct (collect_elements _ _ _ Hgen) as [Hfwd _].
  set (s' := execute_signals (zip sgs hs) s).
  assert (Hmd : market_data s' = market_data s)
    by apply (execute_signals_state (zip sgs hs) s "").
  rewrite Hmd. apply collect_nothing. intros i d Hin.
  destruct (execute_signals_state (zip sgs hs) s i) as (_ & Hpos & Hb & Ha).
  fold s' in Hpos, Hb, Ha.
  destruct (Hfwd i d Hin) as (li & Hf & Hsub).
  unfold instrument_signals in *. unfold position_of in *. rewrite Hpos.
  assert (Hbid : negb (resting (active_bids s') i)
                 && (default 0%Z (positions s !! i) <? position_limit qp)%Z = false).
  { destruct (negb (resting (active_bids s) i)
              && (default 0%Z (positions s !! i) <? position_limit qp)%Z) eqn:Eb.
    - destruct (calculate_bid_price sp (mid_price d)) as [pb|]; [|discriminate].
      assert (Hsg : Signal i "BUY" pb (order_quantity qp) ∈ sgs).
      { apply Hsub.
        destruct (negb (resting (active_asks s) i) && _);
          [destruct (calculate_ask_price sp (mid_price d)); [|discriminate]|];
          inversion Hf; subst; apply list_elem_of_here. }
      destruct (zip_partner sgs hs _ Hlen Hsg) as [h Hz].
      rewrite Hb.
      assert (Hex : existsb (fun z => String.eqb (sig_action z.1) "BUY"
                                      && String.eqb (sig_instrument z.1) i)
                            (zip sgs hs) = true).
      { apply existsb_exists. exists (Signal i "BUY" pb (order_quantity qp), h).
        split; [apply list_elem_of_In; exact Hz|]. simpl.
        rewrite String.eqb_refl. reflexivity. }
      rewrite Hex. reflexivity.
    - rewrite Hb. apply andb_false_iff in Eb as [Eb|Eb].
      + apply negb_false_iff in Eb. rewrite Eb, orb_true_r. reflexivity.
      + rewrite Eb, andb_false_r. reflexivity. }
  assert (Hask : negb (resting (active_asks s') i)
                 && (Z.abs (default 0%Z (positions s !! i)) <? position_limit qp)%Z
                 = false).
  { destruct (negb (resting (active_asks s) i)
              && (Z.abs (default 0%Z (positions s !! i)) <? position_limit qp)%Z)
      eqn:Ea.
    - assert (Hsg : exists pa, Signal i "SELL" pa (order_quantity qp) ∈ sgs).
      { destruct (negb (resting (active_bids s) i) && _);
          [destruct (calculate_bid_price sp (mid_price d)); [|discriminate]|];
          (destruct (calculate_ask_price sp (mid_price d)) as [pa|];
           [|discriminate]);
          inversion Hf; subst; exists pa; apply Hsub.
        - apply list_elem_of_further, list_elem_of_here.
        - apply list_elem_of_here. }
      destruct Hsg as [pa Hsg].
      destruct (zip_partner sgs hs _ Hlen Hsg) as [h Hz].
      rewrite Ha.
      assert (Hex : existsb (fun z => negb (String.eqb (sig_action z.1) "BUY")
                                      && String.eqb (sig_instrument z.1) i)
                            (zip sgs hs) = true).
      { apply existsb_exists. exists (Signal i "SELL" pa (order_quantity qp), h).
        split; [apply list_elem_of_In; exact Hz|]. simpl.
        rewrite String.eqb_refl. reflexivity. }
      rewrite Hex. reflexivity.
    - rewrite Ha. apply andb_false_iff in Ea as [Ea|Ea].
      + apply negb_false_iff in Ea. rewrite Ea, orb_true_r. reflexivity.
      + rewrite Ea, andb_false_r. reflexivity. }
  rewrite Hbid, Hask. reflexivity.
Qed.

Lemma no_second_quote_example :
  let s := Make true {["NIFTY" := Tick "NIFTY" 22428 (2242870 # 100) 22428]}
             ∅ ∅ ∅ ∅ in
  exists sgs,
    generate_signals (Params (5 # 10000) (5 # 100)) (Quoting 10 50 (2 # 100)) s
    = Some sgs
    /\ length sgs = 2%nat
    /\ generate_signals (Params (5 # 10000) (5 # 100)) (Quoting 10 50 (2 # 100))
         (execute_signals (zip sgs ["17"; "-42"]) s)
       = Some [].
Proof.
  intros s. eexists. split; [vm_compute; reflexivity|].
  split; [reflexivity|].
  match goal with
  | |- generate_signals _ _ (execute_signals (zip ?l _) _) = _ =>
      apply (no_second_quote (Params (5 # 10000) (5 # 100))
               (Quoting 10 50 (2 # 100)) s l ["17"; "-42"])
  end.
  - vm_compute. reflexivity.
  - reflexivity.
Defined.

Lemma resting_cancelled (book : gmap string (option string)) (i : string) :
  resting (<[i := None]> book) i = false.
Proof. unfold resting. rewrite lookup_insert_eq. reflexivity. Qed.

Lemma cancel_instrument_orders_clears (ins : string) (s : t) :
  let s' := cancel_instrument_orders ins s in
  resting (active_bids s') ins = false
  /\ resting (active_asks s') ins = false
  /\ (forall j, j <> ins ->
        active_bids s' !! j = active_bids s !! j
        /\ active_asks s' !! j = active_asks s !! j)
  /\ positions s' = positions s
  /\ market_data s' = market_data s
  /\ last_mid_prices s' = last_mid_prices s
  /\ active s' = active s.
Proof.
  unfold cancel_instrument_orders.
  destruct (resting (active_bids s) ins) eqn:Eb; simpl;
    destruct (resting (active_asks s) ins) eqn:Ea; simpl;
    rewrite ?resting_cancelled, ?Eb, ?Ea;
    repeat split; try reflexivity;
    try (rewrite lookup_insert_ne by congruence; reflexivity).
Qed.

(** [on_tick] of the market maker.  A stopped strategy ignores the tick.  A
    running one records the tick's mid price and touches nothing but the
    quotes of the tick's instrument; it leaves those alone unless the mid
    price moved by more than the threshold, relative to the last one, and in
    particular on the first tick of an instrument; when it re-quotes, a bid
    rests afterwards exactly when the position is below the limit and an ask
    exactly when the absolute position is. *)
Theorem on_tick_requotes (sp : params) (qp : quoting) (tk : tick)
    (hb ha : string) (s : t) :
  let ins := tick_instrument tk in
  let pct := price_change_pct (mid_price tk) (default 0 (last_mid_prices s !! ins)) in
  (active s = false -> on_tick sp qp tk hb ha s = Some s)
  /\ (active s = true ->
      forall s', on_tick sp qp tk hb ha s = Some s' ->
        last_mid_prices s' = <[ins := mid_price tk]> (last_mid_prices s)
        /\ positions s' = positions s
        /\ market_data s' = market_data s
        /\ (forall j, j <> ins ->
              active_bids s' !! j = active_bids s !! j
              /\ active_asks s' !! j = active_asks s !! j)
        /\ (pct <= cancel_replace_threshold qp ->
            active_bids s' = active_bids s /\ active_asks s' = active_asks s)
        /\ (cancel_replace_threshold qp < pct ->
            resting (active_bids s') ins
            = (position_of s ins <? position_limit qp)%Z
            /\ resting (active_asks s') ins
               = (Z.abs (position_of s ins) <? position_limit qp)%Z))
  /\ (last_mid_prices s !! ins = None -> pct = 0).
Proof.
  intros ins pct. split; [|split].
  - intros Hoff. unfold on_tick. rewrite Hoff. reflexivity.
  - intros Hon s' Hs'. unfold on_tick in Hs'. rewrite Hon in Hs'. simpl in Hs'.
    fold ins in Hs'. fold pct in Hs'.
    set (s1 := Make true (market_data s) (positions s) (active_bids s)
                    (active_asks s) (<[ins := mid_price tk]> (last_mid_prices s)))
      in *.
    destruct (Py.Qlt_bool (cancel_replace_threshold qp) pct) eqn:E.
    + apply Qlt_bool_true in E.
      destruct (cancel_instrument_orders_clears ins s1)
        as (Hcb & Hca & Hoth & Hpos & Hmd & Hlm & _).
      set (s2 := cancel_instrument_orders ins s1) in *.
      unfold create_market_making_orders in Hs'.
      assert (Hp2 : position_of s2 ins = position_of s ins).
      { unfold position_of. rewrite Hpos. reflexivity. }
      rewrite Hp2 in Hs'.
      destruct (position_of s ins <? position_limit qp)%Z eqn:Eb;
        destruct (Z.abs (position_of s ins) <? position_limit qp)%Z eqn:Ea;
        try (destruct (calculate_bid_price sp (mid_price tk)); [|discriminate]);
        try (destruct (calculate_ask_price sp (mid_price tk)); [|discriminate]);
        inversion Hs'; subst s'; clear Hs'; simpl;
        rewrite ?resting_insert, ?String.eqb_refl, ?Hcb, ?Hca, ?Hlm, ?Hpos, ?Hmd;
        (split; [reflexivity|]); (split; [reflexivity|]);
        (split; [reflexivity|]);
        (split;
         [intros j Hj; rewrite ?lookup_insert_ne by congruence;
          apply Hoth; exact Hj|]);
        (split; [intros Hle; exfalso; lra|]);
        intros _; split; reflexivity.
    + apply Qlt_bool_false in E. inversion Hs'; subst s'. simpl.
      split; [reflexivity|]. split; [reflexivity|]. split; [reflexivity|].
      split; [intros j _; split; reflexivity|].
      split; [intros _; split; reflexivity|].
      intros Hlt. exfalso. lra.
  - intros Hnone. subst pct. rewrite Hnone. reflexivity.
Qed.

Lemma on_tick_requotes_example :
  let s := Make true ∅ ∅ {["NIFTY" := Some "ORD1"]} ∅ {["NIFTY" := 100]} in
  exists s',
    on_tick (Params (5 # 10000) (5 # 100)) (Quoting 10 50 (2 # 100))
            (Tick "NIFTY" 109 111 110) "7" "8" s = Some s'
    /\ resting (active_bids s') "NIFTY" = true
    /\ resting (active_asks s') "NIFTY" = true.
Proof.
  intros s.
  destruct (on_tick (Params (5 # 10000) (5 # 100)) (Quoting 10 50 (2 # 100))
              (Tick "NIFTY" 109 111 110) "7" "8" s) as [s'|] eqn:E;
    [|vm_compute in E; discriminate].
  exists s'. split; [reflexivity|].
  destruct (proj1 (proj2 (on_tick_requotes (Params (5 # 10000) (5 # 100))
              (Quoting 10 50 (2 # 100)) (Tick "NIFTY" 109 111 110) "7" "8" s))
              eq_refl s' E)
    as (_ & _ & _ & _ & _ & Hre).
  destruct Hre as [Hb Ha]; [vm_compute; reflexivity|].
  simpl in Hb, Ha. rewrite Hb, Ha. split; reflexivity.
Defined.

End MarketMakingFacts.

(** ** Order executor: sessions *)

Section SessionFacts.
Import OrderExecutor.

Lemma live_count_update (m : gmap string Order.t) (k : string) (o : Order.t) :
  (map_fold (fun _ o n => if Order.is_live (Order.status o) then (n + 1)%Z else n)
            0%Z (<[k := o]> m)
   + match m !! k with
     | Some old => if Order.is_live (Order.status old) then 1 else 0
     | None => 0
     end
   = map_fold (fun _ o n => if Order.is_live (Order.status o) then (n + 1)%Z else n)
              0%Z m
     + (if Order.is_live (Order.status o) then 1 else 0))%Z.
Proof.
  rewrite <- (insert_delete_eq m).
  rewrite live_count_insert_fresh by apply lookup_delete_eq.
  destruct (m !! k) as [old|] eqn:Hold.
  - rewrite <- (insert_id m _ _ Hold) at 2.
    rewrite <- (insert_delete_eq m).
    rewrite live_count_insert_fresh by apply lookup_delete_eq.
    lia.
  - rewrite (delete_id m) by exact Hold. lia.
Qed.

Lemma live_count_nonneg (m : gmap string Order.t) :
  (0 <= map_fold (fun _ o n => if Order.is_live (Order.status o) then (n + 1)%Z else n)
                 0%Z m)%Z.
Proof.
  apply (map_fold_weak_ind (fun r _ => (0 <= r)%Z)).
  - lia.
  - intros i o m' r _ Hr. destruct (Order.is_live (Order.status o)); lia.
Qed.

(** Writing one order and refreshing the metrics keeps a session sound as
    long as the counters stay within the total. *)
Lemma commit_sound (s : t) (id : string) (o : Order.t) (latencies : list Q)
    (total filled rejected : Z) (avg : Q) (rate : option Q) :
  Session.sound s ->
  Order.order_id o = id ->
  Session.allowed (Order.status o) ->
  (0 <= filled)%Z ->
  (0 <= rejected)%Z ->
  (filled + rejected
   + (live_orders s
      - match orders s !! id with
        | Some old => if Order.is_live (Order.status old) then 1 else 0
        | None => 0
        end
      + (if Order.is_live (Order.status o) then 1 else 0)) <= total)%Z ->
  Session.sound
    (update_metrics
       (Make (<[id := o]> (orders s)) latencies total filled rejected avg rate)).
Proof.
  intros (Hord & _ & _ & _ & _ & _) Hid Hst Hf Hr Hsum.
  pose proof (live_count_update (orders s) id o) as Hlive.
  pose proof (live_count_nonneg (<[id := o]> (orders s))) as Hnn.
  unfold Session.sound, update_metrics, live_orders in *. simpl.
  split; [|split; [exact Hf|split; [exact Hr|split; [exact Hnn|split; [lia|]]]]].
  - intros id' o' Hl.
    destruct (decide (id' = id)) as [->|Hne].
    + rewrite lookup_insert_eq in Hl. inversion Hl; subst. auto.
    + rewrite lookup_insert_ne in Hl by congruence. apply Hord. exact Hl.
  - intros fr Hrate. inversion Hrate; subst. clear Hrate.
    destruct (0 <? total)%Z eqn:Et.
    + apply Z.ltb_lt in Et.
      assert (Hft : (filled <= total)%Z) by lia.
      assert (Ht : 0 < inject_Z total).
      { change 0 with (inject_Z 0). rewrite <- Zlt_Qlt. exact Et. }
      split.
      * apply Qle_shift_div_l; [exact Ht|].
        rewrite Qmult_0_l. change 0 with (inject_Z 0). rewrite <- Zle_Qle. exact Hf.
      * apply Qle_shift_div_r; [exact Ht|].
        rewrite Qmult_1_l. rewrite <- Zle_Qle. exact Hft.
    + split; lra.
Qed.

Lemma init_sound : Session.sound init.
Proof.
  unfold Session.sound, init, live_orders. simpl.
  split; [intros id o H; rewrite lookup_empty in H; discriminate|].
  rewrite map_fold_empty.
  split; [lia|]. split; [lia|]. split; [lia|]. split; [lia|].
  intros fr H. discriminate.
Qed.

Lemma place_order_sound (ins side : string) (q : Z) (px : option Q)
    (ot : string) (sn : option string) (now : string) (draw lat : Q) (s : t) :
  Session.sound s ->
  Session.sound (place_order ins side q px ot sn now draw lat s).2.
Proof.
  intros Hs. pose proof Hs as (Hord & Hf & Hr & Hl & Hsum & _).
  unfold place_order. simpl.
  apply commit_sound; try assumption.
  - reflexivity.
  - simpl. unfold Session.allowed. destruct (Py.Qlt_bool draw (9 # 10)); auto.
  - destruct (Py.Qlt_bool draw (9 # 10)); lia.
  - simpl.
    destruct (orders s !! _) as [old|]; [destruct (Order.is_live (Order.status old))|];
      destruct (Py.Qlt_bool draw (9 # 10)); simpl; lia.
Qed.

Lemma settle_sound (id : string) (o0 o : Order.t) (filled : bool) (lat : Q) (s : t) :
  Session.sound s ->
  orders s !! id = Some o0 ->
  Order.is_live (Order.status o0) = true ->
  Order.order_id o = Order.order_id o0 ->
  Session.allowed (Order.status o) ->
  (filled = true -> Order.is_live (Order.status o) = false) ->
  Session.sound (settle id o filled lat s).
Proof.
  intros Hs Ho0 Hlive Hid Hst Hfill.
  pose proof Hs as (Hord & Hf & Hr & Hl & Hsum & _).
  unfold settle. apply commit_sound; try assumption.
  - rewrite Hid. apply (Hord id o0 Ho0).
  - destruct filled; lia.
  - rewrite Ho0, Hlive.
    destruct filled.
    + rewrite (Hfill eq_refl). lia.
    + destruct (Order.is_live (Order.status o)); lia.
Qed.

Lemma apply_edits_keep (px : option Q) (q : option Z) (o : Order.t) :
  Order.order_id (apply_quantity q (apply_price px o)) = Order.order_id o
  /\ Order.status (apply_quantity q (apply_price px o)) = Order.status o.
Proof.
  unfold apply_quantity, apply_price.
  destruct px as [p|]; [destruct (Py.truthy p)|];
    (destruct q as [z|]; [destruct (z =? 0)%Z|]); split; reflexivity.
Qed.

Lemma modify_order_sound (id : string) (px : option Q) (q : option Z)
    (draw lat : Q) (s : t) :
  Session.sound s -> Session.sound (modify_order id px q draw lat s).2.
Proof.
  intros Hs. unfold modify_order.
  destruct (orders s !! id) as [o0|] eqn:Ho0; [|exact Hs].
  destruct (Order.is_live (Order.status o0)) eqn:Hlive; simpl; [|exact Hs].
  destruct (apply_edits_keep px q o0) as [Hid Hst].
  pose proof Hs as (Hord & _).
  destruct (Hord id o0 Ho0) as [_ Hall].
  destruct (Py.Qlt_bool draw (95 # 100)); simpl.
  - apply (settle_sound id o0); try assumption.
    + rewrite Hst. exact Hall.
    + discriminate.
  - apply (settle_sound id o0); try assumption.
    + unfold Session.allowed. simpl. auto.
    + reflexivity.
Qed.

Lemma cancel_order_sound (id : string) (draw lat : Q) (s : t) :
  Session.sound s -> Session.sound (cancel_order id draw lat s).2.
Proof.
  intros Hs. unfold cancel_order.
  destruct (orders s !! id) as [o0|] eqn:Ho0; [|exact Hs].
  destruct (Order.is_live (Order.status o0)) eqn:Hlive; simpl; [|exact Hs].
  destruct (Py.Qlt_bool draw (98 # 100)); simpl;
    (apply (settle_sound id o0); try assumption;
     [reflexivity|unfold Session.allowed; simpl; auto|reflexivity]).
Qed.

Lemma cancel_all_orders_sound (ins st : option string) (env : string -> Q * Q)
    (s : t) :
  Session.sound s -> Session.sound (cancel_all_orders ins st env s).2.
Proof.
  unfold cancel_all_orders.
  generalize (map_to_list (orders s)) as l. generalize 0%Z as n.
  intros n l. revert n s. induction l as [|[id o] l IH]; intros n s Hs.
  - exact Hs.
  - simpl.
    destruct (negb (Order.is_live (Order.status o))); [apply IH; exact Hs|].
    destruct (negb (instrument_passes ins o)); [apply IH; exact Hs|].
    destruct (negb (strategy_passes st o)); [apply IH; exact Hs|].
    pose proof (cancel_order_sound id (env id).1 (env id).2 s Hs) as Hc.
    destruct (cancel_order id (env id).1 (env id).2 s) as [[m|o'] s'];
      apply IH; exact Hc.
Qed.

(** Whatever calls a session makes (place, modify, cancel, cancel all), the
    executor stays sound: every order is stored under its own id with status
    OPEN, REJECTED, COMPLETE or CANCELLED, never PENDING or ERROR; the fills,
    the rejections and the orders still open together never exceed the
    orders placed; and a fill rate, once computed, lies between 0 and 1. *)
Theorem sessions_stay_sound (rs : list Session.request) :
  Session.sound (Session.serve rs).
Proof.
  unfold Session.serve.
  assert (H : forall s, Session.sound s -> Session.sound (fold_left Session.handle rs s)).
  { induction rs as [|r rs IH]; intros s Hs; [exact Hs|].
    simpl. apply IH.
    destruct r; simpl.
    - apply place_order_sound. exact Hs.
    - apply modify_order_sound. exact Hs.
    - apply cancel_order_sound. exact Hs.
    - apply cancel_all_orders_sound. exact Hs. }
  apply H. apply init_sound.
Qed.

(** [place_order] stores what it returns: the order sits under its own
    id, "ORD" and the six-digit number of the placement, and [get_order] reads
    it back; it is OPEN when the draw is below 0.9 and REJECTED for
    insufficient funds otherwise, never PENDING; it keeps a price only if it
    is a LIMIT order given a non-zero price; the order count goes up by one
    and no other id is touched.  The first order of a fresh executor is
    ORD000001. *)
Theorem place_order_stores (ins side : string) (q : Z) (px : option Q)
    (ot : string) (sn : option string) (now : string) (draw lat : Q) (s : t) :
  let r := place_order ins side q px ot sn now draw lat s in
  orders r.2 !! Order.order_id r.1 = Some r.1
  /\ get_order (Order.order_id r.1) r.2 = Returned r.1
  /\ Order.order_id r.1 = "ORD" +:+ format_06d (total_orders s + 1)
  /\ (draw < 9 # 10 ->
      Order.status r.1 = Order.OPEN /\ Order.rejection_reason r.1 = None
      /\ rejected_orders r.2 = rejected_orders s)
  /\ (9 # 10 <= draw ->
      Order.status r.1 = Order.REJECTED
      /\ Order.rejection_reason r.1 = Some "Insufficient funds"
      /\ rejected_orders r.2 = (rejected_orders s + 1)%Z)
  /\ (forall p, Order.price r.1 = Some p <->
                ot = "LIMIT" /\ px = Some p /\ ~ p == 0)
  /\ total_orders r.2 = (total_orders s + 1)%Z
  /\ (forall id, id <> Order.order_id r.1 -> orders r.2 !! id = orders s !! id)
  /\ (total_orders s = 0%Z -> Order.order_id r.1 = "ORD000001").
Proof.
  intros r. subst r. unfold place_order, get_order, update_metrics. simpl.
  rewrite lookup_insert_eq.
  split; [reflexivity|]. split; [reflexivity|]. split; [reflexivity|].
  split; [|split; [|split; [|split; [|split]]]].
  - intros Hd. apply Qlt_bool_true in Hd. rewrite Hd. auto.
  - intros Hd. apply Qlt_bool_false in Hd. rewrite Hd. auto.
  - intros p. split.
    + intros H. destruct (String.eqb ot "LIMIT") eqn:E; [|discriminate].
      apply String.eqb_eq in E.
      destruct px as [p0|]; [|discriminate].
      destruct (Py.truthy p0) eqn:Et; [|discriminate].
      inversion H; subst. apply truthy_true in Et. auto.
    + intros (-> & -> & Hp). simpl. apply truthy_true in Hp. rewrite Hp.
      reflexivity.
  - reflexivity.
  - intros id Hne. rewrite lookup_insert_ne by congruence. reflexivity.
  - intros ->. reflexivity.
Qed.

Lemma place_order_stores_example :
  Order.price
    (place_order "RELIANCE" "BUY" 10 (Some (234550 # 100)) "LIMIT" (Some "Example")
       "t0" (1 # 2) 50 init).1
  = Some (234550 # 100).
Proof.
  apply (proj1 (proj2 (proj2 (proj2 (proj2 (proj2
           (place_order_stores "RELIANCE" "BUY" 10 (Some (234550 # 100)) "LIMIT"
              (Some "Example") "t0" (1 # 2) 50 init))))))).
  split; [reflexivity|]. split; [reflexivity|]. vm_compute. discriminate.
Defined.

Lemma cancel_order_live_effect (id : string) (o : Order.t) (draw lat : Q) (s : t) :
  orders s !! id = Some o ->
  Order.is_live (Order.status o) = true ->
  exists o' s',
    cancel_order id draw lat s = (Returned o', s')
    /\ orders s' = <[id := o']> (orders s)
    /\ o' = Order.set_status
              (if Py.Qlt_bool draw (98 # 100) then Order.CANCELLED else Order.COMPLETE)
              o.
Proof.
  intros Ho Hlive. unfold cancel_order. rewrite Ho, Hlive. cbn [negb].
  destruct (Py.Qlt_bool draw (98 # 100));
    eexists; eexists; (split; [reflexivity|split; reflexivity]).
Qed.

Lemma cancel_fold (ins st : option string) (env : string -> Q * Q)
    (l : list (string * Order.t)) (n : Z) (s : t) :
  NoDup l.*1 ->
  (forall id o, (id, o) ∈ l -> orders s !! id = Some o) ->
  let r := fold_left (cancel_one ins st env) l (n, s) in
  r.1 = (n + Z.of_nat (length (List.filter (fun e => Session.targeted ins st e.2) l)))%Z
  /\ (forall id, id ∉ l.*1 -> orders r.2 !! id = orders s !! id)
  /\ (forall id o, (id, o) ∈ l ->
        orders r.2 !! id
        = Some (if Session.targeted ins st o
                then Order.set_status
                       (if Py.Qlt_bool (env id).1 (98 # 100)
                        then Order.CANCELLED else Order.COMPLETE) o
                else o)).
Proof.
  revert n s. induction l as [|[id0 o0] l IH]; intros n s Hnd Hl.
  - simpl. split; [lia|]. split; [reflexivity|].
    intros id o Hin. apply elem_of_nil in Hin. contradiction.
  - simpl in Hnd. apply NoDup_cons in Hnd as [Hfresh Hnd].
    assert (Ho0 : orders s !! id0 = Some o0) by (apply Hl; apply list_elem_of_here).
    assert (Hstep : exists s1,
               cancel_one ins st env (n, s) (id0, o0)
               = ((n + if Session.targeted ins st o0 then 1 else 0)%Z, s1)
               /\ orders s1
                  = <[id0 := if Session.targeted ins st o0
                             then Order.set_status
                                    (if Py.Qlt_bool (env id0).1 (98 # 100)
                                     then Order.CANCELLED else Order.COMPLETE) o0
                             else o0]> (orders s)).
    { unfold cancel_one, Session.targeted.
      destruct (Order.is_live (Order.status o0)) eqn:Hlive; simpl.
      - destruct (instrument_passes ins o0); simpl.
        + destruct (strategy_passes st o0); simpl.
          * destruct (cancel_order_live_effect id0 o0 (env id0).1 (env id0).2 s
                        Ho0 Hlive) as (o' & s' & Hc & Hs' & Ho').
            rewrite Hc. exists s'. split; [reflexivity|]. rewrite Hs', Ho'.
            reflexivity.
          * exists s. split; [f_equal; lia|]. rewrite insert_id; auto.
        + exists s. split; [f_equal; lia|]. rewrite insert_id; auto.
      - exists s. split; [f_equal; lia|]. rewrite insert_id; auto. }
    destruct Hstep as (s1 & Hstep & Hs1).
    cbn [fold_left]. rewrite Hstep.
    destruct (IH (n + (if Session.targeted ins st o0 then 1 else 0))%Z s1 Hnd)
      as (Hn & Hout & Hin).
    { intros id o Hio. rewrite Hs1.
      assert (Hne : id <> id0).
      { intros ->. apply Hfresh. apply list_elem_of_fmap. exists (id0, o).
        split; [reflexivity|exact Hio]. }
      rewrite lookup_insert_ne by congruence.
      apply Hl. apply list_elem_of_further. exact Hio. }
    split; [|split].
    + rewrite Hn. simpl. destruct (Session.targeted ins st o0); simpl length; lia.
    + intros id Hid. rewrite Hout.
      * rewrite Hs1. rewrite lookup_insert_ne; [reflexivity|].
        intros ->. apply Hid. simpl. apply list_elem_of_here.
      * intros Hin'. apply Hid. simpl. apply list_elem_of_further. exact Hin'.
    + intros id o Hio. apply elem_of_cons in Hio as [Heq|Hio].
      * inversion Heq; subst. rewrite (Hout id0 Hfresh), Hs1.
        apply lookup_insert_eq.
      * apply Hin. exact Hio.
Qed.

(** [cancel_all_orders] ends every order it targets: an order that was
    OPEN or PENDING and passes the filters is CANCELLED, or COMPLETE when the
    broker had filled it first; every other order is left as it was and no
    order appears; the count it returns is the number of orders it targeted,
    those found filled included.  Without filters no stored order is open
    afterwards. *)
Theorem cancel_all_orders_ends_targets (ins st : option string)
    (env : string -> Q * Q) (s : t) :
  let r := cancel_all_orders ins st env s in
  (forall id o, orders s !! id = Some o ->
     orders r.2 !! id
     = Some (if Session.targeted ins st o
             then Order.set_status
                    (if Py.Qlt_bool (env id).1 (98 # 100)
                     then Order.CANCELLED else Order.COMPLETE) o
             else o))
  /\ (forall id, orders s !! id = None -> orders r.2 !! id = None)
  /\ r.1 = Z.of_nat (length (List.filter (fun e => Session.targeted ins st e.2)
                                         (map_to_list (orders s))))
  /\ (ins = None -> st = None ->
      forall id o', orders r.2 !! id = Some o' ->
        OrderLedger.is_terminal (Order.status o') = true).
Proof.
  intros r. subst r. unfold cancel_all_orders.
  destruct (cancel_fold ins st env (map_to_list (orders s)) 0 s)
    as (Hn & Hout & Hin).
  { apply NoDup_fst_map_to_list. }
  { intros id o Hio. apply elem_of_map_to_list. exact Hio. }
  cbv zeta in Hn, Hout, Hin.
  assert (Hsome : forall id o, orders s !! id = Some o ->
            orders (fold_left (cancel_one ins st env) (map_to_list (orders s))
                      (0%Z, s)).2 !! id
            = Some (if Session.targeted ins st o
                    then Order.set_status
                           (if Py.Qlt_bool (env id).1 (98 # 100)
                            then Order.CANCELLED else Order.COMPLETE) o
                    else o)).
  { intros id o Ho. apply Hin. apply elem_of_map_to_list. exact Ho. }
  assert (Hnone : forall id, orders s !! id = None ->
            orders (fold_left (cancel_one ins st env) (map_to_list (orders s))
                      (0%Z, s)).2 !! id = None).
  { intros id Ho. rewrite Hout; [exact Ho|].
    intros Hid. apply list_elem_of_fmap in Hid as ([id' o] & -> & Hio).
    apply elem_of_map_to_list in Hio. simpl in Ho. congruence. }
  split; [exact Hsome|]. split; [exact Hnone|]. split; [rewrite Hn; lia|].
  intros -> -> id o' Ho'.
  destruct (orders s !! id) as [o|] eqn:Ho.
  - rewrite (Hsome id o Ho) in Ho'. inversion Ho'; subst. clear Ho'.
    unfold Session.targeted. simpl. rewrite !andb_true_r.
    destruct (Order.is_live (Order.status o)) eqn:Hlive.
    + destruct (Py.Qlt_bool _ _); reflexivity.
    + rewrite terminal_not_live, Hlive. reflexivity.
  - rewrite (Hnone id Ho) in Ho'. discriminate.
Qed.

Lemma cancel_all_orders_ends_targets_example :
  let o := Order.Make "ORD000001" "RELIANCE" "BUY" 10 (Some (234550 # 100))
             "LIMIT" (Some "Example") "t0" Order.OPEN None in
  let s := Make {["ORD000001" := o]} [50] 1 0 0 50 (Some 0) in
  orders (cancel_all_orders (Some "RELIANCE") None (fun _ => (1 # 2, 51)) s).2
    !! "ORD000001"
  = Some (Order.set_status Order.CANCELLED o).
Proof.
  intros o s.
  rewrite (proj1 (cancel_all_orders_ends_targets (Some "RELIANCE") None
                    (fun _ => (1 # 2, 51)) s) "ORD000001" o).
  - reflexivity.
  - reflexivity.
Defined.

End SessionFacts.

(** ** Momentum strategy: histories and positions *)

Section MomentumFacts.
Import MomentumStrategy.

Lemma lookup_constant_map {V : Type} (v : V) (l : list string) (i : string) :
  (list_to_map ((fun k => (k, v)) <$> l) : gmap string V) !! i
  = if bool_decide (i ∈ l) then Some v else None.
Proof.
  induction l as [|k l IH].
  - simpl. rewrite lookup_empty. reflexivity.
  - rewrite fmap_cons, list_to_map_cons. cbn [fst snd].
    destruct (decide (i = k)) as [->|Hne].
    + rewrite lookup_insert_eq. rewrite bool_decide_eq_true_2; [reflexivity|].
      apply list_elem_of_here.
    + rewrite lookup_insert_ne by congruence. rewrite IH.
      destruct (bool_decide (i ∈ l)) eqn:E.
      * apply bool_decide_eq_true in E.
        rewrite bool_decide_eq_true_2; [reflexivity|].
        apply list_elem_of_further. exact E.
      * apply bool_decide_eq_false in E.
        rewrite bool_decide_eq_false_2; [reflexivity|].
        intros Hin. apply elem_of_cons in Hin as [?|?]; contradiction.
Qed.

Lemma init_settled (sp : params) (ins : list string) :
  MomentumLife.settled sp ins (init ins).
Proof.
  unfold MomentumLife.settled, init, position_of. simpl.
  split; [reflexivity|]. split; [|split; [|split]].
  - intros i. rewrite lookup_constant_map.
    destruct (bool_decide (i ∈ ins)) eqn:E.
    + apply bool_decide_eq_true in E. split; [eauto|auto].
    + apply bool_decide_eq_false in E. split; [contradiction|].
      intros [x Hx]. discriminate.
  - intros i ph Hph. rewrite lookup_constant_map in *.
    destruct (bool_decide (i ∈ ins)); [|discriminate].
    inversion Hph; subst. exists []. simpl. split; [reflexivity|].
    split; [reflexivity|]. lia.
  - intros i. left. rewrite lookup_constant_map.
    destruct (bool_decide (i ∈ ins)); reflexivity.
  - intros i Hne. exfalso. apply Hne. rewrite lookup_constant_map.
    destruct (bool_decide (i ∈ ins)); reflexivity.
Qed.

Lemma close_position_settled (sp : params) (ins : list string) (i : string) (s : t) :
  MomentumLife.settled sp ins s -> MomentumLife.settled sp ins (close_position i s).
Proof.
  intros (H1 & H2 & H3 & H4 & H5). unfold close_position.
  destruct (position_of s i =? 0)%Z;
    [exact (conj H1 (conj H2 (conj H3 (conj H4 H5))))|].
  unfold MomentumLife.settled, position_of in *. simpl.
  split; [exact H1|]. split; [exact H2|]. split; [exact H3|]. split.
  - intros j. destruct (decide (j = i)) as [->|Hne].
    + rewrite lookup_insert_eq. left. reflexivity.
    + rewrite lookup_insert_ne by congruence. apply H4.
  - intros j. destruct (decide (j = i)) as [->|Hne].
    + rewrite lookup_insert_eq. simpl. congruence.
    + rewrite lookup_insert_ne, lookup_delete_ne by congruence. apply H5.
Qed.

Lemma tail_slice_length (n : Z) (l : list Q) :
  (0 < n)%Z -> (n < Z.of_nat (length l))%Z ->
  Z.of_nat (length (tail_slice n l)) = n.
Proof.
  intros Hn Hl. unfold tail_slice.
  assert (E : (0 <? n)%Z = true) by (apply Z.ltb_lt; exact Hn).
  rewrite E, length_drop. lia.
Qed.

Lemma tail_slice_same_length (n : Z) (l1 l2 : list Q) :
  length l1 = length l2 -> length (tail_slice n l1) = length (tail_slice n l2).
Proof.
  intros H. unfold tail_slice.
  destruct (0 <? n)%Z; rewrite !length_drop, H; reflexivity.
Qed.

Lemma exit_check_settled (sp : params) (ins : list string) (i : string)
    (px : Q) (s s' : t) :
  MomentumLife.settled sp ins s ->
  exit_check sp i px s = Ok s' ->
  MomentumLife.settled sp ins s'.
Proof.
  intros Hs H. unfold exit_check in H.
  destruct (position_of s i =? 0)%Z; [inversion H; subst; exact Hs|].
  destruct (Qeq_bool _ 0); [discriminate|].
  destruct (Qle_bool (take_profit_pct sp) _);
    [inversion H; subst; apply close_position_settled; exact Hs|].
  destruct (Qle_bool _ (- stop_loss_pct sp));
    inversion H; subst; [apply close_position_settled|]; exact Hs.
Qed.

Lemma on_tick_settled (sp : params) (ins : list string) (tk : tick) (s s' : t) :
  MomentumLife.settled sp ins s ->
  on_tick sp tk s = Ok s' ->
  MomentumLife.settled sp ins s'.
Proof.
  intros Hs H. unfold on_tick in H.
  destruct (negb (active s)); [inversion H; subst; exact Hs|].
  destruct (price_history s !! tick_instrument tk) as [ph|] eqn:Eph;
    [|discriminate].
  destruct (volume_history s !! tick_instrument tk) as [vh|] eqn:Evh;
    [|discriminate].
  cbv zeta in H.
  set (ph1 := ph ++ [tick_ltp tk]) in *.
  set (vh1 := vh ++ [tick_volume tk]) in *.
  set (trim := (max_history sp <? Z.of_nat (length ph1))%Z) in *.
  set (ph2 := if trim then tail_slice (max_history sp) ph1 else ph1) in *.
  set (vh2 := if trim then tail_slice (max_history sp) vh1 else vh1) in *.
  set (s1 := Make (active s) (instruments s)
                  (<[tick_instrument tk := ph2]> (price_history s))
                  (<[tick_instrument tk := vh2]> (volume_history s))
                  (strategy_positions s) (entry_prices s)) in *.
  assert (Hs1 : MomentumLife.settled sp ins s1).
  { destruct Hs as (H1 & H2 & H3 & H4 & H5).
    destruct (H3 _ _ Eph) as (vh' & Evh' & Hlen & _).
    rewrite Evh in Evh'. inversion Evh'; subst vh'. clear Evh'.
    assert (Hlen1 : length vh1 = length ph1).
    { subst vh1 ph1. rewrite !length_app, Hlen. reflexivity. }
    unfold MomentumLife.settled, position_of in *. subst s1. simpl.
    split; [exact H1|]. split; [|split; [|split; [exact H4|exact H5]]].
    - intros i. destruct (decide (i = tick_instrument tk)) as [->|Hne].
      + rewrite lookup_insert_eq. rewrite H2, Eph. split; eauto.
      + rewrite lookup_insert_ne by congruence. apply H2.
    - intros i ph' Hph'. destruct (decide (i = tick_instrument tk)) as [->|Hne].
      + rewrite lookup_insert_eq in Hph'. inversion Hph'; subst ph'.
        rewrite lookup_insert_eq. exists vh2. split; [reflexivity|].
        subst ph2 vh2. destruct trim eqn:Et.
        * split; [apply tail_slice_same_length; exact Hlen1|].
          intros Hpos. subst trim. apply Z.ltb_lt in Et.
          rewrite tail_slice_length by lia. lia.
        * split; [exact Hlen1|]. intros _. subst trim. apply Z.ltb_ge in Et.
          exact Et.
      + rewrite lookup_insert_ne in Hph' by congruence.
        rewrite lookup_insert_ne by congruence. apply H3. exact Hph'. }
  destruct (ma_long_period sp <=? Z.of_nat (length ph2))%Z.
  - apply (exit_check_settled sp ins _ _ s1 s' Hs1 H).
  - inversion H; subst. exact Hs1.
Qed.

Lemma entered_settled (sp : params) (ins : list string) (i : string) (q : Z)
    (px : Q) (s : t) :
  MomentumLife.settled sp ins s ->
  q = position_size sp \/ q = (- position_size sp)%Z ->
  MomentumLife.settled sp ins
    (Make (active s) (instruments s) (price_history s) (volume_history s)
          (<[i := q]> (strategy_positions s)) (<[i := px]> (entry_prices s))).
Proof.
  intros (H1 & H2 & H3 & H4 & H5) Hq.
  unfold MomentumLife.settled, position_of in *. simpl.
  split; [exact H1|]. split; [exact H2|]. split; [exact H3|]. split.
  - intros j. destruct (decide (j = i)) as [->|Hne].
    + rewrite lookup_insert_eq. simpl. tauto.
    + rewrite lookup_insert_ne by congruence. apply H4.
  - intros j. destruct (decide (j = i)) as [->|Hne].
    + rewrite !lookup_insert_eq. eauto.
    + rewrite !lookup_insert_ne by congruence. apply H5.
Qed.

Lemma execute_signals_app (a b : list signal) (s s' : t) :
  execute_signals (a ++ b) s = Ok s' ->
  exists s1, execute_signals a s = Ok s1 /\ execute_signals b s1 = Ok s'.
Proof.
  revert s. induction a as [|sg a IH]; intros s H.
  - exists s. split; [reflexivity|exact H].
  - simpl in *. destruct (execute_signal sg s) as [s0|e]; [|discriminate].
    apply IH. exact H.
Qed.

(** What executing the signals of one instrument does: nothing when there
    are none, and otherwise it leaves the instrument at plus or minus
    [position_size] with an entry price, whatever it held before. *)
Lemma instrument_group (sp : params) (s s0 s1 : t) (i : string)
    (sgs : list signal) :
  instrument_signals sp s i = Ok sgs ->
  position_of s0 i = position_of s i ->
  execute_signals sgs s0 = Ok s1 ->
  (sgs = [] /\ s1 = s0)
  \/ exists q px,
       (q = position_size sp \/ q = (- position_size sp)%Z)
       /\ s1 = Make (active s0) (instruments s0) (price_history s0)
                    (volume_history s0)
                    (<[i := q]> (strategy_positions s0))
                    (<[i := px]> (entry_prices s0)).
Proof.
  intros Hsig Hpos Hex. unfold instrument_signals in Hsig.
  destruct (price_history s !! i) as [ph|]; [|discriminate].
  destruct (Z.of_nat (length ph) <? ma_long_period sp)%Z.
  { inversion Hsig; subst. simpl in Hex. inversion Hex. left. auto. }
  destruct (calculate_momentum_signal sp s i) as [sig|e]; [|discriminate].
  rewrite <- Hpos in Hsig.
  destruct (String.eqb sig "BUY" && (position_of s0 i <=? 0)%Z) eqn:EB.
  - apply andb_prop in EB as [_ Hle]. apply Z.leb_le in Hle.
    inversion Hsig; subst; clear Hsig. right.
    destruct (position_of s0 i <? 0)%Z eqn:Elt.
    + apply Z.ltb_lt in Elt. simpl in Hex.
      unfold execute_signal in Hex at 1. simpl in Hex.
      unfold execute_signal, record_entry in Hex. simpl in Hex.
      destruct (price_history s0 !! i) as [ph0|]; [|discriminate].
      destruct (last ph0) as [px|]; [|discriminate].
      inversion Hex; subst; clear Hex.
      exists (position_size sp), px. split; [left; reflexivity|].
      f_equal. unfold position_of at 1. simpl. rewrite lookup_insert_eq. simpl.
      rewrite insert_insert_eq. f_equal. lia.
    + apply Z.ltb_ge in Elt. simpl in Hex.
      unfold execute_signal, record_entry in Hex. simpl in Hex.
      destruct (price_history s0 !! i) as [ph0|]; [|discriminate].
      destruct (last ph0) as [px|]; [|discriminate].
      inversion Hex; subst; clear Hex.
      exists (position_size sp), px. split; [left; reflexivity|].
      f_equal. f_equal. lia.
  - destruct (String.eqb sig "SELL" && (0 <=? position_of s0 i)%Z) eqn:ES.
    + apply andb_prop in ES as [_ Hle]. apply Z.leb_le in Hle.
      inversion Hsig; subst; clear Hsig. right.
      destruct (0 <? position_of s0 i)%Z eqn:Elt.
      * apply Z.ltb_lt in Elt. simpl in Hex.
        unfold execute_signal in Hex at 1. simpl in Hex.
        unfold execute_signal, record_entry in Hex. simpl in Hex.
        destruct (price_history s0 !! i) as [ph0|]; [|discriminate].
        destruct (last ph0) as [px|]; [|discriminate].
        inversion Hex; subst; clear Hex.
        exists (- position_size sp)%Z, px. split; [right; reflexivity|].
        f_equal. unfold position_of at 1. simpl. rewrite lookup_insert_eq. simpl.
        rewrite insert_insert_eq. f_equal. lia.
      * apply Z.ltb_ge in Elt. simpl in Hex.
        unfold execute_signal, record_entry in Hex. simpl in Hex.
        destruct (price_history s0 !! i) as [ph0|]; [|discriminate].
        destruct (last ph0) as [px|]; [|discriminate].
        inversion Hex; subst; clear Hex.
        exists (- position_size sp)%Z, px. split; [right; reflexivity|].
        f_equal. f_equal. lia.
    + inversion Hsig; subst. simpl in Hex. inversion Hex. left. auto.
Qed.

Lemma gather_settled (sp : params) (ins : list string) (s : t) (l : list string) :
  NoDup l ->
  forall sgs s0 s',
    gather sp s l = Ok sgs ->
    MomentumLife.settled sp ins s0 ->
    (forall i, i ∈ l -> position_of s0 i = position_of s i) ->
    execute_signals sgs s0 = Ok s' ->
    MomentumLife.settled sp ins s' /\ price_history s' = price_history s0.
Proof.
  induction 1 as [|i l Hfresh Hnd IH]; intros sgs s0 s' Hg Hs0 Hpos Hex.
  - simpl in Hg. inversion Hg; subst. simpl in Hex. inversion Hex; subst. auto.
  - simpl in Hg.
    destruct (instrument_signals sp s i) as [group|e] eqn:Egroup; [|discriminate].
    destruct (gather sp s l) as [more|e] eqn:Emore; [|discriminate].
    inversion Hg; subst; clear Hg.
    apply execute_signals_app in Hex as (s1 & Hex1 & Hex2).
    assert (Hs1 : MomentumLife.settled sp ins s1
                  /\ price_history s1 = price_history s0
                  /\ forall j, j <> i -> position_of s1 j = position_of s0 j).
    { destruct (instrument_group sp s s0 s1 i group Egroup) as [[_ ->]|Hent].
      - apply Hpos. apply list_elem_of_here.
      - exact Hex1.
      - auto.
      - destruct Hent as (q & px & Hq & ->).
        split; [apply entered_settled; assumption|]. split; [reflexivity|].
        intros j Hne. unfold position_of. simpl.
        rewrite lookup_insert_ne by congruence. reflexivity. }
    destruct Hs1 as (Hs1 & Hph1 & Hother).
    destruct (IH more s1 s' eq_refl Hs1) as [Hs' Hph'].
    + intros j Hj. rewrite Hother.
      * apply Hpos. apply list_elem_of_further. exact Hj.
      * intros ->. contradiction.
    + exact Hex2.
    + split; [exact Hs'|]. rewrite Hph', Hph1. reflexivity.
Qed.

Lemma run_settled (sp : params) (ins : list string) (s s' : t) :
  NoDup ins ->
  MomentumLife.settled sp ins s ->
  run sp s = Ok s' ->
  MomentumLife.settled sp ins s' /\ price_history s' = price_history s.
Proof.
  intros Hnd Hs H. unfold run in H.
  destruct (active s); [|inversion H; subst; auto].
  unfold generate_signals in H.
  destruct (gather sp s (instruments s)) as [sgs|e] eqn:Eg; [|discriminate].
  pose proof Hs as (Hins & _).
  apply (gather_settled sp ins s (instruments s)) with (sgs := sgs) (s0 := s);
    try assumption.
  - rewrite Hins. exact Hnd.
  - reflexivity.
Qed.

Lemma close_all_positions_fold (sp : params) (ins : list string)
    (l : list (string * Z)) (s : t) :
  MomentumLife.settled sp ins s ->
  NoDup l.*1 ->
  (forall i q, (i, q) ∈ l -> strategy_positions s !! i = Some q) ->
  let s' := fold_left (fun acc e => if (e.2 =? 0)%Z then acc
                                    else close_position e.1 acc) l s in
  MomentumLife.settled sp ins s'
  /\ price_history s' = price_history s
  /\ active s' = active s
  /\ (forall i, i ∈ l.*1 -> position_of s' i = 0%Z)
  /\ (forall i, i ∉ l.*1 -> position_of s' i = position_of s i).
Proof.
  revert s. induction l as [|[i q] l IH]; intros s Hs Hnd Hl.
  - simpl. split; [exact Hs|]. split; [reflexivity|]. split; [reflexivity|].
    split; [|reflexivity].
    intros i Hi. apply elem_of_nil in Hi. contradiction.
  - simpl in Hnd. apply NoDup_cons in Hnd as [Hfresh Hnd]. cbn [fold_left].
    set (s1 := if ((i, q).2 =? 0)%Z then s else close_position (i, q).1 s).
    assert (Hq : strategy_positions s !! i = Some q)
      by (apply Hl; apply list_elem_of_here).
    assert (H1 : MomentumLife.settled sp ins s1
                 /\ price_history s1 = price_history s
                 /\ active s1 = active s
                 /\ position_of s1 i = 0%Z
                 /\ forall j, j <> i ->
                      strategy_positions s1 !! j = strategy_positions s !! j).
    { subst s1. simpl. destruct (q =? 0)%Z eqn:E.
      - apply Z.eqb_eq in E. subst q. unfold position_of. rewrite Hq. auto.
      - split; [apply close_position_settled; exact Hs|].
        unfold close_position, position_of. rewrite Hq. simpl. rewrite E. simpl.
        rewrite lookup_insert_eq. repeat split.
        intros j Hne. rewrite lookup_insert_ne by congruence. reflexivity. }
    destruct H1 as (Hs1 & Hph1 & Hact1 & Hzero & Hother).
    destruct (IH s1 Hs1 Hnd) as (Hs' & Hph' & Hact' & Hin & Hout).
    { intros j qj Hj. rewrite Hother.
      - apply Hl. apply list_elem_of_further. exact Hj.
      - intros ->. apply Hfresh. apply list_elem_of_fmap. exists (i, qj).
        split; [reflexivity|exact Hj]. }
    cbv zeta in Hs', Hph', Hact', Hin, Hout.
    split; [exact Hs'|]. split; [congruence|]. split; [congruence|]. split.
    + intros j Hj. simpl in Hj. apply elem_of_cons in Hj as [->|Hj].
      * rewrite Hout by exact Hfresh. exact Hzero.
      * apply Hin. exact Hj.
    + intros j Hj. simpl in Hj.
      rewrite Hout.
      * unfold position_of. rewrite Hother; [reflexivity|].
        intros ->. apply Hj. apply list_elem_of_here.
      * intros Hin'. apply Hj. apply list_elem_of_further. exact Hin'.
Qed.

Lemma set_active_settled (sp : params) (ins : list string) (a : bool) (s : t) :
  MomentumLife.settled sp ins s -> MomentumLife.settled sp ins (set_active a s).
Proof. intros H. exact H. Qed.

Lemma stop_settled (sp : params) (ins : list string) (s : t) :
  MomentumLife.settled sp ins s ->
  MomentumLife.settled sp ins (stop s)
  /\ price_history (stop s) = price_history s
  /\ (active s = true -> forall i, position_of (stop s) i = 0%Z).
Proof.
  intros Hs. unfold stop. destruct (active s) eqn:Ea.
  - unfold close_all_positions.
    destruct (close_all_positions_fold sp ins
                (map_to_list (strategy_positions (set_active false s)))
                (set_active false s))
      as (H1 & H2 & _ & H3 & H4).
    + apply set_active_settled. exact Hs.
    + apply NoDup_fst_map_to_list.
    + intros i q Hi. apply elem_of_map_to_list. exact Hi.
    + cbv zeta in H1, H2, H3, H4. split; [exact H1|]. split; [exact H2|].
      intros _ i.
      destruct (strategy_positions s !! i) as [q|] eqn:Eq.
      * apply H3. apply list_elem_of_fmap. exists (i, q). split; [reflexivity|].
        apply elem_of_map_to_list. exact Eq.
      * rewrite H4.
        -- unfold position_of. simpl. rewrite Eq. reflexivity.
        -- intros Hin. apply list_elem_of_fmap in Hin as ([i' q'] & -> & Hin).
           apply elem_of_map_to_list in Hin. simpl in *. congruence.
  - split; [exact Hs|]. split; [reflexivity|]. discriminate.
Qed.

Lemma step_settled (sp : params) (ins : list string) (ev : MomentumLife.event)
    (s s' : t) :
  NoDup ins ->
  MomentumLife.settled sp ins s ->
  MomentumLife.step sp s ev = Ok s' ->
  MomentumLife.settled sp ins s'.
Proof.
  intros Hnd Hs H. destruct ev as [| |tk| |i]; simpl in H.
  - inversion H; subst. unfold start. destruct (active s); [exact Hs|].
    apply set_active_settled. exact Hs.
  - inversion H; subst. apply stop_settled. exact Hs.
  - unfold update_market_data in H.
    destruct (negb (active s)); [inversion H; subst; exact Hs|].
    destruct (bool_decide _); [|inversion H; subst; exact Hs].
    apply (on_tick_settled sp ins tk s s' Hs H).
  - apply (run_settled sp ins s s' Hnd Hs H).
  - inversion H; subst. apply close_position_settled. exact Hs.
Qed.

(** Whatever happens to a momentum strategy over distinct instruments
    (starts, stops, ticks, runs of its signals, closes) and as long as
    nothing raises: each instrument it trades has a price and a volume
    history of the same length, of at most [max(short, long) + 10] items when
    that bound is positive; every position is flat or exactly plus or minus
    [position_size]; and a position that is not flat has its entry price
    recorded. *)
Theorem momentum_stays_settled (sp : params) (ins : list string)
    (evs : list MomentumLife.event) (s : t) :
  NoDup ins ->
  MomentumLife.steps sp evs (init ins) = Ok s ->
  MomentumLife.settled sp ins s.
Proof.
  intros Hnd. pose proof (init_settled sp ins) as H0. revert H0.
  generalize (init ins) as s0. induction evs as [|ev evs IH]; intros s0 H0 H.
  - simpl in H. inversion H; subst. exact H0.
  - simpl in H. destruct (MomentumLife.step sp s0 ev) as [s1|e] eqn:E;
      [|discriminate].
    apply (IH s1); [|exact H].
    apply (step_settled sp ins ev s0 s1 Hnd H0 E).
Qed.

Lemma momentum_stays_settled_example :
  exists s,
    MomentumLife.steps (Params 1 2 (1 # 2) 25 (1 # 100) (5 # 1000))
      [MomentumLife.Start;
       MomentumLife.Feed (Tick "HDFC" 100 10);
       MomentumLife.Feed (Tick "HDFC" 101 10);
       MomentumLife.Run] (init ["HDFC"; "SBI"]) = Ok s
    /\ position_of s "HDFC" = 25%Z
    /\ MomentumLife.settled (Params 1 2 (1 # 2) 25 (1 # 100) (5 # 1000))
         ["HDFC"; "SBI"] s.
Proof.
  destruct (MomentumLife.steps (Params 1 2 (1 # 2) 25 (1 # 100) (5 # 1000))
              [MomentumLife.Start;
               MomentumLife.Feed (Tick "HDFC" 100 10);
               MomentumLife.Feed (Tick "HDFC" 101 10);
               MomentumLife.Run] (init ["HDFC"; "SBI"])) as [s|e] eqn:E.
  - exists s. split; [reflexivity|]. split.
    + vm_compute in E. inversion E. reflexivity.
    + apply (momentum_stays_settled (Params 1 2 (1 # 2) 25 (1 # 100) (5 # 1000))
               ["HDFC"; "SBI"]
               [MomentumLife.Start;
                MomentumLife.Feed (Tick "HDFC" 100 10);
                MomentumLife.Feed (Tick "HDFC" 101 10);
                MomentumLife.Run]).
      * apply (bool_decide_unpack _). vm_compute. exact I.
      * exact E.
  - vm_compute in E. discriminate E.
Defined.

(** [stop] flattens the book: after a running strategy is stopped every
    position is 0. *)
Theorem stop_flattens (s : t) :
  active s = true -> forall i, position_of (stop s) i = 0%Z.
Proof.
  intros Ha.
  unfold stop. rewrite Ha. unfold close_all_positions.
  assert (H : forall (l : list (string * Z)) (s0 : t),
             NoDup l.*1 ->
             (forall i q, (i, q) ∈ l -> strategy_positions s0 !! i = Some q) ->
             let s' := fold_left (fun acc e => if (e.2 =? 0)%Z then acc
                                               else close_position e.1 acc) l s0 in
             (forall i, i ∈ l.*1 -> position_of s' i = 0%Z)
             /\ (forall i, i ∉ l.*1 -> position_of s' i = position_of s0 i)).
  { induction l as [|[i q] l IH]; intros s0 Hnd Hl.
    - simpl. split; [|reflexivity].
      intros i Hi. apply elem_of_nil in Hi. contradiction.
    - simpl in Hnd. apply NoDup_cons in Hnd as [Hfresh Hnd]. cbn [fold_left].
      set (s1 := if ((i, q).2 =? 0)%Z then s0 else close_position (i, q).1 s0).
      assert (Hq : strategy_positions s0 !! i = Some q)
        by (apply Hl; apply list_elem_of_here).
      assert (H1 : position_of s1 i = 0%Z
                   /\ forall j, j <> i ->
                        strategy_positions s1 !! j = strategy_positions s0 !! j).
      { subst s1. simpl. destruct (q =? 0)%Z eqn:E.
        - apply Z.eqb_eq in E. subst q. unfold position_of. rewrite Hq. auto.
        - unfold close_position, position_of. rewrite Hq. simpl. rewrite E. simpl.
          rewrite lookup_insert_eq. split; [reflexivity|].
          intros j Hne. rewrite lookup_insert_ne by congruence. reflexivity. }
      destruct H1 as [Hzero Hother].
      destruct (IH s1 Hnd) as [Hin Hout].
      { intros j qj Hj. rewrite Hother.
        - apply Hl. apply list_elem_of_further. exact Hj.
        - intros ->. apply Hfresh. apply list_elem_of_fmap. exists (i, qj).
          split; [reflexivity|exact Hj]. }
      cbv zeta in Hin, Hout. split.
      + intros j Hj. simpl in Hj. apply elem_of_cons in Hj as [->|Hj].
        * rewrite Hout by exact Hfresh. exact Hzero.
        * apply Hin. exact Hj.
      + intros j Hj. simpl in Hj. rewrite Hout.
        * unfold position_of. rewrite Hother; [reflexivity|].
          intros ->. apply Hj. apply list_elem_of_here.
        * intros Hin'. apply Hj. apply list_elem_of_further. exact Hin'. }
  intros i.
  destruct (H (map_to_list (strategy_positions (set_active false s)))
              (set_active false s)) as [Hin Hout].
  - apply NoDup_fst_map_to_list.
  - intros j q Hj. apply elem_of_map_to_list. exact Hj.
  - cbv zeta in Hin, Hout.
    destruct (strategy_positions s !! i) as [q|] eqn:Eq.
    + apply Hin. apply list_elem_of_fmap. exists (i, q). split; [reflexivity|].
      apply elem_of_map_to_list. exact Eq.
    + rewrite Hout.
      * unfold position_of. simpl. rewrite Eq. reflexivity.
      * intros Hin'. apply list_elem_of_fmap in Hin' as ([i' q'] & -> & Hin').
        apply elem_of_map_to_list in Hin'. simpl in *. congruence.
Qed.

Lemma stop_flattens_example :
  position_of
    (stop (Make true ["HDFC"] ∅ ∅ {["HDFC" := 25%Z]} {["HDFC" := 100]})) "HDFC"
  = 0%Z.
Proof.
  apply (stop_flattens
           (Make true ["HDFC"] ∅ ∅ {["HDFC" := 25%Z]} {["HDFC" := 100]})).
  reflexivity.
Defined.

Lemma close_position_frame (i : string) (s : t) :
  instruments (close_position i s) = instruments s
  /\ price_history (close_position i s) = price_history s.
Proof. unfold close_position. destruct (_ =? _)%Z; auto. Qed.

Lemma exit_check_frame (sp : params) (i : string) (px : Q) (s s' : t) :
  exit_check sp i px s = Ok s' ->
  instruments s' = instruments s /\ price_history s' = price_history s.
Proof.
  unfold exit_check. intros H.
  destruct (_ =? _)%Z; [inversion H; auto|].
  destruct (Qeq_bool _ _); [discriminate|].
  destruct (Qle_bool _ _); [inversion H; apply close_position_frame|].
  destruct (Qle_bool _ _); inversion H; [apply close_position_frame|auto].
Qed.

Lemma execute_signals_frame (sgs : list signal) (s s' : t) :
  execute_signals sgs s = Ok s' ->
  instruments s' = instruments s /\ price_history s' = price_history s.
Proof.
  revert s. induction sgs as [|sg sgs IH]; intros s H; simpl in H.
  - inversion H. auto.
  - destruct (execute_signal sg s) as [s1|e] eqn:E; [|discriminate].
    destruct (IH s1 H) as [-> ->].
    unfold execute_signal, record_entry in E.
    repeat match type of E with
           | context [if ?b then _ else _] => destruct b
           | context [match ?x with _ => _ end] => destruct x; simpl in E
           end; inversion E; auto.
Qed.

Lemma close_all_positions_frame (s : t) :
  instruments (close_all_positions s) = instruments s
  /\ price_history (close_all_positions s) = price_history s.
Proof.
  unfold close_all_positions.
  generalize (map_to_list (strategy_positions s)) as l. intros l. revert s.
  induction l as [|e l IH]; intros s; [auto|].
  cbn [fold_left].
  destruct (IH (if (e.2 =? 0)%Z then s else close_position e.1 s)) as [-> ->].
  destruct (e.2 =? 0)%Z; [auto|apply close_position_frame].
Qed.

Lemma step_history (sp : params) (ev : MomentumLife.event) (s s' : t) :
  MomentumLife.step sp s ev = Ok s' ->
  instruments s' = instruments s
  /\ forall i ph,
       price_history s !! i = Some ph ->
       exists ph',
         price_history s' !! i = Some ph'
         /\ (length ph' <= length ph + MomentumLife.feeds_of i [ev])%nat.
Proof.
  intros H.
  assert (Hsame : forall s1 : t,
             instruments s1 = instruments s /\ price_history s1 = price_history s ->
             instruments s1 = instruments s
             /\ forall i ph,
                  price_history s !! i = Some ph ->
                  exists ph',
                    price_history s1 !! i = Some ph'
                    /\ (length ph' <= length ph + MomentumLife.feeds_of i [ev])%nat).
  { intros s1 [Hi Hp]. split; [exact Hi|]. intros i ph Hph. exists ph.
    rewrite Hp. split; [exact Hph|lia]. }
  destruct ev as [| |tk| |i]; simpl in H.
  - inversion H; subst. apply Hsame. unfold start. destruct (active s); auto.
  - inversion H; subst. apply Hsame. unfold stop. destruct (active s); [|auto].
    apply (close_all_positions_frame (set_active false s)).
  - unfold update_market_data in H.
    destruct (negb (active s)) eqn:Ea; [inversion H; subst; apply Hsame; auto|].
    destruct (bool_decide _); [|inversion H; subst; apply Hsame; auto].
    unfold on_tick in H. rewrite Ea in H.
    destruct (price_history s !! tick_instrument tk) as [prices|] eqn:Ep;
      [|discriminate].
    destruct (volume_history s !! tick_instrument tk) as [volumes|];
      [|discriminate].
    cbv zeta in H.
    set (prices2 := if (max_history sp <? Z.of_nat (length (prices ++ [tick_ltp tk])))%Z
                    then tail_slice (max_history sp) (prices ++ [tick_ltp tk])
                    else prices ++ [tick_ltp tk]) in *.
    assert (Hlen : (length prices2 <= length prices + 1)%nat).
    { subst prices2. destruct (_ <? _)%Z.
      - unfold tail_slice. destruct (_ <? _)%Z;
          rewrite length_drop, length_app; simpl; lia.
      - rewrite length_app. simpl. lia. }
    match type of H with
    | (if _ then exit_check _ _ _ ?s1 else _) = _ =>
        assert (Hs1 : instruments s' = instruments s1
                      /\ price_history s' = price_history s1)
    end.
    { destruct (_ <=? _)%Z; [apply (exit_check_frame _ _ _ _ _ H)|].
      inversion H. auto. }
    simpl in Hs1. destruct Hs1 as [Hi Hp]. split; [exact Hi|].
    intros i ph Hph. rewrite Hp. simpl.
    destruct (decide (i = tick_instrument tk)) as [->|Hne].
    + rewrite lookup_insert_eq. exists prices2. split; [reflexivity|].
      rewrite String.eqb_refl. rewrite Hph in Ep. inversion Ep; subst. lia.
    + rewrite lookup_insert_ne by congruence. exists ph.
      split; [exact Hph|lia].
  - apply Hsame. unfold run in H. destruct (active s); [|inversion H; auto].
    destruct (generate_signals sp s) as [sgs|e]; [|discriminate].
    apply (execute_signals_frame sgs s s' H).
  - inversion H; subst. apply Hsame. apply close_position_frame.
Qed.

Lemma steps_history (sp : params) (evs : list MomentumLife.event) :
  forall s s' : t,
    MomentumLife.steps sp evs s = Ok s' ->
    instruments s' = instruments s
    /\ forall i ph,
         price_history s !! i = Some ph ->
         exists ph',
           price_history s' !! i = Some ph'
           /\ (length ph' <= length ph + MomentumLife.feeds_of i evs)%nat.
Proof.
  induction evs as [|ev evs IH]; intros s s' H.
  - simpl in H. inversion H; subst. split; [reflexivity|].
    intros i ph Hph. exists ph. split; [exact Hph|simpl; lia].
  - simpl in H. destruct (MomentumLife.step sp s ev) as [s1|e] eqn:E;
      [|discriminate].
    destruct (step_history sp ev s s1 E) as [Hi1 Hp1].
    destruct (IH s1 s' H) as [Hi2 Hp2].
    split; [congruence|]. intros i ph Hph.
    destruct (Hp1 i ph Hph) as (ph1 & Hph1 & Hl1).
    destruct (Hp2 i ph1 Hph1) as (ph2 & Hph2 & Hl2).
    exists ph2. split; [exact Hph2|].
    assert (MomentumLife.feeds_of i (ev :: evs)
            = (MomentumLife.feeds_of i [ev] + MomentumLife.feeds_of i evs)%nat)
      by (destruct ev; simpl; lia).
    lia.
Qed.

Lemma gather_short_history (sp : params) (s : t) (l : list string) :
  (forall i, i ∈ l ->
     exists ph, price_history s !! i = Some ph
                /\ (Z.of_nat (length ph) < ma_long_period sp)%Z) ->
  gather sp s l = Ok [].
Proof.
  induction l as [|i l IH]; intros H; [reflexivity|].
  simpl. unfold instrument_signals.
  destruct (H i) as (ph & -> & Hlen); [apply list_elem_of_here|].
  assert (E : (Z.of_nat (length ph) <? ma_long_period sp)%Z = true)
    by (apply Z.ltb_lt; exact Hlen).
  rewrite E, IH; [reflexivity|].
  intros j Hj. apply H. apply list_elem_of_further. exact Hj.
Qed.

(** A momentum strategy does not trade before it has seen enough ticks:
    as long as every instrument has had fewer than [ma_long_period] ticks
    since the strategy was built, [generate_signals] returns no signal and a
    run leaves the strategy as it is, whatever the prices were. *)
Theorem momentum_waits_for_history (sp : params) (ins : list string)
    (evs : list MomentumLife.event) (s : t) :
  MomentumLife.steps sp evs (init ins) = Ok s ->
  (forall i, i ∈ ins ->
     (Z.of_nat (MomentumLife.feeds_of i evs) < ma_long_period sp)%Z) ->
  generate_signals sp s = Ok [] /\ run sp s = Ok s.
Proof.
  intros H Hfew.
  destruct (steps_history sp evs (init ins) s H) as [Hi Hp].
  assert (Hg : generate_signals sp s = Ok []).
  { unfold generate_signals. apply gather_short_history.
    rewrite Hi. intros i Hin. simpl in Hin.
    destruct (Hp i []) as (ph & Hph & Hlen).
    - simpl. rewrite lookup_constant_map.
      rewrite bool_decide_eq_true_2 by exact Hin. reflexivity.
    - exists ph. split; [exact Hph|]. specialize (Hfew i Hin). simpl in Hlen. lia. }
  split; [exact Hg|].
  unfold run. rewrite Hg. simpl. destruct (active s); reflexivity.
Qed.

Lemma momentum_waits_for_history_example :
  exists s,
    MomentumLife.steps (Params 1 2 (1 # 2) 25 (1 # 100) (5 # 1000))
      [MomentumLife.Start; MomentumLife.Feed (Tick "HDFC" 100 10)]
      (init ["HDFC"]) = Ok s
    /\ generate_signals (Params 1 2 (1 # 2) 25 (1 # 100) (5 # 1000)) s = Ok []
    /\ run (Params 1 2 (1 # 2) 25 (1 # 100) (5 # 1000)) s = Ok s.
Proof.
  destruct (MomentumLife.steps (Params 1 2 (1 # 2) 25 (1 # 100) (5 # 1000))
              [MomentumLife.Start; MomentumLife.Feed (Tick "HDFC" 100 10)]
              (init ["HDFC"])) as [s|e] eqn:E.
  - exists s. split; [reflexivity|].
    apply (momentum_waits_for_history
             (Params 1 2 (1 # 2) 25 (1 # 100) (5 # 1000)) ["HDFC"]
             [MomentumLife.Start; MomentumLife.Feed (Tick "HDFC" 100 10)]).
    + exact E.
    + intros i Hi. apply list_elem_of_singleton in Hi. subst i.
      vm_compute. reflexivity.
  - vm_compute in E. discriminate E.
Defined.

End MomentumFacts.
